(** * The intent pipeline of [github_agent_streamlit.py]

    A shallow embedding of class [GitHubAgent] (intent classification with a
    keyword fallback, owner/repo repair, action dispatch, response
    formatting and the [process] entry point) together with the part of
    [OllamaClient] it calls, and the properties proved about them.

    Python values are modelled dynamically (the intent is whatever
    [json.loads] produced), exceptions are explicit results, and every call
    to a remote collaborator is recorded in a trace. *)

From Stdlib Require Import List ZArith NArith Bool Lia.
From Stdlib Require String Ascii.
From Stdlib Require Import Floats.PrimFloat.
Import ListNotations.
Import String.StringSyntax.
Delimit Scope string_scope with string.

Set Implicit Arguments.
Set Warnings "-register-all".

(** ** Python strings: sequences of Unicode code points *)

Definition char := N.
Definition str := list char.

Module Utf8.
(** String literals of this file are UTF-8 byte strings; [decode] reads
    them as the code points Python sees. *)

Definition cont (b : N) : N := N.land b 63.

Fixpoint decode (bs : list N) : str :=
  match bs with
  | [] => []
  | b0 :: r0 =>
      if (b0 <? 128)%N then b0 :: decode r0
      else if (b0 <? 224)%N then
        match r0 with
        | b1 :: r1 => (N.land b0 31 * 64 + cont b1)%N :: decode r1
        | [] => [b0]
        end
      else if (b0 <? 240)%N then
        match r0 with
        | b1 :: b2 :: r2 =>
            (N.land b0 15 * 4096 + cont b1 * 64 + cont b2)%N :: decode r2
        | _ => [b0]
        end
      else
        match r0 with
        | b1 :: b2 :: b3 :: r3 =>
            (N.land b0 7 * 262144 + cont b1 * 4096 + cont b2 * 64 + cont b3)%N
              :: decode r3
        | _ => [b0]
        end
  end.

Fixpoint bytes (s : String.string) : list N :=
  match s with
  | String.EmptyString => []
  | String.String a s' => Ascii.N_of_ascii a :: bytes s'
  end.
End Utf8.

(** [py "text"] is the Python string with that text. *)
Definition py (s : String.string) : str := Utf8.decode (Utf8.bytes s).
Arguments py s%_string.

(** [pyq "text"] is the same with every apostrophe read as a double quote,
    for texts that carry JSON. *)
Definition pyq (s : String.string) : str :=
  map (fun c => if (c =? 39)%N then 34%N else c) (py s).
Arguments pyq s%_string.

Module PyStr.

Fixpoint eqb (a b : str) : bool :=
  match a, b with
  | [], [] => true
  | x :: a', y :: b' => (x =? y)%N && eqb a' b'
  | _, _ => false
  end.

(** [str.isspace] for one code point (CPython's whitespace table). *)
Definition is_space (c : char) : bool :=
  ((9 <=? c) && (c <=? 13) || (28 <=? c) && (c <=? 32)
   || (c =? 133) || (c =? 160) || (c =? 5760)
   || (8192 <=? c) && (c <=? 8202)
   || (c =? 8232) || (c =? 8233) || (c =? 8239) || (c =? 8287)
   || (c =? 12288))%N.

Fixpoint lstrip (s : str) : str :=
  match s with
  | c :: s' => if is_space c then lstrip s' else s
  | [] => []
  end.

Definition rstrip (s : str) : str := rev (lstrip (rev s)).

(** [s.strip()] *)
Definition strip (s : str) : str := rstrip (lstrip s).

(** [s.startswith(p)] *)
Fixpoint starts_with (p s : str) : bool :=
  match p, s with
  | [], _ => true
  | x :: p', y :: s' => (x =? y)%N && starts_with p' s'
  | _ :: _, [] => false
  end.

(** [sub in s] *)
Fixpoint contains (sub s : str) : bool :=
  starts_with sub s
  || match s with
     | [] => false
     | _ :: s' => contains sub s'
     end.

(** [s.split(sep)] for a non-empty [sep]: occurrences are taken left to
    right and do not overlap; [skip] counts the characters of a separator
    still to be passed over. *)
Fixpoint split_go (sep : str) (skip : nat) (cur : str) (s : str)
  : list str :=
  match s with
  | [] => [rev cur]
  | c :: s' =>
      match skip with
      | S k => split_go sep k cur s'
      | O =>
          if starts_with sep s
          then rev cur :: split_go sep (length sep - 1) [] s'
          else split_go sep O (c :: cur) s'
      end
  end.

Definition split (sep s : str) : list str := split_go sep 0 [] s.

(** [s.replace(old, new)] for a non-empty [old]. *)
Fixpoint replace_go (old new : str) (skip : nat) (s : str) : str :=
  match s with
  | [] => []
  | c :: s' =>
      match skip with
      | S k => replace_go old new k s'
      | O =>
          if starts_with old s
          then new ++ replace_go old new (length old - 1) s'
          else c :: replace_go old new O s'
      end
  end.

Definition replace (old new s : str) : str := replace_go old new 0 s.

(** [s[start:stop]] for indices that are not negative. *)
Definition slice (s : str) (start stop : Z) : str :=
  firstn (Z.to_nat (stop - start)) (skipn (Z.to_nat start) s).

End PyStr.

(** ** Python values, exceptions and dictionaries *)

(** The values [json.loads] and the remote clients produce. A [dict] keeps
    its keys in insertion order, as Python's does. *)
Inductive pyval : Type :=
| PNone
| PBool (b : bool)
| PInt (n : Z)
| PFloat (f : float)
| PStr (s : str)
| PList (l : list pyval)
| PDict (d : list (str * pyval)).

Definition dict := list (str * pyval).

Inductive exn : Type :=
| KeyError (key : pyval)
| IndexError
| TypeError
| AttributeError
| JSONDecodeError
| RequestError (text : str).

Inductive result (A : Type) : Type :=
| Ok (a : A)
| Raise (e : exn).
Arguments Ok {A} a.
Arguments Raise {A} e.

Definition rbind {A B} (r : result A) (k : A -> result B) : result B :=
  match r with
  | Ok a => k a
  | Raise e => Raise e
  end.

Declare Scope result_scope.
Delimit Scope result_scope with result.
Notation "x <- r ;; k" := (rbind r (fun x => k))
  (at level 61, r at next level, right associativity) : result_scope.
Notation "' pat <- r ;; k" := (rbind r (fun x => let pat := x in k))
  (at level 61, pat pattern, r at next level, right associativity)
  : result_scope.

Module Dict.

(** [d.get(k)] as an option: [None] when the key is absent. *)
Fixpoint get (k : str) (d : dict) : option pyval :=
  match d with
  | [] => None
  | (k', v) :: d' => if PyStr.eqb k k' then Some v else get k d'
  end.

(** [d[k] = v]: an existing key keeps its place, a new one goes last. *)
Fixpoint set (k : str) (v : pyval) (d : dict) : dict :=
  match d with
  | [] => [(k, v)]
  | (k', v') :: d' =>
      if PyStr.eqb k k' then (k, v) :: d' else (k', v') :: set k v d'
  end.

(** [k in d] *)
Definition mem (k : str) (d : dict) : bool :=
  match get k d with Some _ => true | None => false end.

End Dict.

Module Py.

(** Truth value of an object, as [if], [and] and [not] test it. *)
Definition truthy (v : pyval) : bool :=
  match v with
  | PNone => false
  | PBool b => b
  | PInt n => negb (n =? 0)%Z
  | PFloat f => negb (PrimFloat.eqb f 0%float)
  | PStr s => match s with [] => false | _ => true end
  | PList l => match l with [] => false | _ => true end
  | PDict d => match d with [] => false | _ => true end
  end.

(** [v == s] for a string [s]. *)
Definition eq_str (v : pyval) (s : str) : bool :=
  match v with
  | PStr s' => PyStr.eqb s' s
  | _ => false
  end.

(** [v.get(k, default)]: only a dict has the method. *)
Definition get (v : pyval) (k : str) (default : pyval) : result pyval :=
  match v with
  | PDict d => Ok (match Dict.get k d with Some x => x | None => default end)
  | _ => Raise AttributeError
  end.

(** [v[k]] for a string key. *)
Definition getitem (v : pyval) (k : str) : result pyval :=
  match v with
  | PDict d =>
      match Dict.get k d with
      | Some x => Ok x
      | None => Raise (KeyError (PStr k))
      end
  | _ => Raise TypeError
  end.

(** [v[0]] *)
Definition getitem0 (v : pyval) : result pyval :=
  match v with
  | PList (x :: _) => Ok x
  | PList [] => Raise IndexError
  | PStr (c :: _) => Ok (PStr [c])
  | PStr [] => Raise IndexError
  | PDict _ => Raise (KeyError (PInt 0))
  | _ => Raise TypeError
  end.

(** [sub in v] for a string [sub]: substring test on a string, membership
    in a list, key test on a dict, and a [TypeError] on the rest. *)
Definition str_in (sub : str) (v : pyval) : result bool :=
  match v with
  | PStr s => Ok (PyStr.contains sub s)
  | PList l => Ok (existsb (fun x => eq_str x sub) l)
  | PDict d => Ok (Dict.mem sub d)
  | _ => Raise TypeError
  end.

(** [v.strip()] and [v.split(sep)]: string methods. *)
Definition strip (v : pyval) : result str :=
  match v with
  | PStr s => Ok (PyStr.strip s)
  | _ => Raise AttributeError
  end.

Definition split (v : pyval) (sep : str) : result (list str) :=
  match v with
  | PStr s => Ok (PyStr.split sep s)
  | _ => Raise AttributeError
  end.

(** The literals [0.3] and [0.7], as the doubles nearest to them. *)
Definition f03 : float := 0x1.3333333333333p-2%float.
Definition f07 : float := 0x1.6666666666666p-1%float.

(** [v < 0.3]. An integer compares by its exact value, a boolean as 0 or
    1; the other types raise [TypeError]. *)
Definition lt_03 (v : pyval) : result bool :=
  match v with
  | PFloat f => Ok (PrimFloat.ltb f f03)
  | PInt n => Ok (n <=? 0)%Z
  | PBool b => Ok (negb b)
  | _ => Raise TypeError
  end.

(** Whether the object can be a dict key ([k in d] hashes it). *)
Definition hashable (v : pyval) : bool :=
  match v with
  | PList _ | PDict _ => false
  | _ => true
  end.

End Py.

(** ** The pattern [([a-zA-Z0-9_.-]+)/([a-zA-Z0-9_.-]+)] under [re.search] *)

Module Re.

Definition slash : char := 47%N.

(** The character class [[a-zA-Z0-9_.-]]. *)
Definition is_tok (c : char) : bool :=
  ((97 <=? c) && (c <=? 122) || (65 <=? c) && (c <=? 90)
   || (48 <=? c) && (c <=? 57)
   || (c =? 95) || (c =? 46) || (c =? 45))%N.

(** The longest run of class characters at the head, and the rest. *)
Fixpoint take_tok (s : str) : str * str :=
  match s with
  | c :: s' =>
      if is_tok c then let (g, r) := take_tok s' in (c :: g, r) else ([], s)
  | [] => ([], [])
  end.

(** A match anchored at the head of [s]. Each [+] is greedy; giving back
    characters of the first group never helps, as the next character
    would then be of the class and not the slash. *)
Definition match_here (s : str) : option (str * str) :=
  match take_tok s with
  | ((_ :: _) as g1, c :: r) =>
      if (c =? slash)%N
      then match take_tok r with
           | ((_ :: _) as g2, _) => Some (g1, g2)
           | _ => None
           end
      else None
  | _ => None
  end.

(** [re.search(pattern, s)]: the match at the leftmost position that has
    one, as its two groups. *)
Fixpoint search (s : str) : option (str * str) :=
  match match_here s with
  | Some m => Some m
  | None =>
      match s with
      | [] => None
      | _ :: s' => search s'
      end
  end.

End Re.

(** ** Remote collaborators and the trace of calls to them *)

Module GitHub.
(** One invocation of a [GitHubClient] method, with its arguments. *)
Inductive call : Type :=
| list_repos (username org : pyval)
| get_repo (owner repo : str)
| list_issues (owner repo : str) (state : pyval)
| create_issue (owner repo : str) (title body : pyval)
| list_prs (owner repo : str) (state : pyval)
| list_branches (owner repo : str)
| list_commits (owner repo : str)
| get_user
| request (method endpoint : str)
| search_repos (query : pyval).
End GitHub.

(** A chat message [{"role": r, "content": c}]. *)
Definition message := (str * str)%type.

Inductive event : Type :=
| EvChat (messages : list message)
| EvGenerate (prompt : str)
| EvGitHub (c : GitHub.call).

(** A computation that may raise and that records its remote calls. *)
Definition M (A : Type) : Type := (list event * result A)%type.

Definition ret {A} (a : A) : M A := ([], Ok a).

Definition bind {A B} (m : M A) (k : A -> M B) : M B :=
  match m with
  | (t, Ok a) => let (t', r) := k a in (t ++ t', r)
  | (t, Raise e) => (t, Raise e)
  end.

Definition lift {A} (r : result A) : M A := ([], r).

Definition emit (e : event) : M unit := ([e], Ok tt).

(** [try: m  except Exception as e: h e] *)
Definition try_with {A} (m : M A) (h : exn -> M A) : M A :=
  match m with
  | (t, Ok a) => (t, Ok a)
  | (t, Raise e) => let (t', r) := h e in (t ++ t', r)
  end.

Declare Scope M_scope.
Delimit Scope M_scope with M.
Notation "x <- m ;; k" := (bind m (fun x => k))
  (at level 61, m at next level, right associativity) : M_scope.
Notation "' pat <- m ;; k" := (bind m (fun x => let pat := x in k))
  (at level 61, pat pattern, m at next level, right associativity) : M_scope.
Notation "m ;; k" := (bind m (fun _ => k))
  (at level 61, right associativity) : M_scope.

Definition trace {A} (m : M A) : list event := fst m.
Definition outcome {A} (m : M A) : result A := snd m.

(** What the interpreter and its library supply. *)
Record Runtime : Type := {
  str_lower : str -> str;             (* [str.lower] *)
  json_loads : str -> result pyval;   (* [json.loads] *)
  json_dumps : pyval -> str;          (* [json.dumps(., ensure_ascii=False)] *)
  py_repr : pyval -> str;             (* [str(v)] of a value that is not a string *)
  exn_text : exn -> str               (* [str(e)] *)
}.

(** What the outside world answers. [github c] is what the client method
    returns (a payload or a dict with an ["error"] key: [_request] catches
    every failure); the two posts stand for [requests.post] followed by
    [response.json()], which may raise. *)
Record Services : Type := {
  github : GitHub.call -> pyval;
  chat_post : list message -> result pyval;
  generate_post : str -> result pyval
}.

(** ** Constants of the source *)

Definition SYSTEM_PROMPT : str := pyq "Você é um assistente de GitHub. Analise o pedido e retorne APENAS JSON válido.

Formato obrigatório:
{'action': '<ação>', 'params': {<parâmetros>}, 'confidence': <0.0-1.0>}

Ações disponíveis:
- list_repos: username?, org?
- get_repo: owner, repo (SEMPRE extraia do formato owner/repo)
- list_issues: owner, repo, state? (ex: microsoft/vscode → owner='microsoft', repo='vscode')
- create_issue: owner, repo, title, body?
- list_prs: owner, repo, state?
- list_branches: owner, repo
- list_commits: owner, repo  
- get_user: username?
- search_repos: query
- unknown: se não souber

EXEMPLOS IMPORTANTES:
'issues do microsoft/vscode' → {'action': 'list_issues', 'params': {'owner': 'microsoft', 'repo': 'vscode'}, 'confidence': 1.0}
'repositório facebook/react' → {'action': 'get_repo', 'params': {'owner': 'facebook', 'repo': 'react'}, 'confidence': 1.0}
'branches do torvalds/linux' → {'action': 'list_branches', 'params': {'owner': 'torvalds', 'repo': 'linux'}, 'confidence': 1.0}

REGRA CRÍTICA: Quando o usuário mencionar 'owner/repo', SEMPRE separe em owner e repo distintos nos params.
Responda APENAS com JSON, sem texto adicional.".

Definition fence : str := py "```".
Definition lbrace : char := 123%N.
Definition rbrace : char := 125%N.

Definition k_action := py "action".
Definition k_params := py "params".
Definition k_confidence := py "confidence".
Definition k_owner := py "owner".
Definition k_repo := py "repo".
Definition k_repository := py "repository".
Definition k_error := py "error".
Definition k_success := py "success".
Definition k_message := py "message".
Definition k_intent := py "intent".
Definition k_result := py "result".
Definition k_formatted := py "formatted".
Definition unknown := py "unknown".

Definition guidance : str :=
  py "Não entendi o pedido. Tente: 'Liste meus repositórios' ou 'Mostre issues do microsoft/vscode'".

(** An Error Record: [{"error": msg}]. *)
Definition error_record (msg : str) : pyval := PDict [(k_error, PStr msg)].

(** ** [OllamaClient] and [GitHubAgent] *)

Section Agent.

Variable rt : Runtime.
Variable sv : Services.

(** A value inside an f-string: a string stands for itself. *)
Definition fmt (v : pyval) : str :=
  match v with
  | PStr s => s
  | _ => py_repr rt v
  end.

(** *** [OllamaClient.chat] *)
Definition chat (messages : list message) : M pyval :=
  (emit (EvChat messages) ;;
   ret match (j <- chat_post sv messages ;;
              choices <- Py.getitem j (py "choices") ;;
              first <- Py.getitem0 choices ;;
              msg <- Py.getitem first (py "message") ;;
              Py.getitem msg (py "content"))%result
       with
       | Ok content => content
       | Raise e => PStr (py "Erro Ollama: " ++ exn_text rt e)
       end)%M.

(** *** [OllamaClient.generate], called without a system text *)
Definition generate (prompt : str) : M pyval :=
  (emit (EvGenerate prompt) ;;
   ret match (j <- generate_post sv prompt ;;
              Py.get j (py "response") (PStr []))%result
       with
       | Ok text => text
       | Raise e => PStr (py "Erro: " ++ exn_text rt e)
       end)%M.

(** *** [GitHubAgent.parse_intent]: the text handed to [json.loads] *)

(** The fence step: with a fence marker in the text, what stands between
    the first two markers, every ["json"] removed, stripped. *)
Definition unfence (json_str : str) : result str :=
  if PyStr.contains fence json_str
  then match PyStr.split fence json_str with
       | _ :: inner :: _ =>
           Ok (PyStr.strip (PyStr.replace (py "json") [] inner))
       | _ => Raise IndexError
       end
  else Ok json_str.

(** The loop over [enumerate(json_str)]: [i] is the index of the head of
    [s]; the answer is the pair [(start, i)] at the [break]. *)
Fixpoint scan_braces (s : str) (i depth start : Z) : option (Z * Z) :=
  match s with
  | [] => None
  | c :: s' =>
      if (c =? lbrace)%N then
        scan_braces s' (i + 1) (depth + 1)
                    (if (depth =? 0)%Z then i else start)
      else if (c =? rbrace)%N then
        let depth := (depth - 1)%Z in
        if (depth =? 0)%Z && (0 <=? start)%Z
        then Some (start, i)
        else scan_braces s' (i + 1) depth start
      else scan_braces s' (i + 1) depth start
  end.

Definition extract_span (json_str : str) : str :=
  match scan_braces json_str 0 0 (-1) with
  | Some (start, i) => PyStr.slice json_str start (i + 1)
  | None => json_str
  end.

Definition json_candidate (response : pyval) : result str :=
  (json_str <- Py.strip response ;;
   json_str <- unfence json_str ;;
   Ok (extract_span json_str))%result.

(** *** [GitHubAgent._enrich_intent] *)

(** [p.get("owner") and p.get("repo") and "/" not in p.get("owner", empty)],
    where [empty] is the empty string. *)
Definition has_owner_repo (p : pyval) : result bool :=
  (owner <- Py.get p k_owner PNone ;;
   if Py.truthy owner then
     repo <- Py.get p k_repo PNone ;;
     if Py.truthy repo then
       owner <- Py.get p k_owner (PStr []) ;;
       has_slash <- Py.str_in [Re.slash] owner ;;
       Ok (negb has_slash)
     else Ok false
   else Ok false)%result.

Definition _enrich_intent (user_input : str) (intent : pyval)
  : result dict :=
  match intent with
  | PDict i =>
      let p := match Dict.get k_params i with
               | Some p => p
               | None => PDict []
               end in
      (valid <- has_owner_repo p ;;
       if valid then Ok i
       else match Re.search user_input with
            | Some (g1, g2) =>
                params <- Py.getitem intent k_params ;;
                match params with
                | PDict pd =>
                    Ok (Dict.set k_params
                          (PDict (Dict.set k_repo (PStr g2)
                                    (Dict.set k_owner (PStr g1) pd))) i)
                | _ => Raise TypeError
                end
            | None => Ok i
            end)%result
  | _ => Raise AttributeError
  end.

(** *** [GitHubAgent._fallback_parse] *)

(** [any(w in text for w in words)] *)
Definition any_in (words : list str) (text : str) : bool :=
  existsb (fun w => PyStr.contains w text) words.

Definition issue_terms := [py "issue"; py "issues"; py "problemas"].
Definition branch_terms := [py "branch"; py "branches"; py "ramos"].
Definition commit_terms := [py "commit"; py "commits"].
Definition pr_terms :=
  [py "pr"; py "prs"; py "pull request"; py "pull requests"].
Definition repo_terms := [py "repo"; py "repositório"; py "repositorio"].
Definition search_terms :=
  [py "busca"; py "buscar"; py "pesquisa"; py "search"].
Definition my_repos_terms :=
  [py "meus repo"; py "meus reposit"; py "list repo"].

Definition nonempty (s : str) : bool :=
  match s with [] => false | _ => true end.

Definition fallback_action (user_lower owner : str) : str :=
  if any_in issue_terms user_lower then py "list_issues"
  else if any_in branch_terms user_lower then py "list_branches"
  else if any_in commit_terms user_lower then py "list_commits"
  else if any_in pr_terms user_lower then py "list_prs"
  else if any_in repo_terms user_lower && nonempty owner then py "get_repo"
  else if any_in search_terms user_lower then py "search_repos"
  else if any_in my_repos_terms user_lower then py "list_repos"
  else unknown.

Definition _fallback_parse (user_input : str) : dict :=
  let user_lower := str_lower rt user_input in
  let m := Re.search user_input in
  let owner := match m with Some (g1, _) => g1 | None => [] end in
  let repo := match m with Some (_, g2) => g2 | None => [] end in
  let action := fallback_action user_lower owner in
  [ (k_action, PStr action);
    (k_params, PDict [(k_owner, PStr owner); (k_repo, PStr repo)]);
    (k_confidence,
     PFloat (if nonempty owner && nonempty repo then Py.f07 else Py.f03)) ].

(** *** [GitHubAgent.parse_intent] *)

(** The body of the [try]. *)
Definition parse_body (response : pyval) (user_input : str)
  : result dict :=
  (json_str <- json_candidate response ;;
   intent <- json_loads rt json_str ;;
   _enrich_intent user_input intent)%result.

(** The [try] with its bare [except]. *)
Definition parse_response (response : pyval) (user_input : str) : dict :=
  match parse_body response user_input with
  | Ok intent => intent
  | Raise _ => _fallback_parse user_input
  end.

Definition parse_intent (user_input : str) : M dict :=
  (response <- chat [(py "system", SYSTEM_PROMPT); (py "user", user_input)] ;;
   ret (parse_response response user_input))%M.

(** *** [GitHubAgent.execute] *)

(** The loop of [get_owner_repo] over the keys: the first value that is
    true and holds a slash gives its first two segments. *)
Fixpoint scan_keys (p : pyval) (keys : list str)
  : result (option (str * str)) :=
  match keys with
  | [] => Ok None
  | key :: keys' =>
      (val <- Py.get p key (PStr []) ;;
       if Py.truthy val then
         has_slash <- Py.str_in [Re.slash] val ;;
         if has_slash then
           parts <- Py.split val [Re.slash] ;;
           match parts with
           | a :: b :: _ => Ok (Some (PyStr.strip a, PyStr.strip b))
           | _ => scan_keys p keys'
           end
         else scan_keys p keys'
       else scan_keys p keys')%result
  end.

Definition get_owner_repo (p : pyval) : result (str * str) :=
  (owner <- Py.get p k_owner (PStr []) ;;
   repo <- Py.get p k_repo (PStr []) ;;
   found <- scan_keys p [k_owner; k_repo; k_repository] ;;
   match found with
   | Some segments => Ok segments
   | None =>
       o <- (if Py.truthy owner then Py.strip owner else Ok []) ;;
       r <- (if Py.truthy repo then Py.strip repo else Ok []) ;;
       Ok (o, r)
   end)%result.

(** A call of a client method. *)
Definition gh (c : GitHub.call) : M pyval :=
  (emit (EvGitHub c) ;; ret (github sv c))%M.

Definition msg_owner_repo_ex := py "Informe owner/repo. Ex: microsoft/vscode".
Definition msg_owner_repo := py "Informe owner/repo".
Definition msg_query := py "Informe o termo de busca".
Definition msg_unrecognized := py "Ação não reconhecida".

(** The dict [actions]: each entry is the body of its lambda. *)
Definition actions (p : pyval) (owner repo : str) : list (str * M pyval) :=
  let both := nonempty owner && nonempty repo in
  let opt k := lift (Py.get p k PNone) in
  let dflt k d := lift (Py.get p k (PStr d)) in
  [ (py "list_repos",
     (username <- opt (py "username") ;; org <- opt (py "org") ;;
      gh (GitHub.list_repos username org))%M);
    (py "get_repo",
     if both then gh (GitHub.get_repo owner repo)
     else ret (error_record msg_owner_repo_ex));
    (py "list_issues",
     if both
     then (state <- dflt (py "state") (py "open") ;;
           gh (GitHub.list_issues owner repo state))%M
     else ret (error_record msg_owner_repo_ex));
    (py "create_issue",
     if both
     then (title <- lift (Py.getitem p (py "title")) ;;
           body <- dflt (py "body") [] ;;
           gh (GitHub.create_issue owner repo title body))%M
     else ret (error_record msg_owner_repo));
    (py "list_prs",
     if both
     then (state <- dflt (py "state") (py "open") ;;
           gh (GitHub.list_prs owner repo state))%M
     else ret (error_record msg_owner_repo));
    (py "list_branches",
     if both then gh (GitHub.list_branches owner repo)
     else ret (error_record msg_owner_repo));
    (py "list_commits",
     if both then gh (GitHub.list_commits owner repo)
     else ret (error_record msg_owner_repo));
    (py "get_user",
     (username <- opt (py "username") ;;
      if negb (Py.truthy username) then gh GitHub.get_user
      else (username <- lift (Py.getitem p (py "username")) ;;
            gh (GitHub.request (py "GET") (py "/users/" ++ fmt username))))%M);
    (py "search_repos",
     (query <- opt (py "query") ;;
      if Py.truthy query
      then (query <- dflt (py "query") [] ;; gh (GitHub.search_repos query))
      else ret (error_record msg_query))%M) ].

Fixpoint lookup {A} (k : str) (table : list (str * A)) : option A :=
  match table with
  | [] => None
  | (k', a) :: table' => if PyStr.eqb k k' then Some a else lookup k table'
  end.

(** The two [except] clauses around the call of the lambda. *)
Definition execute_handler (e : exn) : M pyval :=
  match e with
  | KeyError _ =>
      ret (error_record
             (py "Parâmetro faltando: " ++ exn_text rt e
              ++ py ". Tente ser mais específico, ex: 'issues do microsoft/vscode'"))
  | _ => ret (error_record (py "Erro ao executar: " ++ exn_text rt e))
  end.

Definition execute (intent : dict) : M pyval :=
  let action := match Dict.get k_action intent with
                | Some a => a
                | None => PStr unknown
                end in
  let p := match Dict.get k_params intent with
           | Some p => p
           | None => PDict []
           end in
  ('(owner, repo) <- lift (get_owner_repo p) ;;
   if Py.hashable action then
     match action with
     | PStr name =>
         match lookup name (actions p owner repo) with
         | Some body => try_with body execute_handler
         | None => ret (error_record msg_unrecognized)
         end
     | _ => ret (error_record msg_unrecognized)
     end
   else lift (Raise TypeError))%M.

(** *** [GitHubAgent.format_response] *)

Definition format_prompt (action : pyval) (data_str : str) : str :=
  py "Formate estes dados do GitHub de forma clara em português brasileiro, use markdown com emojis:"
  ++ [10%N; 10%N] ++ py "Ação: " ++ fmt action
  ++ [10%N] ++ py "Dados: " ++ data_str.

(** [isinstance(data, dict) and "error" in data], with the value found. *)
Definition error_of (data : pyval) : option pyval :=
  match data with
  | PDict d => Dict.get k_error d
  | _ => None
  end.

Definition format_response (action data : pyval) : M pyval :=
  match error_of data with
  | Some err => ret (PStr (py "❌ **Erro:** " ++ fmt err))
  | None =>
      let data_str := PyStr.slice (json_dumps rt data) 0 3000 in
      generate (format_prompt action data_str)
  end.

(** *** [GitHubAgent.process] *)

(** [intent.get("action") == "unknown" or intent.get("confidence", 0) < 0.3] *)
Definition gate_rejects (intent : dict) : result bool :=
  let action := match Dict.get k_action intent with
                | Some a => a
                | None => PNone
                end in
  if Py.eq_str action unknown then Ok true
  else Py.lt_03 (match Dict.get k_confidence intent with
                 | Some c => c
                 | None => PInt 0
                 end).

Definition process (user_input : str) : M pyval :=
  (intent <- parse_intent user_input ;;
   rejected <- lift (gate_rejects intent) ;;
   if rejected : bool then
     ret (PDict [(k_success, PBool false); (k_message, PStr guidance)])
   else
     result <- execute intent ;;
     action <- lift (Py.getitem (PDict intent) k_action) ;;
     formatted <- format_response action result ;;
     ret (PDict [(k_success, PBool true); (k_intent, PDict intent);
                 (k_result, result); (k_formatted, formatted)]))%M.

End Agent.

(** ** A reference runtime for the worked examples

    The theorems below hold for every [Runtime]. The examples run on this
    one, which follows CPython on the texts they use: [str.lower] on code
    points below 256; [json.loads] on JSON text whose integers have at most
    4300 digits, whose other numbers have at most 15 significant digits
    and a decimal exponent within 22 (the range where one correctly
    rounded operation gives the double), and whose nesting stays below the
    interpreter's recursion limit; [json.dumps] on values without floats. *)

Module Ref.

Definition lower_char (c : char) : char :=
  if ((65 <=? c) && (c <=? 90)
      || (192 <=? c) && (c <=? 222) && negb (c =? 215))%N
  then (c + 32)%N else c.

Definition lower (s : str) : str := map lower_char s.

(** *** Decoding JSON *)

Inductive parsed (A : Type) : Type :=
| Parsed (a : A) (rest : str)
| Malformed.
Arguments Parsed {A} a rest.
Arguments Malformed {A}.

Definition is_ws (c : char) : bool :=
  ((c =? 32) || (c =? 9) || (c =? 10) || (c =? 13))%N.

Fixpoint skip_ws (s : str) : str :=
  match s with
  | c :: s' => if is_ws c then skip_ws s' else s
  | [] => []
  end.

Definition is_digit (c : char) : bool := ((48 <=? c) && (c <=? 57))%N.

Fixpoint take_digits (s : str) : str * str :=
  match s with
  | c :: s' =>
      if is_digit c then let (d, r) := take_digits s' in (c :: d, r)
      else ([], s)
  | [] => ([], [])
  end.

Definition digits_value (ds : str) : Z :=
  fold_left (fun acc c => (10 * acc + Z.of_N (c - 48))%Z) ds 0%Z.

Definition hex_value (c : char) : option N :=
  if is_digit c then Some (c - 48)%N
  else if ((97 <=? c) && (c <=? 102))%N then Some (c - 87)%N
  else if ((65 <=? c) && (c <=? 70))%N then Some (c - 55)%N
  else None.

Definition hex4 (a b c d : char) : option N :=
  match hex_value a, hex_value b, hex_value c, hex_value d with
  | Some x, Some y, Some z, Some w =>
      Some (x * 4096 + y * 256 + z * 16 + w)%N
  | _, _, _, _ => None
  end.

Definition simple_escape (c : char) : option char :=
  if (c =? 34)%N then Some 34%N
  else if (c =? 92)%N then Some 92%N
  else if (c =? 47)%N then Some 47%N
  else if (c =? 98)%N then Some 8%N
  else if (c =? 102)%N then Some 12%N
  else if (c =? 110)%N then Some 10%N
  else if (c =? 114)%N then Some 13%N
  else if (c =? 116)%N then Some 9%N
  else None.

(** The body of a string literal, after its opening quote. *)
Fixpoint scanstring (s : str) (acc : str) : parsed str :=
  match s with
  | [] => Malformed
  | c :: r =>
      if (c =? 34)%N then Parsed (rev acc) r
      else if (c <? 32)%N then Malformed
      else if (c =? 92)%N then
        match r with
        | e :: r1 =>
            if (e =? 117)%N then
              match r1 with
              | h1 :: h2 :: h3 :: h4 :: r2 =>
                  match hex4 h1 h2 h3 h4 with
                  | Some u =>
                      if ((55296 <=? u) && (u <=? 56319))%N then
                        match r2 with
                        | b :: v :: l1 :: l2 :: l3 :: l4 :: r3 =>
                            match (if (b =? 92)%N && (v =? 117)%N
                                   then hex4 l1 l2 l3 l4 else None) with
                            | Some lo =>
                                if ((56320 <=? lo) && (lo <=? 57343))%N
                                then scanstring r3
                                       ((65536 + (u - 55296) * 1024
                                         + (lo - 56320))%N :: acc)
                                else scanstring r2 (u :: acc)
                            | None => scanstring r2 (u :: acc)
                            end
                        | _ => scanstring r2 (u :: acc)
                        end
                      else scanstring r2 (u :: acc)
                  | None => Malformed
                  end
              | _ => Malformed
              end
            else
              match simple_escape e with
              | Some x => scanstring r1 (x :: acc)
              | None => Malformed
              end
        | [] => Malformed
        end
      else scanstring r (c :: acc)
  end.

Fixpoint float_of_pos (p : positive) : float :=
  match p with
  | xH => 1%float
  | xO q => (2 * float_of_pos q)%float
  | xI q => (2 * float_of_pos q + 1)%float
  end.

Fixpoint pow10 (k : nat) : float :=
  match k with
  | O => 1%float
  | S k' => (10 * pow10 k')%float
  end.

(** The double nearest to [m * 10^e], inside the range described above. *)
Definition float_of_decimal (m e : Z) : option float :=
  match m with
  | Z0 => Some 0%float
  | Zpos p =>
      if ((m <? 10 ^ 15) && (Z.abs e <=? 22))%Z then
        let f := float_of_pos p in
        let t := pow10 (Z.abs_nat e) in
        Some (if (0 <=? e)%Z then f * t else f / t)%float
      else None
  | Zneg _ => None
  end.

(** A number: an optional minus, then a zero or a run of digits that
    does not start with one, then an optional fraction (a dot and at
    least one digit) and an optional exponent (e or E, an optional sign
    and at least one digit). *)
Definition scan_number (s : str) : parsed pyval :=
  let (neg, s0) := match s with
                   | c :: r => if (c =? 45)%N then (true, r) else (false, s)
                   | [] => (false, s)
                   end in
  let (ipart, s1) :=
    match s0 with
    | c :: r => if (c =? 48)%N then ([c], r) else take_digits s0
    | [] => ([], [])
    end in
  match ipart with
  | [] => Malformed
  | _ =>
      let (fpart, s2) :=
        match s1 with
        | c :: r =>
            if (c =? 46)%N
            then match take_digits r with
                 | ([], _) => ([], s1)
                 | (d, r') => (d, r')
                 end
            else ([], s1)
        | [] => ([], s1)
        end in
      let '(epart, s3) :=
        match s2 with
        | c :: r =>
            if ((c =? 101) || (c =? 69))%N then
              let (eneg, r0) :=
                match r with
                | g :: r' => if (g =? 45)%N then (true, r')
                             else if (g =? 43)%N then (false, r')
                             else (false, r)
                | [] => (false, r)
                end in
              match take_digits r0 with
              | ([], _) => (None, s2)
              | (d, r') =>
                  (Some (if eneg then (- digits_value d)%Z
                         else digits_value d), r')
              end
            else (None, s2)
        | [] => (None, s2)
        end in
      match fpart, epart with
      | [], None =>
          Parsed (PInt (if neg then - digits_value ipart
                        else digits_value ipart)%Z) s3
      | _, _ =>
          let m := digits_value (ipart ++ fpart) in
          let e := ((match epart with Some x => x | None => 0 end)
                    - Z.of_nat (length fpart))%Z in
          match float_of_decimal m e with
          | Some f => Parsed (PFloat (if neg then - f else f)%float) s3
          | None => Malformed
          end
      end
  end.

Definition literal (word : str) (v : pyval) (s : str) : parsed pyval :=
  if PyStr.starts_with word s then Parsed v (skipn (length word) s)
  else Malformed.

(** [scan_once] at the head of [s], with the loops of [JSONObject]
    ([members], entered after the opening quote of a key) and
    [JSONArray] ([elements], entered at a value). *)
Fixpoint value (fuel : nat) (s : str) {struct fuel} : parsed pyval :=
  match fuel with
  | O => Malformed
  | S fuel' =>
      match s with
      | [] => Malformed
      | c :: r =>
          if (c =? 34)%N then
            match scanstring r [] with
            | Parsed k rest => Parsed (PStr k) rest
            | Malformed => Malformed
            end
          else if (c =? 123)%N then
            match skip_ws r with
            | d :: r' =>
                if (d =? 125)%N then Parsed (PDict []) r'
                else if (d =? 34)%N then members fuel' r' []
                else Malformed
            | [] => Malformed
            end
          else if (c =? 91)%N then
            match skip_ws r with
            | d :: r' =>
                if (d =? 93)%N then Parsed (PList []) r'
                else elements fuel' (d :: r') []
            | [] => Malformed
            end
          else if (c =? 110)%N then literal (py "null") PNone s
          else if (c =? 116)%N then literal (py "true") (PBool true) s
          else if (c =? 102)%N then literal (py "false") (PBool false) s
          else
            match scan_number s with
            | Parsed v rest => Parsed v rest
            | Malformed =>
                if (c =? 78)%N then literal (py "NaN") (PFloat nan) s
                else if (c =? 73)%N
                then literal (py "Infinity") (PFloat infinity) s
                else if (c =? 45)%N
                then literal (py "-Infinity") (PFloat neg_infinity) s
                else Malformed
            end
      end
  end

with members (fuel : nat) (s : str) (acc : dict) {struct fuel}
  : parsed pyval :=
  match fuel with
  | O => Malformed
  | S fuel' =>
      match scanstring s [] with
      | Malformed => Malformed
      | Parsed key r1 =>
          match skip_ws r1 with
          | c :: r2 =>
              if (c =? 58)%N then
                match value fuel' (skip_ws r2) with
                | Malformed => Malformed
                | Parsed v r3 =>
                    let acc := Dict.set key v acc in
                    match skip_ws r3 with
                    | d :: r4 =>
                        if (d =? 125)%N then Parsed (PDict acc) r4
                        else if (d =? 44)%N then
                          match skip_ws r4 with
                          | q :: r5 =>
                              if (q =? 34)%N then members fuel' r5 acc
                              else Malformed
                          | [] => Malformed
                          end
                        else Malformed
                    | [] => Malformed
                    end
                end
              else Malformed
          | [] => Malformed
          end
      end
  end

with elements (fuel : nat) (s : str) (acc : list pyval) {struct fuel}
  : parsed pyval :=
  match fuel with
  | O => Malformed
  | S fuel' =>
      match value fuel' s with
      | Malformed => Malformed
      | Parsed v r1 =>
          match skip_ws r1 with
          | d :: r2 =>
              if (d =? 93)%N then Parsed (PList (rev (v :: acc))) r2
              else if (d =? 44)%N
              then elements fuel' (skip_ws r2) (v :: acc)
              else Malformed
          | [] => Malformed
          end
      end
  end.

(** [json.loads]: one value, white space around it, nothing more. *)
Definition loads (s : str) : result pyval :=
  match value (2 * length s + 2) (skip_ws s) with
  | Parsed v rest =>
      match skip_ws rest with
      | [] => Ok v
      | _ => Raise JSONDecodeError
      end
  | Malformed => Raise JSONDecodeError
  end.

(** *** Encoding JSON *)

Fixpoint decimal_go (fuel : nat) (n : N) (acc : str) : str :=
  match fuel with
  | O => acc
  | S fuel' =>
      let acc := (48 + n mod 10)%N :: acc in
      if (n / 10 =? 0)%N then acc else decimal_go fuel' (n / 10)%N acc
  end.

Definition decimal (n : N) : str :=
  decimal_go (S (N.to_nat (N.log2 n))) n [].

Definition int_text (z : Z) : str :=
  if (z <? 0)%Z then 45%N :: decimal (Z.to_N (- z)) else decimal (Z.to_N z).

Definition hex_digit (n : N) : char :=
  if (n <? 10)%N then (48 + n)%N else (87 + n)%N.

Definition escape_char (c : char) : str :=
  if (c =? 34)%N then py "\" ++ [34%N]
  else if (c =? 92)%N then py "\\"
  else if (c =? 10)%N then py "\n"
  else if (c =? 13)%N then py "\r"
  else if (c =? 9)%N then py "\t"
  else if (c =? 8)%N then py "\b"
  else if (c =? 12)%N then py "\f"
  else if (c <? 32)%N then py "\u00" ++ [hex_digit (c / 16); hex_digit (c mod 16)]
  else [c].

Definition quoted (s : str) : str :=
  34%N :: flat_map escape_char s ++ [34%N].

(** [json.dumps(v, ensure_ascii=False)]; a float, which this encoder
    does not print, shows as [<float>]. *)
Fixpoint dumps (v : pyval) : str :=
  match v with
  | PNone => py "null"
  | PBool true => py "true"
  | PBool false => py "false"
  | PInt n => int_text n
  | PFloat _ => py "<float>"
  | PStr s => quoted s
  | PList l =>
      py "["
      ++ (fix items (l : list pyval) : str :=
            match l with
            | [] => []
            | [x] => dumps x
            | x :: l' => dumps x ++ py ", " ++ items l'
            end) l
      ++ py "]"
  | PDict d =>
      py "{"
      ++ (fix items (d : list (str * pyval)) : str :=
            match d with
            | [] => []
            | [(k, x)] => quoted k ++ py ": " ++ dumps x
            | (k, x) :: d' => quoted k ++ py ": " ++ dumps x ++ py ", " ++ items d'
            end) d
      ++ py "}"
  end.

(** [str(v)]: exact on [None], booleans and integers; a container or a
    float shows as its JSON text. *)
Definition repr (v : pyval) : str :=
  match v with
  | PNone => py "None"
  | PBool true => py "True"
  | PBool false => py "False"
  | PStr s => s
  | _ => dumps v
  end.

(** [str(e)]: the key of a [KeyError] in quotes, the text of a request
    failure; the interpreter's wording for the other kinds depends on
    the operands and is abridged here. *)
Definition text_of (e : exn) : str :=
  match e with
  | KeyError (PStr k) => py "'" ++ k ++ py "'"
  | KeyError k => repr k
  | IndexError => py "list index out of range"
  | TypeError => py "unsupported operand"
  | AttributeError => py "object has no attribute"
  | JSONDecodeError => py "Expecting value"
  | RequestError text => text
  end.

Definition runtime : Runtime :=
  {| str_lower := lower;
     json_loads := loads;
     json_dumps := dumps;
     py_repr := repr;
     exn_text := text_of |}.

(** The body of a chat completion whose message is [content]. *)
Definition completion (content : pyval) : pyval :=
  PDict [(py "choices",
          PList [PDict [(py "message",
                         PDict [(py "content", content)])]])].

(** A world in which the model answers [content] to every chat, [text]
    to every generation, and the hosting service [payload] to every
    call. *)
Definition world (content : pyval) (text : str) (payload : pyval)
  : Services :=
  {| github := fun _ => payload;
     chat_post := fun _ => Ok (completion content);
     generate_post := fun _ => Ok (PDict [(py "response", PStr text)]) |}.

(** A world whose model cannot be reached. *)
Definition offline (reason : str) (payload : pyval) : Services :=
  {| github := fun _ => payload;
     chat_post := fun _ => Raise (RequestError reason);
     generate_post := fun _ => Raise (RequestError reason) |}.

End Ref.

(** ** Notions the statements are written in *)

(** A mapping of string parameters, as the Intent of the data model has. *)
Definition str_valued (d : dict) : bool :=
  forallb (fun kv => match snd kv with PStr _ => true | _ => false end) d.

Module Span.

Definition is_brace (c : char) : bool := ((c =? lbrace) || (c =? rbrace))%N.

Definition brace_free (s : str) : bool := forallb (fun c => negb (is_brace c)) s.

(** [closes depth s]: read after an opening brace at nesting [depth],
    the text [s] returns to nesting zero exactly at its last character. *)
Fixpoint closes (depth : nat) (s : str) : bool :=
  match s with
  | [] => false
  | c :: s' =>
      if (c =? lbrace)%N then closes (S depth) s'
      else if (c =? rbrace)%N then
        match depth with
        | O => false
        | S O => match s' with [] => true | _ => false end
        | S d => closes d s'
        end
      else closes depth s'
  end.

(** A balanced span: an opening brace up to the brace that closes it. *)
Definition balanced (span : str) : bool :=
  match span with
  | c :: s => (c =? lbrace)%N && closes 1 s
  | [] => false
  end.

(** [span] is the first balanced span of [text]: it occurs in [text], and
    no balanced span starts before it. *)
Definition first_in (text span : str) : Prop :=
  exists pre post,
    text = pre ++ span ++ post /\ balanced span = true /\
    forall pre' span' post',
      text = pre' ++ span' ++ post' -> balanced span' = true ->
      length pre <= length pre'.

End Span.

Module Match.

(** A token: one or more characters of the class. *)
Definition token (s : str) : Prop := s <> [] /\ forallb Re.is_tok s = true.

(** [owner/repo] occurs in [text] after [pre], both being tokens. *)
Definition at_ (text pre owner repo post : str) : Prop :=
  text = pre ++ owner ++ Re.slash :: repo ++ post
  /\ token owner /\ token repo.

(** The match [re.search] reports: no occurrence starts further left,
    and among those at the same place none has a longer second group. *)
Definition first (text owner repo : str) : Prop :=
  exists pre post,
    at_ text pre owner repo post /\
    forall pre' owner' repo' post',
      at_ text pre' owner' repo' post' ->
      length pre <= length pre' /\
      (length pre' = length pre ->
       owner' = owner /\ length repo' <= length repo).

End Match.

(** The keyword rules of the fallback, as an ordered list: the action of
    the first rule whose condition holds, [unknown] when none does. *)
Fixpoint first_applicable (rules : list (bool * str)) : str :=
  match rules with
  | [] => unknown
  | (true, action) :: _ => action
  | (false, _) :: rules' => first_applicable rules'
  end.

Definition pair_extracted (user_input : str) : bool :=
  match Re.search user_input with Some _ => true | None => false end.

Definition precedence (user_lower user_input : str) : list (bool * str) :=
  [ (any_in issue_terms user_lower, py "list_issues");
    (any_in branch_terms user_lower, py "list_branches");
    (any_in commit_terms user_lower, py "list_commits");
    (any_in pr_terms user_lower, py "list_prs");
    (any_in repo_terms user_lower && pair_extracted user_input, py "get_repo");
    (any_in search_terms user_lower, py "search_repos");
    (any_in my_repos_terms user_lower, py "list_repos") ].

(** The [action], the [params] mapping and the [confidence] of an intent. *)
Definition action_of (intent : dict) : option pyval := Dict.get k_action intent.
Definition confidence_of (intent : dict) : option pyval :=
  Dict.get k_confidence intent.
Definition params_of (intent : dict) : pyval :=
  match Dict.get k_params intent with
  | Some p => p
  | None => PDict []
  end.

(** The messages [parse_intent] sends. *)
Definition messages_for (user_input : str) : list message :=
  [(py "system", SYSTEM_PROMPT); (py "user", user_input)].

(** The try block of [parse_intent] raises: at the extraction, at
    [json.loads], or at the enrichment of what was decoded. *)
Definition parse_fails (rt : Runtime) (response : pyval) (user_input : str)
  : Prop :=
  (exists e, json_candidate response = Raise e)
  \/ (exists s e, json_candidate response = Ok s /\ json_loads rt s = Raise e)
  \/ (exists s v e, json_candidate response = Ok s /\ json_loads rt s = Ok v
                    /\ _enrich_intent user_input v = Raise e).

(** The brace scan of [parse_intent] ends without a span. *)
Definition no_span_found (response : str) : Prop :=
  exists json_str,
    unfence (PyStr.strip response) = Ok json_str
    /\ scan_braces json_str 0 0 (-1) = None.

(** Owner and repo as the normalizer accepts them: both present and not
    empty, and no slash in the owner. *)
Definition owner_repo_ok (p : dict) : bool :=
  match Dict.get k_owner p, Dict.get k_repo p with
  | Some (PStr o), Some (PStr r) =>
      nonempty o && nonempty r && negb (PyStr.contains [Re.slash] o)
  | _, _ => false
  end.

(** The first two slash-separated segments of the string under [key],
    when it holds a slash. *)
Definition segments_under (p : dict) (key : str) : option (str * str) :=
  match Dict.get key p with
  | Some (PStr v) =>
      if PyStr.contains [Re.slash] v
      then match PyStr.split [Re.slash] v with
           | a :: b :: _ => Some (PyStr.strip a, PyStr.strip b)
           | _ => None
           end
      else None
  | _ => None
  end.

Definition stripped_under (p : dict) (key : str) : str :=
  match Dict.get key p with
  | Some (PStr v) => PyStr.strip v
  | _ => []
  end.

(** Resolution at dispatch, in words: the first of [owner], [repo],
    [repository] that holds a slash gives its two segments; otherwise the
    stripped [owner] and [repo]. *)
Definition resolved (p : dict) : str * str :=
  match segments_under p k_owner with
  | Some segs => segs
  | None =>
      match segments_under p k_repo with
      | Some segs => segs
      | None =>
          match segments_under p k_repository with
          | Some segs => segs
          | None => (stripped_under p k_owner, stripped_under p k_repo)
          end
      end
  end.

(** The actions that need an owner and a repo. *)
Definition needs_owner_repo : list str :=
  [py "get_repo"; py "list_issues"; py "list_prs"; py "list_branches";
   py "list_commits"; py "create_issue"].

(** The envelope of a rejection. *)
Definition rejection : pyval :=
  PDict [(k_success, PBool false); (k_message, PStr guidance)].

(** The pair the fallback reads off the text: the two groups of the match,
    or two empty strings. *)
Definition extracted (user_input : str) : str * str :=
  match Re.search user_input with
  | Some groups => groups
  | None => ([], [])
  end.

(** ** Inputs of the worked examples *)

(** A reply that wraps its object in prose. *)
Definition chatty_response : str :=
  pyq "Claro! Aqui está: {'action': 'get_user', 'params': {}, 'confidence': 0.9} Espero ter ajudado. ".

(** A reply whose only unbalanced brace sits inside a string. *)
Definition brace_in_string : str :=
  pyq "{'action': 'get_user', 'params': {'username': '{'}, 'confidence': 1.0}".

(** A world whose model answers with an object that has no action. *)
Definition no_action_world : Services :=
  Ref.world (PStr (pyq "{'params': {}, 'confidence': 1.0}")) (py "ok") (PList []).

(** ** The caller of the pipeline *)

(** The keys of the dict [actions]. *)
Definition action_names : list str :=
  [py "list_repos"; py "get_repo"; py "list_issues"; py "create_issue";
   py "list_prs"; py "list_branches"; py "list_commits"; py "get_user";
   py "search_repos"].

(** [intent.get("action", "unknown")], the action the dispatcher looks up. *)
Definition dispatched_action (intent : dict) : pyval :=
  match Dict.get k_action intent with
  | Some a => a
  | None => PStr unknown
  end.

(** A run that made no call, or one call whose answer it returns as it is. *)
Definition single_call (sv : Services) (m : M pyval) : Prop :=
  trace m = [] \/ exists c, m = ([EvGitHub c], Ok (github sv c)).

Section ChatPage.

Variable rt : Runtime.

(** What [show_chat_page] shows for the envelope [result]:
    [result["formatted"]] when [result["success"]] is true, and the mark
    followed by [result['message']] otherwise. *)
Definition render_reply (envelope : pyval) : result pyval :=
  (success <- Py.getitem envelope k_success ;;
   if Py.truthy success then Py.getitem envelope k_formatted
   else message <- Py.getitem envelope k_message ;;
        Ok (PStr (py "❌ " ++ fmt rt message)))%result.

End ChatPage.

(** ** [GitHubClient] over an HTTP layer *)

Module Http.

(** A call of [requests.request]: method, URL, headers and JSON body. *)
Record request : Type := {
  method : str;
  url : str;
  headers : list (str * str);
  json_body : option pyval
}.

(** What the call gives: a response, with its status, its text and what
    [response.json()] returns or raises, or an exception of the transport. *)
Inductive reply : Type :=
| Response (status : Z) (text : str) (json : result pyval)
| Failure (e : exn).

End Http.

(** [s.strip(chars)]: the characters of [chars] removed at both ends. *)
Fixpoint lstrip_chars (chars s : str) : str :=
  match s with
  | c :: s' => if existsb (N.eqb c) chars then lstrip_chars chars s' else s
  | [] => []
  end.

Definition strip_chars (chars s : str) : str :=
  rev (lstrip_chars chars (rev (lstrip_chars chars s))).

Definition api_root : str := py "https://api.github.com".

Definition msg_issue_params : str :=
  py "Parâmetros 'owner' e 'repo' são obrigatórios. Exemplo: microsoft/vscode".

Section Client.

Variable rt : Runtime.
Variable http : Http.request -> Http.reply.
Variable token : str.

(** [self.headers], as [__init__] builds them. *)
Definition client_headers : list (str * str) :=
  [(py "Accept", py "application/vnd.github+json");
   (py "X-GitHub-Api-Version", py "2022-11-28")]
  ++ (if nonempty token then [(py "Authorization", py "Bearer " ++ token)]
      else []).

Definition api_request (method endpoint : str) (data : option pyval)
  : Http.request :=
  {| Http.method := method;
     Http.url := api_root ++ endpoint;
     Http.headers := client_headers;
     Http.json_body := data |}.

(** [raise_for_status] raises on a status from 400 to 599. *)
Definition is_http_error (status : Z) : bool :=
  ((400 <=? status) && (status <? 600))%Z.

(** [GitHubClient._request]: the requests sent and the value returned. *)
Definition _request (method endpoint : str) (data : option pyval)
  : list Http.request * pyval :=
  let req := api_request method endpoint data in
  ([req],
   match http req with
   | Http.Response status text json =>
       if is_http_error status
       then error_record (py "HTTP " ++ fmt rt (PInt status) ++ py ": "
                          ++ PyStr.slice text 0 200)
       else if nonempty text
            then match json with
                 | Ok payload => payload
                 | Raise e => error_record (exn_text rt e)
                 end
            else PDict []
   | Http.Failure e => error_record (exn_text rt e)
   end).

Definition client_get (endpoint : str) : list Http.request * pyval :=
  _request (py "GET") endpoint None.

Definition client_list_repos (username org : pyval)
  : list Http.request * pyval :=
  if Py.truthy org
  then client_get (py "/orgs/" ++ fmt rt org ++ py "/repos?per_page="
            ++ fmt rt (PInt 30))
  else if Py.truthy username
  then client_get (py "/users/" ++ fmt rt username ++ py "/repos?per_page="
            ++ fmt rt (PInt 30))
  else client_get (py "/user/repos?per_page=" ++ fmt rt (PInt 30)
            ++ py "&sort=updated").

(** [x.strip().strip('/').strip()] *)
Definition clean (s : str) : str :=
  PyStr.strip (strip_chars [Re.slash] (PyStr.strip s)).

(** The owner and repo [list_issues] puts in its path. A split has always
    a first part; the last case of each match is never taken. *)
Definition issue_path_pair (owner repo : str) : str * str :=
  let owner := clean owner in
  let repo := clean repo in
  let (owner, repo) :=
    if PyStr.contains [Re.slash] owner && negb (nonempty repo)
    then match PyStr.split [Re.slash] owner with
         | a :: b :: _ => (a, b)
         | [a] => (a, repo)
         | [] => (owner, repo)
         end
    else (owner, repo) in
  let repo :=
    if PyStr.contains [Re.slash] repo
    then match PyStr.split [Re.slash] repo with
         | a :: _ => a
         | [] => repo
         end
    else repo in
  (owner, repo).

Definition client_list_issues (owner repo : str) (state : pyval)
  : list Http.request * pyval :=
  if negb (nonempty owner) || negb (nonempty repo)
  then ([], error_record msg_issue_params)
  else let (o, r) := issue_path_pair owner repo in
       client_get (py "/repos/" ++ o ++ py "/" ++ r ++ py "/issues?state="
            ++ fmt rt state).

Definition repo_path (owner repo : str) : str :=
  py "/repos/" ++ owner ++ py "/" ++ repo.

(** The method of [GitHubClient] each call of the dispatcher stands for. *)
Definition perform (c : GitHub.call) : list Http.request * pyval :=
  match c with
  | GitHub.get_user => client_get (py "/user")
  | GitHub.list_repos username org => client_list_repos username org
  | GitHub.get_repo owner repo => client_get (repo_path owner repo)
  | GitHub.list_issues owner repo state => client_list_issues owner repo state
  | GitHub.create_issue owner repo title body =>
      _request (py "POST") (repo_path owner repo ++ py "/issues")
        (Some (PDict [(py "title", title); (py "body", body)]))
  | GitHub.list_prs owner repo state =>
      client_get (repo_path owner repo ++ py "/pulls?state=" ++ fmt rt state)
  | GitHub.list_branches owner repo =>
      client_get (repo_path owner repo ++ py "/branches")
  | GitHub.list_commits owner repo =>
      client_get (repo_path owner repo ++ py "/commits?per_page=" ++ fmt rt (PInt 20))
  | GitHub.search_repos query =>
      client_get (py "/search/repositories?q=" ++ fmt rt query ++ py "&per_page=10")
  | GitHub.request method endpoint => _request method endpoint None
  end.

(** The request failed: at the transport, by its status, or by a body that
    does not decode. *)
Definition request_failed (r : Http.reply) : Prop :=
  match r with
  | Http.Failure _ => True
  | Http.Response status text json =>
      is_http_error status = true
      \/ (nonempty text = true /\ exists e, json = Raise e)
  end.

(** The requests a trace of the pipeline stands for. *)
Definition requests_of (t : list event) : list Http.request :=
  flat_map (fun ev => match ev with
                      | EvGitHub c => fst (perform c)
                      | _ => []
                      end) t.

(** The services of an agent that talks to the hosting service through
    this client. *)
Definition wired (chat_post : list message -> result pyval)
  (generate_post : str -> result pyval) : Services :=
  {| github := fun c => snd (perform c);
     chat_post := chat_post;
     generate_post := generate_post |}.

(** *** [OllamaClient.list_models] *)

(** The items a [for] loop takes from a value. *)
Definition py_iter (v : pyval) : result (list pyval) :=
  match v with
  | PList l => Ok l
  | PStr s => Ok (map (fun c => PStr [c]) s)
  | PDict d => Ok (map (fun kv => PStr (fst kv)) d)
  | _ => Raise TypeError
  end.

(** [[m["name"] for m in items]] *)
Fixpoint names_of (items : list pyval) : result (list pyval) :=
  match items with
  | [] => Ok []
  | m :: items' =>
      (name <- Py.getitem m (py "name") ;;
       names <- names_of items' ;;
       Ok (name :: names))%result
  end.

(** [list_models], given what the GET of the tags gives. *)
Definition list_models (tags : Http.reply) : list pyval :=
  match tags with
  | Http.Response _ _ json =>
      match (j <- json ;;
             models <- Py.get j (py "models") (PList []) ;;
             items <- py_iter models ;;
             names_of items)%result
      with
      | Ok names => names
      | Raise _ => []
      end
  | Http.Failure _ => []
  end.

(** [is_available], given the same. *)
Definition is_available (tags : Http.reply) : bool :=
  match tags with
  | Http.Response status _ _ => (status =? 200)%Z
  | Http.Failure _ => false
  end.

End Client.

(** ** The stored token *)

(** What the token functions read and write: Streamlit's session state
    and the text of the configuration file, when the file exists. Failures
    of the file system are left out. *)
Record store : Type := {
  session : dict;
  config_file : option str
}.

(** [d.pop(k, None)] *)
Fixpoint dict_remove (k : str) (d : dict) : dict :=
  match d with
  | [] => []
  | (k', v) :: d' =>
      if PyStr.eqb k k' then dict_remove k d' else (k', v) :: dict_remove k d'
  end.

Definition k_github_token := py "github_token".
Definition k_github_user := py "github_user".
Definition k_token_set_at := py "token_set_at".

Section Config.

Variable rt : Runtime.
(** [json.dump(., indent=2)] and [datetime.now().isoformat()]. *)
Variable dump_config : pyval -> str.
Variable now : str.

(** [load_config] *)
Definition load_config (st : store) : result pyval :=
  match config_file st with
  | Some text => json_loads rt text
  | None => Ok (PDict [])
  end.

(** [save_config] *)
Definition save_config (st : store) (config : pyval) : store :=
  {| session := session st; config_file := Some (dump_config config) |}.

(** [get_github_token] *)
Definition get_github_token (st : store) : result pyval :=
  match Dict.get k_github_token (session st) with
  | Some token => Ok token
  | None =>
      (config <- load_config st ;;
       Py.get config k_github_token (PStr []))%result
  end.

(** [set_github_token]: the store it leaves, and whether it raised. An
    item assignment on a value that is not a dict raises [TypeError]. *)
Definition set_github_token (st : store) (token : str) (user_info : pyval)
  : store * result unit :=
  let st1 := {| session := Dict.set k_github_token (PStr token) (session st);
                config_file := config_file st |} in
  match load_config st1 with
  | Raise e => (st1, Raise e)
  | Ok (PDict config) =>
      let config := Dict.set k_github_token (PStr token) config in
      let config := Dict.set k_token_set_at (PStr now) config in
      if Py.truthy user_info then
        let config := Dict.set k_github_user user_info config in
        let st2 := {| session := Dict.set k_github_user user_info (session st1);
                      config_file := config_file st1 |} in
        (save_config st2 (PDict config), Ok tt)
      else (save_config st1 (PDict config), Ok tt)
  | Ok _ => (st1, Raise TypeError)
  end.

(** [clear_github_token]. A list has a [pop] that takes one argument
    only; the other values have none. *)
Definition clear_github_token (st : store) : store * result unit :=
  let st1 := {| session := dict_remove k_github_user
                             (dict_remove k_github_token (session st));
                config_file := config_file st |} in
  match load_config st1 with
  | Raise e => (st1, Raise e)
  | Ok (PDict config) =>
      let config := dict_remove k_github_user
                      (dict_remove k_github_token config) in
      (save_config st1 (PDict config), Ok tt)
  | Ok (PList _) => (st1, Raise TypeError)
  | Ok _ => (st1, Raise AttributeError)
  end.

(** A new session over the same file. *)
Definition restarted (st : store) : store :=
  {| session := []; config_file := config_file st |}.

End Config.

(** [json.dumps(., indent=2)] for the examples, as CPython prints values
    without floats: two spaces a level, every character outside ASCII
    escaped. *)
Module RefIndent.

Definition hex4 (n : N) : str :=
  [Ref.hex_digit (n / 4096); Ref.hex_digit ((n / 256) mod 16);
   Ref.hex_digit ((n / 16) mod 16); Ref.hex_digit (n mod 16)].

Definition escape_char (c : char) : str :=
  if (c <? 127)%N || (c =? 127)%N then Ref.escape_char c
  else if (c <? 65536)%N then py "\u" ++ hex4 c
  else py "\u" ++ hex4 (55296 + (c - 65536) / 1024)
       ++ py "\u" ++ hex4 (56320 + (c - 65536) mod 1024).

Definition quoted (s : str) : str :=
  34%N :: flat_map escape_char s ++ [34%N].

Definition newline (level : nat) : str :=
  10%N :: concat (repeat (py "  ") level).

Fixpoint dumps (level : nat) (v : pyval) : str :=
  match v with
  | PList ((_ :: _) as l) =>
      py "["
      ++ (fix items (l : list pyval) : str :=
            match l with
            | [] => []
            | [x] => newline (S level) ++ dumps (S level) x
            | x :: l' =>
                newline (S level) ++ dumps (S level) x ++ py "," ++ items l'
            end) l
      ++ newline level ++ py "]"
  | PDict ((_ :: _) as d) =>
      py "{"
      ++ (fix items (d : list (str * pyval)) : str :=
            match d with
            | [] => []
            | [(k, x)] =>
                newline (S level) ++ quoted k ++ py ": " ++ dumps (S level) x
            | (k, x) :: d' =>
                newline (S level) ++ quoted k ++ py ": " ++ dumps (S level) x
                ++ py "," ++ items d'
            end) d
      ++ newline level ++ py "}"
  | PStr s => quoted s
  | _ => Ref.dumps v
  end.

Definition dump (v : pyval) : str := dumps 0 v.

End RefIndent.

(** ** The generation test of [run_tests] *)


(** ** Keywords in a text, declaratively *)

(** [word] occurs in [text]. *)
Definition occurs (word text : str) : Prop :=
  exists pre post, text = pre ++ word ++ post.

(** One of [words] occurs in [text]. *)
Definition mentions (words : list str) (text : str) : Prop :=
  exists word, In word words /\ occurs word text.

(** An owner/repo pair stands somewhere in [text]. *)
Definition has_pair (text : str) : Prop :=
  exists pre owner repo post, Match.at_ text pre owner repo post.

(** The keyword rules of [_fallback_parse] in their order, each with the
    words of its test, over the lower-cased [text]; [paired] says that a
    pair was extracted from the raw text. *)
Definition keyword_rules (text : str) (paired : Prop) : list (Prop * str) :=
  [ (mentions [py "issue"; py "issues"; py "problemas"] text,
     py "list_issues");
    (mentions [py "branch"; py "branches"; py "ramos"] text,
     py "list_branches");
    (mentions [py "commit"; py "commits"] text, py "list_commits");
    (mentions [py "pr"; py "prs"; py "pull request"; py "pull requests"] text,
     py "list_prs");
    (mentions [py "repo"; py "repositório"; py "repositorio"] text /\ paired,
     py "get_repo");
    (mentions [py "busca"; py "buscar"; py "pesquisa"; py "search"] text,
     py "search_repos");
    (mentions [py "meus repo"; py "meus reposit"; py "list repo"] text,
     py "list_repos") ].

(** Precedence: the action of the first rule whose condition holds, and
    [unknown] when none does. *)
Inductive selects : list (Prop * str) -> str -> Prop :=
| selects_none : selects [] unknown
| selects_here (P : Prop) (action : str) (rules : list (Prop * str)) :
    P -> selects ((P, action) :: rules) action
| selects_next (P : Prop) (action : str) (rules : list (Prop * str))
    (chosen : str) :
    ~ P -> selects rules chosen -> selects ((P, action) :: rules) chosen.

(** ** Values the resolution at dispatch passes over *)

(** A string, or a value that tests false ([None], [False], zero, an
    empty list or dict). *)
Definition plain (v : pyval) : bool :=
  match v with
  | PStr _ => true
  | _ => negb (Py.truthy v)
  end.

(** The value under [key], when there is one, is plain. *)
Definition plain_under (d : dict) (key : str) : bool :=
  match Dict.get key d with
  | Some v => plain v
  | None => true
  end.

(** ** The dispatcher's preconditions and the formatter's prompt *)

(** The message of the Error Record an action answers with when the
    resolved owner or repo is empty. *)
Definition missing_pair_message (name : str) : str :=
  if PyStr.eqb name (py "get_repo") || PyStr.eqb name (py "list_issues")
  then msg_owner_repo_ex else msg_owner_repo.

(** The prompt of the formatter: the first 3000 characters of the
    serialized result behind the instruction and the action. *)
Definition capped_prompt (rt : Runtime) (action data : pyval) : str :=
  format_prompt rt action (firstn 3000 (json_dumps rt data)).

(** ** More inputs of the worked examples *)

(** A reply of the model that asks for a search and puts a number under
    [owner], and the intent it decodes to. *)
Definition numeric_owner_reply : str :=
  pyq "{'action': 'search_repos', 'params': {'owner': 5, 'query': ''}, 'confidence': 1.0}".

Definition numeric_owner_intent : dict :=
  [ (k_action, PStr (py "search_repos"));
    (k_params, PDict [(k_owner, PInt 5); (py "query", PStr [])]);
    (k_confidence, PFloat 1%float) ].

Definition numeric_owner_world : Services :=
  Ref.world (PStr numeric_owner_reply) (py "ok") (PList []).

(** A model server that does not have the model: the chat request ends
    in the error of [raise_for_status]; the completion request, whose
    status nobody checks, yields the JSON body of the 404 answer. *)
Definition model_missing : Services :=
  {| github := fun _ => PList [];
     chat_post := fun _ =>
       Raise (RequestError (py "404 Client Error: Not Found for url: http://localhost:11434/v1/chat/completions"));
     generate_post := fun _ =>
       Ok (PDict [(k_error, PStr (py "model 'qwen2.5-coder:7b' not found"))]) |}.

(** A run whose remote operation fails: the model asks for a repository
    and the hosting service answers that there is none. *)
Definition not_found_world : Services :=
  Ref.world
    (PStr (pyq "{'action':'get_repo','params':{'owner':'foo','repo':'bar'},'confidence':1.0}"))
    (py "unused") (error_record (py "HTTP 404: Not Found")).

Definition not_found_trace : list event :=
  [EvChat (messages_for (py "repositório foo/bar"));
   EvGitHub (GitHub.get_repo (py "foo") (py "bar"))].

Definition not_found_envelope : pyval :=
  PDict [(k_success, PBool true);
         (k_intent, PDict [(k_action, PStr (py "get_repo"));
                           (k_params, PDict [(k_owner, PStr (py "foo"));
                                             (k_repo, PStr (py "bar"))]);
                           (k_confidence, PFloat 1%float)]);
         (k_result, error_record (py "HTTP 404: Not Found"));
         (k_formatted, PStr (py "❌ **Erro:** HTTP 404: Not Found"))].

(** ** What [list_issues] puts in its path *)

(** [seg] is what [s] holds before its first slash: all of [s] when it
    has none. *)
Definition first_segment (s seg : str) : Prop :=
  ~ In Re.slash seg /\ (s = seg \/ exists rest, s = seg ++ Re.slash :: rest).

(** White space and slashes, which the cleaning removes at both ends. *)
Definition junk (c : char) : bool := PyStr.is_space c || (c =? Re.slash)%N.

(** [s] without its leading characters that satisfy [p]. *)
Fixpoint drop_while (p : char -> bool) (s : str) : str :=
  match s with
  | c :: s' => if p c then drop_while p s' else s
  | [] => []
  end.


(** * Properties *)

Unset Implicit Arguments.

(** ** The model at work *)

Example py_utf8 : py "repositório" = py "reposit" ++ [243%N; 114%N; 105%N; 111%N].
Proof. reflexivity. Qed.

Example split_fence :
  PyStr.split (py "```") (py "a```json {}```b") = [py "a"; py "json {}"; py "b"].
Proof. reflexivity. Qed.

Example replace_json :
  PyStr.replace (py "json") [] (py "json {x: json}") = py " {x: }".
Proof. reflexivity. Qed.

Example strip_both : PyStr.strip (py "  a b  ") = py "a b".
Proof. reflexivity. Qed.

Example search_vscode :
  Re.search (py "issues do microsoft/vscode, por favor")
  = Some (py "microsoft", py "vscode").
Proof. reflexivity. Qed.

Example search_none : Re.search (py "a/ /b x /") = None.
Proof. reflexivity. Qed.

Example search_three : Re.search (py "see a/b/c") = Some (py "a", py "b").
Proof. reflexivity. Qed.

Example loads_intent :
  Ref.loads (pyq " {'action': 'list_issues', 'params': {'owner': 'a', 'repo': 'b'}, 'confidence': 1.0} ")
  = Ok (PDict [(k_action, PStr (py "list_issues"));
               (k_params, PDict [(k_owner, PStr (py "a")); (k_repo, PStr (py "b"))]);
               (k_confidence, PFloat 1%float)]).
Proof. reflexivity. Qed.

Example loads_numbers :
  Ref.loads (py "[0.3, 0.7, -2, 1e2, 25E-2, true, null]")
  = Ok (PList [PFloat Py.f03; PFloat Py.f07; PInt (-2); PFloat 100%float;
               PFloat 0.25%float; PBool true; PNone]).
Proof. reflexivity. Qed.

Example loads_escape :
  Ref.loads (pyq "'aé\n😀'") = Ok (PStr [97; 233; 10; 128512]%N).
Proof. reflexivity. Qed.

Example loads_malformed :
  map Ref.loads [py "{"; py "01"; py "[1,]"; pyq "{'a' 1}"; py "{} x"; [];
                 py "Erro Ollama: timeout"]
  = repeat (Raise JSONDecodeError) 7.
Proof. reflexivity. Qed.

Example dumps_repo :
  Ref.dumps (PDict [(py "name", PStr (pyq "a'b")); (py "forks", PInt (-12));
                    (py "topics", PList [PStr (py "x"); PNone; PBool true])])
  = pyq "{'name': 'a\'b', 'forks': -12, 'topics': ['x', null, true]}".
Proof. reflexivity. Qed.

(** ** Strings *)

Lemma eqb_refl (s : str) : PyStr.eqb s s = true.
Proof.
  induction s as [|c s IH]; simpl; [reflexivity|].
  now rewrite N.eqb_refl.
Qed.

Lemma eqb_eq (a b : str) : PyStr.eqb a b = true <-> a = b.
Proof.
  split; [|intros ->; apply eqb_refl].
  revert b; induction a as [|x a IH]; destruct b as [|y b]; simpl;
    try discriminate; [reflexivity|].
  intros H. apply andb_prop in H as [Hx Hab].
  apply N.eqb_eq in Hx. f_equal; [assumption | now apply IH].
Qed.

Lemma eqb_neq (a b : str) : PyStr.eqb a b = false <-> a <> b.
Proof.
  split.
  - intros H E. apply eqb_eq in E. congruence.
  - intros H. destruct (PyStr.eqb a b) eqn:E; [|reflexivity].
    apply eqb_eq in E. contradiction.
Qed.

Lemma starts_with_app (p s t : str) :
  PyStr.starts_with p s = true -> PyStr.starts_with p (s ++ t) = true.
Proof.
  revert s; induction p as [|x p IH]; intros [|y s]; simpl;
    try discriminate; try reflexivity.
  intros H. apply andb_prop in H as [-> H]. simpl. now apply IH.
Qed.

Lemma contains_eq (sub s : str) :
  PyStr.contains sub s
  = PyStr.starts_with sub s
    || match s with [] => false | _ :: s' => PyStr.contains sub s' end.
Proof. destruct s; reflexivity. Qed.

Lemma contains_app_l (sub s t : str) :
  PyStr.contains sub s = true -> PyStr.contains sub (s ++ t) = true.
Proof.
  induction s as [|c s IH]; simpl; intros H.
  - rewrite orb_false_r in H. rewrite contains_eq.
    apply orb_true_iff; left.
    destruct sub; [destruct t; reflexivity | discriminate].
  - apply orb_true_iff in H as [H|H]; apply orb_true_iff.
    + left. change (c :: s ++ t) with ((c :: s) ++ t).
      now apply starts_with_app.
    + right. now apply IH.
Qed.

Lemma contains_app_r (sub s t : str) :
  PyStr.contains sub s = true -> PyStr.contains sub (t ++ s) = true.
Proof.
  intros H. induction t as [|c t IH]; simpl; [assumption|].
  rewrite IH. apply orb_true_r.
Qed.

Lemma lstrip_suffix (s : str) : exists a, s = a ++ PyStr.lstrip s.
Proof.
  induction s as [|c s [a IH]]; simpl.
  - now exists [].
  - destruct (PyStr.is_space c).
    + exists (c :: a). simpl. now f_equal.
    + now exists [].
Qed.

Lemma rstrip_prefix (s : str) : exists b, s = PyStr.rstrip s ++ b.
Proof.
  unfold PyStr.rstrip. destruct (lstrip_suffix (rev s)) as [a Ha].
  exists (rev a). rewrite <- rev_app_distr, <- Ha. symmetry. apply rev_involutive.
Qed.

(** Stripping neither creates nor hides an occurrence it does not cut. *)
Lemma contains_strip (sub s : str) :
  PyStr.contains sub (PyStr.strip s) = true -> PyStr.contains sub s = true.
Proof.
  unfold PyStr.strip. intros H.
  destruct (lstrip_suffix s) as [a Ha].
  destruct (rstrip_prefix (PyStr.lstrip s)) as [b Hb].
  rewrite Ha, Hb. apply contains_app_r, contains_app_l, H.
Qed.

(** ** The pattern *)

Lemma take_tok_split (s : str) :
  s = fst (Re.take_tok s) ++ snd (Re.take_tok s).
Proof.
  induction s as [|c s IH]; simpl; [reflexivity|].
  destruct (Re.is_tok c); [|reflexivity].
  destruct (Re.take_tok s) as [g r]; simpl in *. now f_equal.
Qed.

Lemma take_tok_all (s : str) : forallb Re.is_tok (fst (Re.take_tok s)) = true.
Proof.
  induction s as [|c s IH]; simpl; [reflexivity|].
  destruct (Re.is_tok c) eqn:E; [|reflexivity].
  destruct (Re.take_tok s) as [g r]; simpl in *. now rewrite E.
Qed.

Lemma take_tok_app (g rest : str) :
  forallb Re.is_tok g = true ->
  Re.take_tok (g ++ rest)
  = (g ++ fst (Re.take_tok rest), snd (Re.take_tok rest)).
Proof.
  induction g as [|c g IH]; simpl; intros H.
  - now destruct (Re.take_tok rest).
  - apply andb_prop in H as [Hc Hg]. rewrite Hc, (IH Hg). reflexivity.
Qed.

Lemma take_tok_slash (rest : str) :
  Re.take_tok (Re.slash :: rest) = ([], Re.slash :: rest).
Proof. reflexivity. Qed.

Lemma match_here_sound (s o r : str) :
  Re.match_here s = Some (o, r) ->
  exists post, Match.at_ s [] o r post.
Proof.
  unfold Re.match_here. intros H.
  pose proof (take_tok_split s) as Hs. pose proof (take_tok_all s) as Ha.
  destruct (Re.take_tok s) as [g1 r1]; simpl in *.
  destruct g1 as [|x g1]; [discriminate|].
  destruct r1 as [|c r1]; [discriminate|].
  destruct (c =? Re.slash)%N eqn:Ec; [|discriminate].
  apply N.eqb_eq in Ec; subst c.
  pose proof (take_tok_split r1) as Hs2. pose proof (take_tok_all r1) as Ha2.
  destruct (Re.take_tok r1) as [g2 r2]; simpl in *.
  destruct g2 as [|y g2]; [discriminate|].
  injection H as <- <-. exists r2. unfold Match.at_, Match.token.
  repeat split; try discriminate; try assumption.
  simpl. rewrite Hs at 1. simpl. do 2 f_equal. rewrite Hs2 at 1.
  reflexivity.
Qed.

Lemma match_here_complete (s o r post : str) :
  Match.at_ s [] o r post ->
  exists r', Re.match_here s = Some (o, r') /\ length r <= length r'.
Proof.
  intros (Hs & [Ho Hto] & [Hr Htr]). simpl in Hs. subst s.
  unfold Re.match_here.
  rewrite (take_tok_app _ _ Hto), take_tok_slash. simpl. rewrite app_nil_r.
  destruct o as [|x o]; [contradiction|].
  rewrite (take_tok_app _ _ Htr). simpl.
  destruct r as [|y r]; [contradiction|]. simpl.
  eexists; split; [reflexivity|].
  simpl. rewrite length_app. lia.
Qed.

Lemma search_eq (s : str) :
  Re.search s
  = match Re.match_here s with
    | Some m => Some m
    | None => match s with [] => None | _ :: s' => Re.search s' end
    end.
Proof. destruct s; reflexivity. Qed.

(** What [re.search] returns is the first match of the text. *)
Lemma search_first (s o r : str) :
  Re.search s = Some (o, r) -> Match.first s o r.
Proof.
  induction s as [|c s IH]; rewrite search_eq.
  - discriminate.
  - destruct (Re.match_here (c :: s)) as [[o1 r1]|] eqn:Em.
    + intros H; injection H as -> ->.
      destruct (match_here_sound _ _ _ Em) as [post Hat].
      exists [], post. split; [assumption|].
      intros pre' o' r' post' Hat'. split; [simpl; lia|].
      intros Hl. destruct pre'; [|discriminate].
      destruct (match_here_complete _ _ _ _ Hat') as (r2 & Hm & Hle).
      rewrite Em in Hm. injection Hm as -> ->. now split.
    + intros H. destruct (IH H) as (pre & post & Hat & Hmin).
      exists (c :: pre), post. split.
      * destruct Hat as (Hs & Ho & Hr). repeat split; try apply Ho; try apply Hr.
        simpl. now f_equal.
      * intros pre' o' r' post' Hat'. destruct pre' as [|c' pre'].
        -- destruct (match_here_complete _ _ _ _ Hat') as (r2 & Hm & _). congruence.
        -- destruct Hat' as (Hs & Ho & Hr). simpl in Hs. injection Hs as <- Hs.
           destruct (Hmin pre' o' r' post') as [Hle Heq].
           { repeat split; try apply Ho; try apply Hr. assumption. }
           split; [simpl; lia|]. intros Hl. apply Heq. simpl in Hl. lia.
Qed.

(** A text in which [owner/repo] occurs has a match. *)
Lemma search_complete (s pre o r post : str) :
  Match.at_ s pre o r post -> Re.search s <> None.
Proof.
  revert s; induction pre as [|c pre IH]; intros s Hat; rewrite search_eq.
  - destruct (match_here_complete _ _ _ _ Hat) as (r2 & -> & _). discriminate.
  - destruct (Re.match_here s); [discriminate|].
    destruct Hat as (Hs & Ho & Hr). subst s. simpl.
    apply (IH _). repeat split; try apply Ho; try apply Hr.
Qed.

(** Both groups of a match are tokens, so neither is empty. *)
Lemma search_nonempty (s o r : str) :
  Re.search s = Some (o, r) -> nonempty o = true /\ nonempty r = true.
Proof.
  intros H. destruct (search_first _ _ _ H) as (pre & post & (_ & [Ho _] & [Hr _]) & _).
  destruct o; [contradiction|]. destruct r; [contradiction|]. now split.
Qed.

(** ** The fallback classifier *)

Lemma starts_with_prefix (p s : str) :
  PyStr.starts_with p s = true <-> exists post, s = p ++ post.
Proof.
  revert s; induction p as [|x p IH]; intros s.
  - split; [now exists s | reflexivity].
  - destruct s as [|y s]; cbn [PyStr.starts_with].
    + split; [discriminate | intros [post H]; discriminate].
    + rewrite andb_true_iff, N.eqb_eq, IH. split.
      * intros [-> [post ->]]. now exists post.
      * intros [post H]. injection H as -> ->. split; [reflexivity | now exists post].
Qed.

Lemma contains_occurs (word text : str) :
  PyStr.contains word text = true <-> occurs word text.
Proof.
  split.
  - induction text as [|c text IH]; rewrite contains_eq; intros H;
      apply orb_true_iff in H as [H | H]; try discriminate.
    + apply starts_with_prefix in H as [post ->]. now exists [], post.
    + apply starts_with_prefix in H as [post ->]. now exists [], post.
    + destruct (IH H) as (pre & post & ->). now exists (c :: pre), post.
  - intros (pre & post & ->). apply contains_app_r.
    rewrite contains_eq. apply orb_true_iff. left.
    apply starts_with_prefix. now exists post.
Qed.

Lemma any_in_mentions (words : list str) (text : str) :
  any_in words text = true <-> mentions words text.
Proof.
  unfold any_in, mentions. rewrite existsb_exists.
  split; intros (w & Hin & H); exists w; (split; [assumption|]);
    now apply contains_occurs.
Qed.

Lemma any_in_silent (words : list str) (text : str) :
  any_in words text = false <-> ~ mentions words text.
Proof.
  rewrite <- any_in_mentions. now destruct (any_in words text).
Qed.

Lemma search_has_pair (text : str) :
  pair_extracted text = true <-> has_pair text.
Proof.
  unfold pair_extracted, has_pair. split.
  - destruct (Re.search text) as [[o r]|] eqn:E; [|discriminate].
    intros _. destruct (search_first _ _ _ E) as (pre & post & Hat & _).
    now exists pre, o, r, post.
  - intros (pre & o & r & post & Hat). apply search_complete in Hat.
    now destruct (Re.search text).
Qed.

(** A rule list whose conditions are decided chooses what the first
    applicable rule says. *)
Lemma selects_decided (decided : list (bool * str)) (rules : list (Prop * str)) :
  Forall2 (fun b p => snd b = snd p /\ (fst b = true <-> fst p)) decided rules ->
  selects rules (first_applicable decided).
Proof.
  induction 1 as [|[b a] [P a'] decided rules [Ha Hb] _ IH]; [constructor|].
  cbn [fst snd] in Ha, Hb. subst a'. destruct b; cbn [first_applicable].
  - apply selects_here. now apply Hb.
  - apply selects_next; [|assumption]. intros HP. apply Hb in HP. discriminate.
Qed.

Lemma selects_unique (rules : list (Prop * str)) (a b : str) :
  selects rules a -> selects rules b -> a = b.
Proof.
  induction 1 as [|P x rules HP|P x rules y HP _ IH]; inversion 1; subst;
    try reflexivity; try contradiction.
  now apply IH.
Qed.

(** The intent of the fallback, by its parts. *)
Lemma fallback_rules (rt : Runtime) (user_input : str) :
  _fallback_parse rt user_input
  = [ (k_action,
       PStr (first_applicable
               (precedence (str_lower rt user_input) user_input)));
      (k_params,
       PDict [(k_owner, PStr (fst (extracted user_input)));
              (k_repo, PStr (snd (extracted user_input)))]);
      (k_confidence,
       PFloat (if pair_extracted user_input then Py.f07 else Py.f03)) ].
Proof.
  unfold _fallback_parse, fallback_action, precedence, extracted,
    pair_extracted.
  destruct (Re.search user_input) as [[o r]|] eqn:E.
  - destruct (search_nonempty _ _ _ E) as [-> ->]. simpl.
    repeat match goal with
           | |- context [any_in ?ts ?l] => destruct (any_in ts l)
           end; reflexivity.
  - simpl.
    repeat match goal with
           | |- context [any_in ?ts ?l] => destruct (any_in ts l)
           end; reflexivity.
Qed.

Lemma precedence_rules (user_lower user_input : str) :
  selects (keyword_rules user_lower (has_pair user_input))
    (first_applicable (precedence user_lower user_input)).
Proof.
  apply selects_decided. unfold precedence, keyword_rules.
  repeat (apply Forall2_cons;
          [split; [reflexivity | cbn [fst snd]; try apply any_in_mentions]|]);
    [|apply Forall2_nil].
  now rewrite andb_true_iff, search_has_pair, any_in_mentions.
Qed.

(** C6. For every raw text the fallback classifier selects its action by
    keyword precedence over the lower-cased text: the first, and only
    the first, of the rules issues, branches, commits, pull requests,
    repository (which also needs an owner/repo pair in the raw text),
    search, "my repos" whose keyword occurs decides, and [unknown] is
    chosen when none applies. Its parameters are the first match of the
    raw text and its confidence is 0.7 when the text holds a pair; with
    no pair both parameters are empty and the confidence is 0.3. *)
Theorem fallback_precedence (rt : Runtime) (user_input : str) :
  exists action owner repo confidence,
    _fallback_parse rt user_input
    = [ (k_action, PStr action);
        (k_params, PDict [(k_owner, PStr owner); (k_repo, PStr repo)]);
        (k_confidence, PFloat confidence) ]
    /\ selects (keyword_rules (str_lower rt user_input) (has_pair user_input))
         action
    /\ (forall other,
          selects (keyword_rules (str_lower rt user_input)
                     (has_pair user_input)) other ->
          other = action)
    /\ (has_pair user_input ->
        Match.first user_input owner repo /\ confidence = Py.f07)
    /\ (~ has_pair user_input ->
        owner = [] /\ repo = [] /\ confidence = Py.f03).
Proof.
  rewrite fallback_rules.
  pose proof (precedence_rules (str_lower rt user_input) user_input) as Hsel.
  do 4 eexists. split; [reflexivity|]. split; [exact Hsel|].
  split; [intros other Ho; exact (selects_unique _ _ _ Ho Hsel)|].
  pose proof (search_has_pair user_input) as Hp.
  unfold extracted, pair_extracted in *.
  destruct (Re.search user_input) as [[o r]|] eqn:E; cbn [fst snd]; split.
  - intros _. split; [now apply search_first | reflexivity].
  - intros Hn. exfalso. apply Hn, Hp. reflexivity.
  - intros H. apply Hp in H. discriminate.
  - now intros _.
Qed.

Lemma fallback_precedence_witness :
  action_of (_fallback_parse Ref.runtime
               (py "Commits e Branches do torvalds/linux"))
  = Some (PStr (py "list_branches"))
  /\ confidence_of (_fallback_parse Ref.runtime
                      (py "Commits e Branches do torvalds/linux"))
     = Some (PFloat Py.f07).
Proof.
  destruct (fallback_precedence Ref.runtime
              (py "Commits e Branches do torvalds/linux"))
    as (action & owner & repo & confidence & -> & _ & Honly & Hpair & _).
  split.
  - cbn [action_of Dict.get]. change (PyStr.eqb k_action k_action) with true.
    cbv iota. do 2 f_equal. symmetry. apply Honly.
    apply selects_next.
    + apply any_in_silent. vm_compute. reflexivity.
    + apply selects_here. exists (py "branch"). split; [now left|].
      exists (py "commits e "), (py "es do torvalds/linux").
      vm_compute. reflexivity.
  - destruct Hpair as [_ ->]; [|vm_compute; reflexivity].
    exists (py "Commits e Branches do "), (py "torvalds"), (py "linux"), [].
    repeat split; try discriminate; vm_compute; reflexivity.
Defined.

Example fallback_scenario :
  _fallback_parse Ref.runtime (py "Issues do microsoft/vscode")
  = [ (k_action, PStr (py "list_issues"));
      (k_params, PDict [(k_owner, PStr (py "microsoft"));
                        (k_repo, PStr (py "vscode"))]);
      (k_confidence, PFloat Py.f07) ].
Proof. reflexivity. Qed.

Example fallback_repo_needs_pair :
  map (fun t => action_of (_fallback_parse Ref.runtime (py t)))
      ["repositório facebook/react"; "meus repositórios"; "repo"; "a/b"]%string
  = map (fun a => Some (PStr (py a)))
      ["get_repo"; "list_repos"; "unknown"; "unknown"]%string.
Proof. reflexivity. Qed.

(** An [unknown] of the fallback carries 0.3, or 0.7 with an extracted
    pair; neither is below 0.3, and the gate rejects it on its action. *)
Lemma fallback_unknown_facts (rt : Runtime) (user_input : str) :
  action_of (_fallback_parse rt user_input) = Some (PStr unknown) ->
  exists f,
    confidence_of (_fallback_parse rt user_input) = Some (PFloat f)
    /\ (f = Py.f03 \/ f = Py.f07)
    /\ Py.lt_03 (PFloat f) = Ok false
    /\ gate_rejects (_fallback_parse rt user_input) = Ok true.
Proof.
  intros Ha. unfold gate_rejects. fold (action_of (_fallback_parse rt user_input)).
  rewrite Ha. unfold confidence_of, _fallback_parse.
  destruct (nonempty _ && nonempty _); eexists;
    (split; [reflexivity|]); (split; [auto|]); split; reflexivity.
Qed.

(** C5, as stated, fails on the empty text: the fallback answers [unknown]
    with confidence 0.3, and 0.3 is not below 0.3. *)
Lemma fallback_unknown_not_below :
  action_of (_fallback_parse Ref.runtime []) = Some (PStr unknown)
  /\ confidence_of (_fallback_parse Ref.runtime []) = Some (PFloat Py.f03)
  /\ Py.lt_03 (PFloat Py.f03) <> Ok true.
Proof. repeat split; try reflexivity. discriminate. Qed.

(** ** The text handed to [json.loads] *)

Lemma scan_brace_free (pre rest : str) (i depth start : Z) :
  Span.brace_free pre = true ->
  scan_braces (pre ++ rest) i depth start
  = scan_braces rest (i + Z.of_nat (length pre)) depth start.
Proof.
  revert i; induction pre as [|c pre IH]; intros i H; simpl.
  - now rewrite Z.add_0_r.
  - simpl in H. apply andb_prop in H as [Hc Hpre].
    unfold Span.is_brace in Hc. apply negb_true_iff, orb_false_iff in Hc.
    destruct Hc as [-> ->]. rewrite (IH _ Hpre). f_equal. lia.
Qed.

Lemma scan_closes (r post : str) (d : nat) (i start : Z) :
  Span.closes (S d) r = true -> (0 <= start)%Z ->
  scan_braces (r ++ post) i (Z.of_nat (S d)) start
  = Some (start, (i + Z.of_nat (length r) - 1)%Z).
Proof.
  revert d i; induction r as [|c r IH]; intros d i Hc Hs; [discriminate|].
  cbn [Span.closes] in Hc. cbn [app scan_braces length].
  destruct (c =? lbrace)%N.
  - replace (Z.of_nat (S d) =? 0)%Z with false by (symmetry; apply Z.eqb_neq; lia).
    replace (Z.of_nat (S d) + 1)%Z with (Z.of_nat (S (S d))) by lia.
    rewrite (IH _ _ Hc Hs). f_equal. f_equal. lia.
  - destruct (c =? rbrace)%N.
    + destruct d as [|d].
      * destruct r; [|discriminate]. simpl.
        replace (0 <=? start)%Z with true by (symmetry; apply Z.leb_le; lia).
        simpl. f_equal. f_equal. lia.
      * replace (Z.of_nat (S (S d)) - 1 =? 0)%Z with false
          by (symmetry; apply Z.eqb_neq; lia).
        replace (Z.of_nat (S (S d)) - 1)%Z with (Z.of_nat (S d)) by lia.
        cbn [andb]. rewrite (IH _ _ Hc Hs). f_equal. f_equal. lia.
    + rewrite (IH _ _ Hc Hs). f_equal. f_equal. lia.
Qed.

(** The scan returns a balanced span that no brace precedes. *)
Lemma extract_span_first (pre span post : str) :
  Span.brace_free pre = true -> Span.balanced span = true ->
  extract_span (pre ++ span ++ post) = span.
Proof.
  intros Hpre Hb. destruct span as [|c r]; [discriminate|].
  simpl in Hb. apply andb_prop in Hb as [Hc Hr]. apply N.eqb_eq in Hc; subst c.
  unfold extract_span. rewrite (scan_brace_free _ _ _ _ _ Hpre).
  cbn [app scan_braces]. rewrite N.eqb_refl. cbn [Z.eqb].
  change (0 + 1)%Z with (Z.of_nat 1).
  rewrite (scan_closes _ _ _ _ _ Hr) by lia.
  unfold PyStr.slice.
  replace (Z.to_nat (0 + Z.of_nat (length pre))) with (length pre) by lia.
  rewrite skipn_app, skipn_all, Nat.sub_diag. simpl skipn. simpl app at 1.
  replace (Z.to_nat _) with (length (lbrace :: r)) by (simpl; lia).
  change (lbrace :: r ++ post) with ((lbrace :: r) ++ post).
  rewrite firstn_app, firstn_all, Nat.sub_diag. simpl. now rewrite app_nil_r.
Qed.

Lemma balanced_head (span : str) :
  Span.balanced span = true -> exists r, span = lbrace :: r.
Proof.
  destruct span as [|c r]; [discriminate|]. simpl. intros H.
  apply andb_prop in H as [H _]. apply N.eqb_eq in H. subst. now exists r.
Qed.

Lemma first_in_brace_free (pre span post : str) :
  Span.brace_free pre = true -> Span.balanced span = true ->
  Span.first_in (pre ++ span ++ post) span.
Proof.
  intros Hpre Hb. exists pre, post. repeat split; [assumption|].
  intros pre' span' post' Heq Hb'.
  destruct (Nat.le_gt_cases (length pre) (length pre')) as [|Hlt]; [assumption|].
  exfalso. destruct (balanced_head _ Hb') as [r' ->].
  assert (Hn : nth (length pre') (pre ++ span ++ post) 0%N = lbrace).
  { rewrite Heq. simpl. apply nth_middle. }
  rewrite app_nth1 in Hn by assumption.
  unfold Span.brace_free in Hpre. rewrite forallb_forall in Hpre.
  assert (Hin : In (nth (length pre') pre 0%N) pre) by now apply nth_In.
  rewrite Hn in Hin. apply Hpre in Hin. discriminate.
Qed.

(** Without a fence marker the fence step changes nothing. *)
Lemma unfence_plain (response : str) :
  PyStr.contains fence response = false ->
  unfence (PyStr.strip response) = Ok (PyStr.strip response).
Proof.
  intros H. unfold unfence.
  destruct (PyStr.contains fence (PyStr.strip response)) eqn:E; [|reflexivity].
  apply contains_strip in E. congruence.
Qed.

Lemma split_go_head (sep s cur : str) (skip : nat) :
  exists a rest, PyStr.split_go sep skip cur s = a :: rest.
Proof.
  revert cur skip; induction s as [|c s IH]; intros cur skip.
  - now exists (rev cur), [].
  - cbn [PyStr.split_go]. destruct skip as [|k]; [|apply IH].
    destruct (PyStr.starts_with sep (c :: s)); [|apply IH].
    now exists (rev cur), (PyStr.split_go sep (length sep - 1) [] s).
Qed.

(** A text that holds the separator splits in two parts at least. *)
Lemma split_second (sep s : str) :
  sep <> [] -> PyStr.contains sep s = true ->
  exists a b rest, PyStr.split sep s = a :: b :: rest.
Proof.
  intros Hsep. unfold PyStr.split. generalize (@nil char) as cur.
  induction s as [|c s IH]; intros cur H.
  - destruct sep; [contradiction | discriminate].
  - rewrite contains_eq in H. cbn [PyStr.split_go].
    destruct (PyStr.starts_with sep (c :: s)).
    + destruct (split_go_head sep s [] (length sep - 1)) as (b & rest & ->).
      now exists (rev cur), b, rest.
    + apply IH. exact H.
Qed.

(** The fence step never raises: its index is always in range. *)
Lemma unfence_returns (json_str : str) : exists t, unfence json_str = Ok t.
Proof.
  unfold unfence. destruct (PyStr.contains fence json_str) eqn:E.
  - destruct (split_second fence json_str) as (a & b & rest & ->);
      [discriminate | assumption |]. now eexists.
  - now eexists.
Qed.

(** The extraction fails on a response that is not a string, and on no
    other. *)
Lemma json_candidate_string (response : str) :
  exists s, json_candidate (PStr response) = Ok s.
Proof.
  unfold json_candidate. cbn [Py.strip rbind].
  destruct (unfence_returns (PyStr.strip response)) as [t ->]. now eexists.
Qed.

(** C3, as the code has it. The response is stripped and, when it holds a
    fence marker, cut down to what stands between the first two markers
    with every "json" removed. In the text so prepared, when no brace
    precedes it, the first balanced span is what the classifier extracts
    and parses; everything around it is ignored. *)
Theorem candidate_first_span
  (rt : Runtime) (response prepared pre span post user_input : str) :
  unfence (PyStr.strip response) = Ok prepared ->
  prepared = pre ++ span ++ post ->
  Span.brace_free pre = true ->
  Span.balanced span = true ->
  Span.first_in prepared span
  /\ json_candidate (PStr response) = Ok span
  /\ parse_body rt (PStr response) user_input
     = rbind (json_loads rt span) (_enrich_intent user_input).
Proof.
  intros Hu -> Hpre Hb.
  assert (Hc : json_candidate (PStr response) = Ok span).
  { unfold json_candidate. simpl. rewrite Hu. simpl.
    now rewrite extract_span_first. }
  split; [now apply first_in_brace_free|]. split; [assumption|].
  unfold parse_body. now rewrite Hc.
Qed.

Lemma candidate_first_span_witness :
  Span.first_in (PyStr.strip chatty_response)
    (pyq "{'action': 'get_user', 'params': {}, 'confidence': 0.9}")
  /\ json_candidate (PStr chatty_response)
     = Ok (pyq "{'action': 'get_user', 'params': {}, 'confidence': 0.9}")
  /\ parse_body Ref.runtime (PStr chatty_response) (py "quem sou eu")
     = rbind (json_loads Ref.runtime
                (pyq "{'action': 'get_user', 'params': {}, 'confidence': 0.9}"))
             (_enrich_intent (py "quem sou eu")).
Proof.
  apply (candidate_first_span Ref.runtime chatty_response
           (PyStr.strip chatty_response)
           (py "Claro! Aqui está: ")
           (pyq "{'action': 'get_user', 'params': {}, 'confidence': 0.9}")
           (py " Espero ter ajudado.") (py "quem sou eu")); reflexivity.
Defined.

(** C3, as stated, fails on a response that carries a fence after its
    object: the first balanced span of the response is the object, the
    text parsed is what the fence holds. *)
Lemma fenced_tail_not_first_span :
  Span.first_in (pyq "{'a':1} ```x``` ") (pyq "{'a':1}")
  /\ json_candidate (PStr (pyq "{'a':1} ```x``` ")) = Ok (py "x")
  /\ py "x" <> pyq "{'a':1}".
Proof.
  split; [|split; [reflexivity | discriminate]].
  exists [], (py " ```x``` "). repeat split. intros; simpl; lia.
Qed.

(** A closing brace ahead of the object hides it from the scan as well. *)
Example stray_brace_hides_span :
  json_candidate (PStr (pyq "} {'a':1}")) = Ok (pyq "} {'a':1}").
Proof. reflexivity. Qed.

Example fenced_json :
  json_candidate (PStr (pyq "Segue:
```json
{'action': 'list_repos', 'params': {}}
```
"))
  = Ok (pyq "{'action': 'list_repos', 'params': {}}").
Proof. reflexivity. Qed.

(** ** The model-backed classifier *)

Lemma chat_run (rt : Runtime) (sv : Services) (messages : list message) :
  exists response,
    chat rt sv messages = ([EvChat messages], Ok response)
    /\ forall e, chat_post sv messages = Raise e ->
                 response = PStr (py "Erro Ollama: " ++ exn_text rt e).
Proof.
  unfold chat. simpl. eexists. split; [reflexivity|].
  intros e ->. reflexivity.
Qed.

Lemma parse_raise_falls_back
  (rt : Runtime) (response : pyval) (user_input : str) (e : exn) :
  parse_body rt response user_input = Raise e ->
  parse_response rt response user_input = _fallback_parse rt user_input.
Proof. unfold parse_response. now intros ->. Qed.

Lemma parse_fails_raises
  (rt : Runtime) (response : pyval) (user_input : str) :
  parse_fails rt response user_input <->
  exists e, parse_body rt response user_input = Raise e.
Proof.
  unfold parse_fails, parse_body. split.
  - intros [[e H] | [(s & e & Hs & Hl) | (s & v & e & Hs & Hl & He)]].
    + exists e. now rewrite H.
    + exists e. rewrite Hs. simpl. now rewrite Hl.
    + exists e. rewrite Hs. simpl. rewrite Hl. exact He.
  - intros [e H]. destruct (json_candidate response) as [s|e1] eqn:Hs.
    + simpl in H. destruct (json_loads rt s) as [v|e2] eqn:Hl.
      * right; right. now exists s, v, e.
      * right; left. now exists s, e2.
    + left. now exists e1.
Qed.

(** One chat call, and always an intent. *)
Lemma parse_intent_run (rt : Runtime) (sv : Services) (user_input : str) :
  exists response,
    parse_intent rt sv user_input
    = ([EvChat (messages_for user_input)],
       Ok (parse_response rt response user_input))
    /\ forall e, chat_post sv (messages_for user_input) = Raise e ->
                 response = PStr (py "Erro Ollama: " ++ exn_text rt e).
Proof.
  unfold parse_intent. fold (messages_for user_input).
  destruct (chat_run rt sv (messages_for user_input)) as (response & Hc & He).
  exists response. rewrite Hc. split; [reflexivity | exact He].
Qed.

(** The try block of [parse_intent] either raises or yields an intent. *)
Lemma parse_body_cases
  (rt : Runtime) (response : pyval) (user_input : str) :
  parse_fails rt response user_input
  \/ exists s v intent,
       json_candidate response = Ok s /\ json_loads rt s = Ok v
       /\ _enrich_intent user_input v = Ok intent.
Proof.
  destruct (json_candidate response) as [s|e] eqn:Hs;
    [|left; left; now exists e].
  destruct (json_loads rt s) as [v|e] eqn:Hl;
    [|left; right; left; now exists s, e].
  destruct (_enrich_intent user_input v) as [intent|e] eqn:He.
  - right. now exists s, v, intent.
  - left; right; right. now exists s, v, e.
Qed.

Lemma parse_ok_returns
  (rt : Runtime) (response : pyval) (user_input s : str) (v : pyval)
  (intent : dict) :
  json_candidate response = Ok s ->
  json_loads rt s = Ok v ->
  _enrich_intent user_input v = Ok intent ->
  parse_response rt response user_input = intent.
Proof.
  intros Hs Hl He. unfold parse_response, parse_body.
  rewrite Hs. cbn [rbind]. rewrite Hl. cbn [rbind]. now rewrite He.
Qed.

(** Without a span the whole prepared text is the candidate. *)
Lemma no_span_candidate (response json_str : str) :
  unfence (PyStr.strip response) = Ok json_str ->
  scan_braces json_str 0 0 (-1) = None ->
  json_candidate (PStr response) = Ok json_str.
Proof.
  intros Hu Hn. unfold json_candidate. cbn [Py.strip rbind]. rewrite Hu.
  cbn [rbind]. unfold extract_span. now rewrite Hn.
Qed.

(** C2, as the code has it. [parse_intent] makes one chat call and always
    returns an intent; a failure of that call reaches the try block as
    the error text. The try block raises or it does not: whenever it
    raises (at the extraction, at [json.loads], or at the enrichment)
    the intent returned is exactly the fallback classifier's on the same
    raw text, and whenever it does not, the intent returned is the
    decoded value after enrichment. A scan that finds no span is not a
    failure: the whole prepared text is then what [json.loads] gets. *)
Theorem parse_intent_degrades
  (rt : Runtime) (sv : Services) (user_input : str) :
  (exists response,
      parse_intent rt sv user_input
      = ([EvChat (messages_for user_input)],
         Ok (parse_response rt response user_input))
      /\ forall e, chat_post sv (messages_for user_input) = Raise e ->
                   response = PStr (py "Erro Ollama: " ++ exn_text rt e))
  /\ (forall response,
         parse_fails rt response user_input ->
         parse_response rt response user_input
         = _fallback_parse rt user_input)
  /\ (forall response s v intent,
         json_candidate response = Ok s ->
         json_loads rt s = Ok v ->
         _enrich_intent user_input v = Ok intent ->
         parse_response rt response user_input = intent)
  /\ (forall response,
         parse_fails rt response user_input
         \/ exists s v intent,
              json_candidate response = Ok s /\ json_loads rt s = Ok v
              /\ _enrich_intent user_input v = Ok intent)
  /\ (forall response json_str,
         unfence (PyStr.strip response) = Ok json_str ->
         scan_braces json_str 0 0 (-1) = None ->
         json_candidate (PStr response) = Ok json_str).
Proof.
  split; [apply parse_intent_run|]. split; [|split; [|split]].
  - intros response Hf. apply parse_fails_raises in Hf as [e He].
    now apply parse_raise_falls_back with e.
  - intros response s v intent. apply parse_ok_returns.
  - intros response. apply parse_body_cases.
  - apply no_span_candidate.
Qed.

Lemma parse_intent_degrades_witness :
  parse_intent Ref.runtime (Ref.offline (py "Read timed out.") PNone)
    (py "issues do microsoft/vscode")
  = ([EvChat (messages_for (py "issues do microsoft/vscode"))],
     Ok (_fallback_parse Ref.runtime (py "issues do microsoft/vscode"))).
Proof.
  destruct (parse_intent_degrades Ref.runtime
              (Ref.offline (py "Read timed out.") PNone)
              (py "issues do microsoft/vscode"))
    as [(response & Hrun & Herr) [Hfall _]].
  rewrite Hrun. rewrite (Herr _ eq_refl). rewrite Hfall; [reflexivity|].
  right; left. eexists; eexists; split; reflexivity.
Defined.

(** C2, as stated, fails on a response whose only unbalanced brace sits in
    a string: the scan finds no span, the whole text is decoded, and the
    model's intent is returned, not the fallback's. *)
Lemma no_span_yet_parsed :
  no_span_found brace_in_string
  /\ parse_response Ref.runtime (PStr brace_in_string) (py "meu perfil")
     = [ (k_action, PStr (py "get_user"));
         (k_params, PDict [(py "username", PStr (py "{"))]);
         (k_confidence, PFloat 1%float) ]
  /\ parse_response Ref.runtime (PStr brace_in_string) (py "meu perfil")
     <> _fallback_parse Ref.runtime (py "meu perfil").
Proof.
  split; [|split; [reflexivity | discriminate]].
  exists brace_in_string. split; reflexivity.
Qed.

Lemma enrich_without_params (user_input : str) (d : dict) (pre o r post : str) :
  Dict.get k_params d = None ->
  Match.at_ user_input pre o r post ->
  _enrich_intent user_input (PDict d) = Raise (KeyError (PStr k_params)).
Proof.
  intros Hp Hat. unfold _enrich_intent. rewrite Hp. simpl.
  destruct (Re.search user_input) as [[g1 g2]|] eqn:E.
  - simpl. now rewrite Hp.
  - now apply search_complete in Hat.
Qed.

(** C10. When the text decoded from the model's response is an object
    without a "params" key and the raw text holds an owner/repo pair, the
    enrichment raises the key error of [intent["params"]] and
    [parse_intent] returns the fallback classifier's intent: the model's
    action and confidence are dropped. *)
Theorem missing_params_falls_back
  (rt : Runtime) (response : pyval) (user_input s : str) (d : dict)
  (pre o r post : str) :
  json_candidate response = Ok s ->
  json_loads rt s = Ok (PDict d) ->
  Dict.get k_params d = None ->
  Match.at_ user_input pre o r post ->
  _enrich_intent user_input (PDict d) = Raise (KeyError (PStr k_params))
  /\ parse_response rt response user_input = _fallback_parse rt user_input.
Proof.
  intros Hs Hl Hp Hat.
  pose proof (enrich_without_params _ _ _ _ _ _ Hp Hat) as He.
  split; [assumption|].
  apply parse_raise_falls_back with (KeyError (PStr k_params)).
  unfold parse_body. rewrite Hs. simpl. now rewrite Hl.
Qed.

Lemma missing_params_falls_back_witness :
  _enrich_intent (py "branches do torvalds/linux")
    (PDict [(k_action, PStr (py "list_commits")); (k_confidence, PFloat 1%float)])
  = Raise (KeyError (PStr k_params))
  /\ parse_response Ref.runtime
       (PStr (pyq "{'action': 'list_commits', 'confidence': 1.0}"))
       (py "branches do torvalds/linux")
     = _fallback_parse Ref.runtime (py "branches do torvalds/linux").
Proof.
  apply (missing_params_falls_back Ref.runtime
           (PStr (pyq "{'action': 'list_commits', 'confidence': 1.0}"))
           (py "branches do torvalds/linux")
           (pyq "{'action': 'list_commits', 'confidence': 1.0}")
           [(k_action, PStr (py "list_commits")); (k_confidence, PFloat 1%float)]
           (py "branches do ") (py "torvalds") (py "linux") []);
    try reflexivity.
  repeat split; discriminate.
Defined.

(** Without a pair in the raw text the same object passes unchanged. *)
Example missing_params_no_pair :
  parse_response Ref.runtime
    (PStr (pyq "{'action': 'get_user', 'confidence': 1.0}")) (py "quem sou eu")
  = [(k_action, PStr (py "get_user")); (k_confidence, PFloat 1%float)].
Proof. reflexivity. Qed.

(** ** Owner and repo: the normalizer and the resolution at dispatch *)

Lemma get_set_same (k : str) (v : pyval) (d : dict) :
  Dict.get k (Dict.set k v d) = Some v.
Proof.
  induction d as [|[k' v'] d IH]; simpl.
  - now rewrite eqb_refl.
  - destruct (PyStr.eqb k k') eqn:E; simpl; rewrite ?eqb_refl, ?E; auto.
Qed.

Lemma get_set_other (k k' : str) (v : pyval) (d : dict) :
  k <> k' -> Dict.get k (Dict.set k' v d) = Dict.get k d.
Proof.
  intros Hk. apply eqb_neq in Hk.
  induction d as [|[k2 v2] d IH]; simpl.
  - now rewrite Hk.
  - destruct (PyStr.eqb k' k2) eqn:E; simpl.
    + apply eqb_eq in E; subst k2. now rewrite Hk.
    + now rewrite IH.
Qed.

Lemma str_valued_get (d : dict) (k : str) (v : pyval) :
  str_valued d = true -> Dict.get k d = Some v -> exists s, v = PStr s.
Proof.
  induction d as [|[k' v'] d IH]; simpl; [discriminate|].
  intros H. apply andb_prop in H as [Hv Hd]. simpl in Hv.
  destruct (PyStr.eqb k k').
  - intros [= <-]. destruct v'; try discriminate. now eexists.
  - now apply IH.
Qed.

(** The value a string-valued mapping holds under a key: a string or
    nothing. *)
Lemma str_valued_cases (d : dict) (k : str) :
  str_valued d = true ->
  Dict.get k d = None \/ exists s, Dict.get k d = Some (PStr s).
Proof.
  intros H. destruct (Dict.get k d) as [v|] eqn:E; [right | now left].
  destruct (str_valued_get _ _ _ H E) as [s ->]. now exists s.
Qed.

Lemma split_without_sep (sep s cur : str) :
  PyStr.contains sep s = false ->
  PyStr.split_go sep 0 cur s = [rev cur ++ s].
Proof.
  revert cur; induction s as [|c s IH]; intros cur H.
  - simpl. now rewrite app_nil_r.
  - rewrite contains_eq in H. apply orb_false_iff in H as [Hs Hc].
    cbn [PyStr.split_go]. rewrite Hs, (IH _ Hc). simpl.
    now rewrite <- app_assoc.
Qed.

(** A text that splits in two or more holds the separator. *)
Lemma split_two_contains (sep s a b : str) (rest : list str) :
  PyStr.split sep s = a :: b :: rest -> PyStr.contains sep s = true.
Proof.
  intros H. destruct (PyStr.contains sep s) eqn:E; [reflexivity|].
  unfold PyStr.split in H. rewrite (split_without_sep _ _ _ E) in H.
  discriminate.
Qed.

Lemma scan_keys_step (d : dict) (key : str) (keys : list str) :
  str_valued d = true ->
  scan_keys (PDict d) (key :: keys)
  = match segments_under d key with
    | Some segs => Ok (Some segs)
    | None => scan_keys (PDict d) keys
    end.
Proof.
  intros Hd. unfold segments_under. cbn [scan_keys Py.get rbind].
  destruct (str_valued_cases d key Hd) as [-> | [s ->]]; [reflexivity|].
  destruct s as [|c s]; [reflexivity|].
  cbn [Py.truthy Py.str_in rbind].
  destruct (PyStr.contains [Re.slash] (c :: s)); [|reflexivity].
  cbn [Py.split rbind]. now destruct (PyStr.split [Re.slash] (c :: s)) as [|a [|b l]].
Qed.

Lemma final_pair (d : dict) (key : str) :
  str_valued d = true ->
  (let v := match Dict.get key d with Some x => x | None => PStr [] end in
   if Py.truthy v then Py.strip v else Ok [])
  = Ok (stripped_under d key).
Proof.
  intros Hd. unfold stripped_under.
  destruct (str_valued_cases d key Hd) as [-> | [s ->]]; [reflexivity|].
  now destruct s.
Qed.

(** Resolution at dispatch on a mapping of strings. *)
Lemma get_owner_repo_resolved (d : dict) :
  str_valued d = true -> get_owner_repo (PDict d) = Ok (resolved d).
Proof.
  intros Hd. unfold get_owner_repo, resolved.
  cbn [Py.get rbind]. rewrite !(scan_keys_step _ _ _ Hd).
  destruct (segments_under d k_owner); [reflexivity|].
  destruct (segments_under d k_repo); [reflexivity|].
  destruct (segments_under d k_repository); [reflexivity|].
  cbn [scan_keys rbind].
  pose proof (final_pair d k_owner Hd) as Ho.
  pose proof (final_pair d k_repo Hd) as Hr.
  cbv zeta in Ho, Hr. rewrite Ho. cbn [rbind]. rewrite Hr. reflexivity.
Qed.

(** Only three keys are read. *)
Lemma get_owner_repo_frame (d d' : dict) :
  (forall k, In k [k_owner; k_repo; k_repository] ->
             Dict.get k d' = Dict.get k d) ->
  get_owner_repo (PDict d') = get_owner_repo (PDict d).
Proof.
  intros H.
  assert (Ho : Dict.get k_owner d' = Dict.get k_owner d) by (apply H; simpl; auto).
  assert (Hr : Dict.get k_repo d' = Dict.get k_repo d) by (apply H; simpl; auto).
  assert (Hy : Dict.get k_repository d' = Dict.get k_repository d)
    by (apply H; simpl; auto).
  unfold get_owner_repo. cbn [scan_keys Py.get]. now rewrite Ho, Hr, Hy.
Qed.

Lemma scan_keys_plain (d : dict) (key : str) (keys : list str) :
  plain_under d key = true ->
  scan_keys (PDict d) (key :: keys)
  = match segments_under d key with
    | Some segs => Ok (Some segs)
    | None => scan_keys (PDict d) keys
    end.
Proof.
  unfold plain_under, segments_under. cbn [scan_keys Py.get rbind].
  destruct (Dict.get key d) as [v|]; [|reflexivity].
  destruct v as [|b|n|x|s|l|pd]; cbn [plain]; intros H;
    try (apply negb_true_iff in H; rewrite H; reflexivity).
  destruct s as [|c s]; [reflexivity|].
  cbn [Py.truthy Py.str_in rbind].
  destruct (PyStr.contains [Re.slash] (c :: s)); [|reflexivity].
  cbn [Py.split rbind]. now destruct (PyStr.split [Re.slash] (c :: s)) as [|a [|b l]].
Qed.

Lemma final_pair_plain (d : dict) (key : str) :
  plain_under d key = true ->
  (let v := match Dict.get key d with Some x => x | None => PStr [] end in
   if Py.truthy v then Py.strip v else Ok [])
  = Ok (stripped_under d key).
Proof.
  unfold plain_under, stripped_under.
  destruct (Dict.get key d) as [v|]; [|reflexivity].
  destruct v as [|b|n|x|s|l|pd]; cbn [plain]; intros H; cbv zeta;
    try (apply negb_true_iff in H; rewrite H; reflexivity).
  now destruct s.
Qed.

(** Resolution at dispatch when the three values it reads are plain. *)
Lemma get_owner_repo_plain (d : dict) :
  plain_under d k_owner = true ->
  plain_under d k_repo = true ->
  plain_under d k_repository = true ->
  get_owner_repo (PDict d) = Ok (resolved d).
Proof.
  intros Ho Hr Hy. unfold get_owner_repo, resolved.
  cbn [Py.get rbind].
  rewrite (scan_keys_plain _ _ _ Ho), (scan_keys_plain _ _ _ Hr),
    (scan_keys_plain _ _ _ Hy).
  destruct (segments_under d k_owner); [reflexivity|].
  destruct (segments_under d k_repo); [reflexivity|].
  destruct (segments_under d k_repository); [reflexivity|].
  cbn [scan_keys rbind].
  pose proof (final_pair_plain d k_owner Ho) as Fo.
  pose proof (final_pair_plain d k_repo Hr) as Fr.
  cbv zeta in Fo, Fr. rewrite Fo. cbn [rbind]. rewrite Fr. reflexivity.
Qed.

(** C8, as the code has it. Resolution at dispatch reads the values under
    [owner], [repo] and [repository] only: a mapping that agrees with
    this one on the three keys resolves alike, whatever its other keys
    hold. When each of the three values is absent, a string or a value
    that tests false, the first of them, in this order, that is a string
    with a slash gives its first two slash-separated segments, stripped,
    as (owner, repo); with no such value the stripped [owner] and [repo]
    strings are used, empty for an absent or false value. *)
Theorem dispatch_resolution (d : dict) :
  (forall d',
      (forall k, In k [k_owner; k_repo; k_repository] ->
                 Dict.get k d' = Dict.get k d) ->
      get_owner_repo (PDict d') = get_owner_repo (PDict d))
  /\ (plain_under d k_owner = true ->
      plain_under d k_repo = true ->
      plain_under d k_repository = true ->
      get_owner_repo (PDict d) = Ok (resolved d)).
Proof.
  split; [intros d'; apply get_owner_repo_frame | apply get_owner_repo_plain].
Qed.

Lemma dispatch_resolution_witness :
  get_owner_repo
    (PDict [(k_owner, PNone); (py "per_page", PInt 50);
            (k_repository, PStr (py " facebook / react /tree"))])
  = Ok (py "facebook", py "react").
Proof.
  exact (proj2 (dispatch_resolution
                  [(k_owner, PNone); (py "per_page", PInt 50);
                   (k_repository, PStr (py " facebook / react /tree"))])
               eq_refl eq_refl eq_refl).
Defined.

(** C8, as stated, fails on a value that sits under another key: its
    slash is never seen. *)
Lemma other_key_not_scanned :
  Dict.get (py "full_name") [(py "full_name", PStr (py "octocat/hello"))]
  = Some (PStr (py "octocat/hello"))
  /\ PyStr.split [Re.slash] (py "octocat/hello") = [py "octocat"; py "hello"]
  /\ get_owner_repo (PDict [(py "full_name", PStr (py "octocat/hello"))])
     = Ok ([], []).
Proof. repeat split. Qed.

Lemma has_owner_repo_strings (pd : dict) :
  str_valued pd = true -> has_owner_repo (PDict pd) = Ok (owner_repo_ok pd).
Proof.
  intros Hd. unfold has_owner_repo, owner_repo_ok. cbn [Py.get rbind].
  destruct (str_valued_cases pd k_owner Hd) as [-> | [o ->]]; [reflexivity|].
  destruct o as [|c o]; cbn [Py.truthy nonempty andb].
  - now destruct (Dict.get k_repo pd) as [[]|].
  - destruct (str_valued_cases pd k_repo Hd) as [-> | [r ->]]; [reflexivity|].
    now destruct r.
Qed.

(** C7, as the code has it. On an intent whose parameters are a mapping of
    strings, the normalizer returns the intent unchanged when owner and
    repo are both non-empty and the owner holds no slash, and when the
    raw text has no owner/repo match; otherwise it writes the two groups
    of the first match of the raw text under [owner] and [repo] and
    leaves the other keys alone. It never splits a value. The split is
    made at dispatch, which takes the first two slash-separated segments
    of the owner value. *)
Theorem normalizer_behaviour (user_input : str) (i pd : dict) :
  Dict.get k_params i = Some (PDict pd) ->
  str_valued pd = true ->
  (owner_repo_ok pd = true -> _enrich_intent user_input (PDict i) = Ok i)
  /\ (Re.search user_input = None -> _enrich_intent user_input (PDict i) = Ok i)
  /\ (owner_repo_ok pd = false ->
      forall o r, Re.search user_input = Some (o, r) ->
        Match.first user_input o r
        /\ exists pd',
             _enrich_intent user_input (PDict i)
             = Ok (Dict.set k_params (PDict pd') i)
             /\ Dict.get k_owner pd' = Some (PStr o)
             /\ Dict.get k_repo pd' = Some (PStr r)
             /\ forall k, k <> k_owner -> k <> k_repo ->
                          Dict.get k pd' = Dict.get k pd)
  /\ (forall v a b rest,
        Dict.get k_owner pd = Some (PStr v) ->
        PyStr.split [Re.slash] v = a :: b :: rest ->
        get_owner_repo (PDict pd) = Ok (PyStr.strip a, PyStr.strip b)).
Proof.
  intros Hp Hd.
  assert (He : _enrich_intent user_input (PDict i)
               = if owner_repo_ok pd then Ok i
                 else match Re.search user_input with
                      | Some (g1, g2) =>
                          Ok (Dict.set k_params
                                (PDict (Dict.set k_repo (PStr g2)
                                          (Dict.set k_owner (PStr g1) pd))) i)
                      | None => Ok i
                      end).
  { unfold _enrich_intent. rewrite Hp, (has_owner_repo_strings _ Hd).
    cbn [rbind]. destruct (owner_repo_ok pd); [reflexivity|].
    destruct (Re.search user_input) as [[g1 g2]|]; [|reflexivity].
    cbn [Py.getitem rbind]. now rewrite Hp. }
  repeat split.
  - intros Hok. now rewrite He, Hok.
  - intros Hn. rewrite He, Hn. now destruct (owner_repo_ok pd).
  - now apply search_first.
  - rewrite He, H, H0. eexists. split; [reflexivity|].
    split; [|split].
    + rewrite get_set_other by discriminate. apply get_set_same.
    + apply get_set_same.
    + intros k Hko Hkr. now rewrite !get_set_other.
  - intros v a b rest Hv Hsplit.
    rewrite (get_owner_repo_resolved _ Hd). unfold resolved, segments_under.
    now rewrite Hv, (split_two_contains _ _ _ _ _ Hsplit), Hsplit.
Qed.

Lemma normalizer_behaviour_witness :
  _enrich_intent (py "issues do microsoft/vscode")
    (PDict [(k_action, PStr (py "list_issues"));
            (k_params, PDict [(k_owner, PStr (py "microsoft/vscode"));
                              (py "state", PStr (py "open"))])])
  = Ok [(k_action, PStr (py "list_issues"));
        (k_params, PDict [(k_owner, PStr (py "microsoft"));
                          (py "state", PStr (py "open"));
                          (k_repo, PStr (py "vscode"))])]
  /\ Match.first (py "issues do microsoft/vscode") (py "microsoft") (py "vscode").
Proof.
  destruct (normalizer_behaviour (py "issues do microsoft/vscode")
              [(k_action, PStr (py "list_issues"));
               (k_params, PDict [(k_owner, PStr (py "microsoft/vscode"));
                                 (py "state", PStr (py "open"))])]
              [(k_owner, PStr (py "microsoft/vscode"));
               (py "state", PStr (py "open"))]
              eq_refl eq_refl)
    as (_ & _ & Hset & _).
  destruct (Hset eq_refl (py "microsoft") (py "vscode") eq_refl) as [Hfirst _].
  split; [reflexivity | exact Hfirst].
Defined.

(** C7, as stated, fails on an owner of three segments: the normalizer
    leaves the value whole, and the dispatcher, splitting at every slash,
    takes the second segment as the repo, not the rest of the value. *)
Lemma three_segments_not_split :
  _enrich_intent (py "mostre o projeto")
    (PDict [(k_action, PStr (py "get_repo"));
            (k_params, PDict [(k_owner, PStr (py "a/b/c"))])])
  = Ok [(k_action, PStr (py "get_repo"));
        (k_params, PDict [(k_owner, PStr (py "a/b/c"))])]
  /\ get_owner_repo (PDict [(k_owner, PStr (py "a/b/c"))]) = Ok (py "a", py "b")
  /\ py "b" <> py "b/c".
Proof. repeat split. discriminate. Qed.

(** ** The gate *)

(** The gate rejects on the action alone, or on a confidence (0 when
    absent) that compares below 0.3. *)
Lemma gate_rejects_iff (intent : dict) :
  gate_rejects intent = Ok true <->
  action_of intent = Some (PStr unknown)
  \/ Py.lt_03 (match confidence_of intent with Some c => c | None => PInt 0 end)
     = Ok true.
Proof.
  unfold gate_rejects, action_of, confidence_of. split.
  - destruct (Dict.get k_action intent) as [a|]; cbn [Py.eq_str]; [|now right].
    destruct a; cbn [Py.eq_str]; try (now right).
    destruct (PyStr.eqb s unknown) eqn:E; [|now right].
    apply eqb_eq in E. subst. now left.
  - intros [-> | H]; [reflexivity|].
    now destruct (Py.eq_str _ unknown).
Qed.


(** ** What the classifier hands to the gate *)

Lemma enrich_keeps (user_input : str) (d intent : dict) :
  _enrich_intent user_input (PDict d) = Ok intent ->
  forall k, k <> k_params -> Dict.get k intent = Dict.get k d.
Proof.
  unfold _enrich_intent. intros H k Hk.
  destruct (has_owner_repo _) as [[|]|]; cbn [rbind] in H;
    try discriminate; [now injection H as <-|].
  destruct (Re.search user_input) as [[g1 g2]|]; [|now injection H as <-].
  cbn [Py.getitem rbind] in H.
  destruct (Dict.get k_params d) as [[| | | | |pl|pd]|]; cbn [rbind] in H;
    try discriminate.
  injection H as <-. now apply get_set_other.
Qed.

(** C5, as the code has it. Every intent of the classifier with action
    [unknown] is rejected by the gate on its action alone, whatever its
    confidence. On the fallback path the confidence is exactly 0.3, or 0.7
    when an owner/repo pair was extracted, so it is never below 0.3; on
    the model-backed path it is the confidence the model gave. *)
Theorem classifier_unknown_confidence
  (rt : Runtime) (response : pyval) (user_input : str) :
  action_of (parse_response rt response user_input) = Some (PStr unknown) ->
  gate_rejects (parse_response rt response user_input) = Ok true
  /\ (parse_fails rt response user_input ->
      exists f,
        confidence_of (parse_response rt response user_input)
        = Some (PFloat f)
        /\ (f = Py.f03 \/ f = Py.f07)
        /\ Py.lt_03 (PFloat f) = Ok false)
  /\ (forall s d,
        json_candidate response = Ok s ->
        json_loads rt s = Ok (PDict d) ->
        ~ parse_fails rt response user_input ->
        confidence_of (parse_response rt response user_input)
        = confidence_of d).
Proof.
  intros Ha. split; [|split].
  - apply gate_rejects_iff. now left.
  - intros Hf. apply parse_fails_raises in Hf as [e He].
    rewrite (parse_raise_falls_back _ _ _ _ He) in Ha |- *.
    destruct (fallback_unknown_facts rt user_input Ha) as (f & Hc & Hf & Hl & _).
    now exists f.
  - intros s d Hs Hl Hn. unfold parse_response.
    destruct (parse_body rt response user_input) as [intent|e] eqn:Hb.
    + unfold parse_body in Hb. rewrite Hs in Hb. cbn [rbind] in Hb.
      rewrite Hl in Hb. cbn [rbind] in Hb.
      apply (enrich_keeps _ _ _ Hb). discriminate.
    + exfalso. apply Hn, parse_fails_raises. now exists e.
Qed.

Lemma classifier_unknown_confidence_witness :
  gate_rejects (parse_response Ref.runtime (PStr (py "Desculpe, não sei."))
                  (py "bom dia"))
  = Ok true.
Proof.
  apply (classifier_unknown_confidence Ref.runtime
           (PStr (py "Desculpe, não sei.")) (py "bom dia")).
  vm_compute. reflexivity.
Defined.

(** The model may say [unknown] with full confidence; the intent passes
    through unchanged and the gate still rejects it. *)
Example model_unknown_full_confidence :
  parse_response Ref.runtime
    (PStr (pyq "{'action': 'unknown', 'params': {}, 'confidence': 1.0}"))
    (py "bom dia")
  = [(k_action, PStr unknown); (k_params, PDict []);
     (k_confidence, PFloat 1%float)]
  /\ gate_rejects [(k_action, PStr unknown); (k_params, PDict []);
                   (k_confidence, PFloat 1%float)] = Ok true.
Proof. split; vm_compute; reflexivity. Qed.

(** ** The dispatcher *)

Lemma execute_unfold
  (rt : Runtime) (sv : Services) (intent d : dict) (name : str) :
  params_of intent = PDict d ->
  str_valued d = true ->
  action_of intent = Some (PStr name) ->
  execute rt sv intent
  = match lookup name (actions rt sv (PDict d)
                         (fst (resolved d)) (snd (resolved d))) with
    | Some body => try_with body (execute_handler rt)
    | None => ret (error_record msg_unrecognized)
    end.
Proof.
  unfold params_of, action_of, execute. intros Hp Hd ->. rewrite Hp.
  rewrite (get_owner_repo_resolved _ Hd). destruct (resolved d) as [o r].
  cbn [lift bind fst snd Py.hashable app].
  now destruct (lookup name (actions rt sv (PDict d) o r)) as [[t [v|e]]|];
    simpl; try destruct (execute_handler rt e).
Qed.

Lemma both_empty (owner repo : str) :
  owner = [] \/ repo = [] -> nonempty owner && nonempty repo = false.
Proof. intros [-> | ->]; [reflexivity | apply andb_false_r]. Qed.

(** The dispatch once the resolution has returned. *)
Lemma execute_resolved
  (rt : Runtime) (sv : Services) (intent : dict) (name owner repo : str) :
  action_of intent = Some (PStr name) ->
  get_owner_repo (params_of intent) = Ok (owner, repo) ->
  execute rt sv intent
  = match lookup name (actions rt sv (params_of intent) owner repo) with
    | Some body => try_with body (execute_handler rt)
    | None => ret (error_record msg_unrecognized)
    end.
Proof.
  unfold action_of, params_of, execute. intros -> ->.
  cbn [lift bind fst snd Py.hashable app].
  now destruct (lookup name _) as [[t [v|e]]|];
    simpl; try destruct (execute_handler rt e).
Qed.

Ltac decide_keys :=
  repeat match goal with
         | |- context [PyStr.eqb ?a ?b] =>
             let v := eval vm_compute in (PyStr.eqb a b) in
             change (PyStr.eqb a b) with v
         end.

(** X26. Whenever the resolution of owner and repo returns: each of
    get_repo, list_issues, list_prs, list_branches, list_commits and
    create_issue, when the resolved owner or repo is empty, answers with
    the Error Record of its own message and calls no remote operation;
    and so does search_repos, with its message, when the value under
    "query" is absent or tests false. *)
Theorem dispatch_requires_parameters
  (rt : Runtime) (sv : Services) (intent : dict) (name owner repo : str) :
  action_of intent = Some (PStr name) ->
  get_owner_repo (params_of intent) = Ok (owner, repo) ->
  (In name needs_owner_repo -> owner = [] \/ repo = [] ->
   execute rt sv intent
   = ([], Ok (error_record (missing_pair_message name))))
  /\ (name = py "search_repos" ->
      forall query,
        Py.get (params_of intent) (py "query") PNone = Ok query ->
        Py.truthy query = false ->
        execute rt sv intent = ([], Ok (error_record msg_query))).
Proof.
  intros Ha Hres. rewrite (execute_resolved rt sv _ _ _ _ Ha Hres). split.
  - intros Hin Hempty. unfold actions. rewrite (both_empty _ _ Hempty).
    simpl in Hin.
    destruct Hin as [<- | [<- | [<- | [<- | [<- | [<- | []]]]]]];
      unfold missing_pair_message; cbn [lookup]; decide_keys; cbv iota;
      cbn [orb try_with ret]; reflexivity.
  - intros -> query Hq Hfalse. unfold actions. cbn [lookup].
    decide_keys. cbv iota. rewrite Hq. cbn [lift bind]. rewrite Hfalse. reflexivity.
Qed.

Lemma dispatch_requires_parameters_witness :
  execute Ref.runtime (Ref.world PNone [] PNone)
    [(k_action, PStr (py "list_issues"));
     (k_params, PDict [(k_owner, PStr (py "vscode")); (k_repo, PNone)]);
     (k_confidence, PFloat Py.f03)]
  = ([], Ok (error_record (missing_pair_message (py "list_issues")))).
Proof.
  apply (proj1 (dispatch_requires_parameters Ref.runtime
                  (Ref.world PNone [] PNone)
                  [(k_action, PStr (py "list_issues"));
                   (k_params, PDict [(k_owner, PStr (py "vscode")); (k_repo, PNone)]);
                   (k_confidence, PFloat Py.f03)]
                  (py "list_issues") (py "vscode") [] eq_refl eq_refl)).
  - simpl. auto.
  - now right.
Defined.

(** C4 on a search whose parameters hold a number under "owner" and an
    empty query. The intent is what the model's reply decodes to and the
    gate accepts it; the resolution of owner and repo, which runs before
    the dispatcher's try, raises on the test of a slash in the number,
    so the dispatcher returns no Error Record: it raises, and so does
    the pipeline. *)
Theorem search_with_numeric_owner :
  parse_intent Ref.runtime numeric_owner_world (py "buscar")
  = ([EvChat (messages_for (py "buscar"))], Ok numeric_owner_intent)
  /\ gate_rejects numeric_owner_intent = Ok false
  /\ Py.get (params_of numeric_owner_intent) (py "query") PNone = Ok (PStr [])
  /\ get_owner_repo (params_of numeric_owner_intent) = Raise TypeError
  /\ execute Ref.runtime numeric_owner_world numeric_owner_intent
     = ([], Raise TypeError)
  /\ process Ref.runtime numeric_owner_world (py "buscar")
     = ([EvChat (messages_for (py "buscar"))], Raise TypeError).
Proof. repeat split; vm_compute; reflexivity. Qed.


Example dispatch_missing_title :
  execute Ref.runtime (Ref.world PNone [] PNone)
    [(k_action, PStr (py "create_issue"));
     (k_params, PDict [(k_owner, PStr (py "a")); (k_repo, PStr (py "b"))])]
  = ([], Ok (error_record
               (py "Parâmetro faltando: 'title'. Tente ser mais específico, ex: 'issues do microsoft/vscode'"))).
Proof. vm_compute. reflexivity. Qed.

Example dispatch_list_repos :
  execute Ref.runtime (Ref.world PNone [] (PList []))
    [(k_action, PStr (py "list_repos")); (k_params, PDict [])]
  = ([EvGitHub (GitHub.list_repos PNone PNone)], Ok (PList [])).
Proof. vm_compute. reflexivity. Qed.

(** A parameter that is not a string can make the resolution raise, and
    nothing around it catches the exception. *)
Example dispatch_raises_on_number :
  execute Ref.runtime (Ref.world PNone [] PNone)
    [(k_action, PStr (py "search_repos"));
     (k_params, PDict [(k_owner, PInt 5); (py "query", PStr [])])]
  = ([], Raise TypeError).
Proof. vm_compute. reflexivity. Qed.

(** ** The formatter *)

Lemma slice_prefix (s : str) (n : Z) :
  PyStr.slice s 0 n = firstn (Z.to_nat n) s.
Proof. unfold PyStr.slice. now rewrite Z.sub_0_r. Qed.

Lemma generate_run (rt : Runtime) (sv : Services) (prompt : str) :
  exists text,
    generate rt sv prompt = ([EvGenerate prompt], Ok text)
    /\ forall e, generate_post sv prompt = Raise e ->
                 text = PStr (py "Erro: " ++ exn_text rt e).
Proof.
  unfold generate. simpl. eexists. split; [reflexivity|].
  intros e ->. reflexivity.
Qed.

(** The formatter always returns. *)
Lemma format_response_returns
  (rt : Runtime) (sv : Services) (action data : pyval) :
  exists t v, format_response rt sv action data = (t, Ok v).
Proof.
  unfold format_response. destruct (error_of data); [now eexists; eexists|].
  destruct (generate_run rt sv
              (format_prompt rt action
                 (PyStr.slice (json_dumps rt data) 0 3000)))
    as (text & Hg & _).
  now exists [EvGenerate (format_prompt rt action
                            (PyStr.slice (json_dumps rt data) 0 3000))], text.
Qed.

(** X27. On an Error Record the formatter returns the error line with the
    record's message and calls no model. On any other result it makes
    exactly one completion call, whose prompt carries the first 3000
    characters of the serialized result (all of it when shorter), and it
    returns: the text "Erro: " with the exception when the call raises or
    its body is not an object; otherwise what the body holds under
    "response", and the empty string when it holds nothing there. It
    never raises. *)
Theorem formatter_behaviour
  (rt : Runtime) (sv : Services) (action data : pyval) :
  (forall err,
      error_of data = Some err ->
      format_response rt sv action data
      = ([], Ok (PStr (py "❌ **Erro:** " ++ fmt rt err))))
  /\ (error_of data = None ->
      exists text,
        format_response rt sv action data
        = ([EvGenerate (capped_prompt rt action data)], Ok text)
        /\ (forall e,
              generate_post sv (capped_prompt rt action data) = Raise e ->
              text = PStr (py "Erro: " ++ exn_text rt e))
        /\ (forall body,
              generate_post sv (capped_prompt rt action data)
              = Ok (PDict body) ->
              text = match Dict.get (py "response") body with
                     | Some answer => answer
                     | None => PStr []
                     end)
        /\ (forall j,
              generate_post sv (capped_prompt rt action data) = Ok j ->
              (forall body, j <> PDict body) ->
              text = PStr (py "Erro: " ++ exn_text rt AttributeError)))
  /\ exists t v, format_response rt sv action data = (t, Ok v).
Proof.
  split; [|split; [|apply format_response_returns]].
  - unfold format_response. now intros err ->.
  - unfold format_response, capped_prompt. intros ->. rewrite slice_prefix.
    change (Z.to_nat 3000) with 3000.
    unfold generate. cbn [emit bind ret app].
    eexists. split; [reflexivity|]. repeat split.
    + now intros e ->.
    + now intros body ->.
    + intros j -> Hj. destruct j; try reflexivity. now destruct (Hj d).
Qed.

Lemma formatter_behaviour_witness :
  format_response Ref.runtime (Ref.offline (py "Connection refused") PNone)
    (PStr (py "get_repo")) (error_record (py "HTTP 404: Not Found"))
  = ([], Ok (PStr (py "❌ **Erro:** HTTP 404: Not Found")))
  /\ exists text,
       format_response Ref.runtime (Ref.offline (py "Connection refused") PNone)
         (PStr (py "get_user")) (PDict [(py "login", PStr (py "octocat"))])
       = ([EvGenerate
             (format_prompt Ref.runtime (PStr (py "get_user"))
                (pyq "{'login': 'octocat'}"))],
          Ok text)
       /\ text = PStr (py "Erro: Connection refused").
Proof.
  split.
  - exact (proj1 (formatter_behaviour Ref.runtime
                    (Ref.offline (py "Connection refused") PNone)
                    (PStr (py "get_repo"))
                    (error_record (py "HTTP 404: Not Found")))
                 (PStr (py "HTTP 404: Not Found")) eq_refl).
  - destruct (proj1 (proj2 (formatter_behaviour Ref.runtime
                    (Ref.offline (py "Connection refused") PNone)
                    (PStr (py "get_user"))
                    (PDict [(py "login", PStr (py "octocat"))]))) eq_refl)
      as (text & Hrun & Herr & _).
    exists text. split.
    + rewrite Hrun. vm_compute. reflexivity.
    + apply (Herr (RequestError (py "Connection refused"))). reflexivity.
Defined.

(** C9 on a model server that answers the completion request with an
    error status and a JSON body. Nothing checks the status (the chat
    call does), the body has no "response", and the formatter returns
    the empty string: the failure does not surface as an error text. In
    the pipeline the chat call has failed the same way, the fallback has
    classified the request, and the envelope carries an empty
    [formatted]. *)
Theorem formatter_silent_on_error_status :
  format_response Ref.runtime model_missing (PStr (py "list_issues")) (PList [])
  = ([EvGenerate (format_prompt Ref.runtime (PStr (py "list_issues")) (py "[]"))],
     Ok (PStr []))
  /\ process Ref.runtime model_missing (py "issues do microsoft/vscode")
     = ([EvChat (messages_for (py "issues do microsoft/vscode"));
         EvGitHub (GitHub.list_issues (py "microsoft") (py "vscode")
                     (PStr (py "open")));
         EvGenerate (format_prompt Ref.runtime (PStr (py "list_issues"))
                       (py "[]"))],
        Ok (PDict [(k_success, PBool true);
                   (k_intent,
                    PDict (_fallback_parse Ref.runtime
                             (py "issues do microsoft/vscode")));
                   (k_result, PList []);
                   (k_formatted, PStr [])])).
Proof. split; vm_compute; reflexivity. Qed.

(** ** The pipeline *)

(** A rejected intent ends the run at once: the envelope is the rejection
    and the trace is that of the classification. *)
Lemma process_rejected
  (rt : Runtime) (sv : Services) (user_input : str)
  (t : list event) (intent : dict) :
  parse_intent rt sv user_input = (t, Ok intent) ->
  gate_rejects intent = Ok true ->
  process rt sv user_input = (t, Ok rejection).
Proof.
  intros Hp Hg. unfold process. rewrite Hp. cbn [bind]. rewrite Hg.
  cbn [lift bind ret app]. now rewrite app_nil_r.
Qed.

(** An accepted intent that has an action and whose dispatch returns is
    formatted and answered with [success] true, whatever the dispatch
    returned. *)
Lemma process_accepted
  (rt : Runtime) (sv : Services) (user_input : str)
  (t t2 : list event) (intent : dict) (action result : pyval) :
  parse_intent rt sv user_input = (t, Ok intent) ->
  gate_rejects intent = Ok false ->
  execute rt sv intent = (t2, Ok result) ->
  action_of intent = Some action ->
  exists t3 formatted,
    format_response rt sv action result = (t3, Ok formatted)
    /\ process rt sv user_input
       = (t ++ t2 ++ t3,
          Ok (PDict [(k_success, PBool true); (k_intent, PDict intent);
                     (k_result, result); (k_formatted, formatted)])).
Proof.
  intros Hp Hg He Ha.
  destruct (format_response_returns rt sv action result) as (t3 & f & Hf).
  exists t3, f. split; [assumption|].
  unfold process. rewrite Hp. cbn [bind]. rewrite Hg. cbn [lift bind app].
  rewrite He. cbn [bind Py.getitem]. unfold action_of in Ha. rewrite Ha.
  cbn [bind app]. rewrite Hf. cbn [bind ret app]. now rewrite app_nil_r.
Qed.

(** Whenever the pipeline returns, its envelope is the rejection exactly
    when the gate rejected, and then nothing but the chat call was made;
    otherwise it carries [success] true. *)
Lemma process_returns
  (rt : Runtime) (sv : Services) (user_input : str)
  (t : list event) (envelope : pyval) :
  process rt sv user_input = (t, Ok envelope) ->
  exists response,
    (gate_rejects (parse_response rt response user_input) = Ok true
     /\ envelope = rejection /\ t = [EvChat (messages_for user_input)])
    \/ (gate_rejects (parse_response rt response user_input) = Ok false
        /\ exists result formatted,
             envelope
             = PDict [(k_success, PBool true);
                      (k_intent, PDict (parse_response rt response user_input));
                      (k_result, result); (k_formatted, formatted)]).
Proof.
  destruct (parse_intent_run rt sv user_input) as (response & Hp & _).
  intros H. exists response. unfold process in H. rewrite Hp in H.
  cbn [bind] in H.
  destruct (gate_rejects (parse_response rt response user_input)) as [[|]|e];
    cbn [lift bind ret app] in H.
  - left. injection H as <- <-. now repeat split.
  - right. split; [reflexivity|].
    destruct (execute rt sv _) as [t2 [result|e]]; cbn [bind] in H;
      [|discriminate].
    destruct (Py.getitem _ k_action) as [a|e]; cbn [lift bind app] in H;
      [|discriminate].
    destruct (format_response rt sv a result) as [t3 [formatted|e]];
      cbn [bind ret app] in H; [|discriminate].
    injection H as _ <-. now exists result, formatted.
  - discriminate.
Qed.

(** C1 on a model response without an "action" key. The gate passes (the
    action is not [unknown], the confidence is 1.0), the dispatcher
    answers with an Error Record, and [intent["action"]] then raises: the
    run ends in a [KeyError] and no envelope is returned. *)
Theorem process_missing_action :
  parse_intent Ref.runtime no_action_world (py "oi")
  = ([EvChat (messages_for (py "oi"))],
     Ok [(k_params, PDict []); (k_confidence, PFloat 1%float)])
  /\ gate_rejects [(k_params, PDict []); (k_confidence, PFloat 1%float)]
     = Ok false
  /\ execute Ref.runtime no_action_world
       [(k_params, PDict []); (k_confidence, PFloat 1%float)]
     = ([], Ok (error_record msg_unrecognized))
  /\ process Ref.runtime no_action_world (py "oi")
     = ([EvChat (messages_for (py "oi"))], Raise (KeyError (PStr k_action))).
Proof. repeat split; vm_compute; reflexivity. Qed.

(** The gate itself raises on a confidence that is not a number. *)
Example process_text_confidence :
  outcome (process Ref.runtime
             (Ref.world (PStr (pyq "{'action': 'get_user', 'params': {}, 'confidence': 'high'}"))
                (py "ok") (PList []))
             (py "quem sou eu"))
  = Raise TypeError.
Proof. vm_compute. reflexivity. Qed.

Example process_list_repos :
  process Ref.runtime
    (Ref.world (PStr (pyq "{'action':'list_repos','params':{},'confidence':1.0}"))
       (py "Nenhum repositório.") (PList []))
    (py "Liste meus repositórios")
  = ([EvChat (messages_for (py "Liste meus repositórios"));
      EvGitHub (GitHub.list_repos PNone PNone);
      EvGenerate (format_prompt Ref.runtime (PStr (py "list_repos")) (py "[]"))],
     Ok (PDict [(k_success, PBool true);
                (k_intent, PDict [(k_action, PStr (py "list_repos"));
                                  (k_params, PDict []);
                                  (k_confidence, PFloat 1%float)]);
                (k_result, PList []);
                (k_formatted, PStr (py "Nenhum repositório."))])).
Proof. vm_compute. reflexivity. Qed.

Example process_remote_error :
  process Ref.runtime
    (Ref.world (PStr (pyq "{'action':'get_repo','params':{'owner':'foo','repo':'bar'},'confidence':1.0}"))
       (py "unused") (error_record (py "HTTP 404: Not Found")))
    (py "repositório foo/bar")
  = ([EvChat (messages_for (py "repositório foo/bar"));
      EvGitHub (GitHub.get_repo (py "foo") (py "bar"))],
     Ok (PDict [(k_success, PBool true);
                (k_intent, PDict [(k_action, PStr (py "get_repo"));
                                  (k_params, PDict [(k_owner, PStr (py "foo"));
                                                    (k_repo, PStr (py "bar"))]);
                                  (k_confidence, PFloat 1%float)]);
                (k_result, error_record (py "HTTP 404: Not Found"));
                (k_formatted, PStr (py "❌ **Erro:** HTTP 404: Not Found"))])).
Proof. vm_compute. reflexivity. Qed.

Example process_empty_input :
  process Ref.runtime (Ref.offline (py "Read timed out.") PNone) []
  = ([EvChat (messages_for [])], Ok rejection).
Proof. vm_compute. reflexivity. Qed.

(** ** More on the pattern and the scan *)

Lemma app_same_length {A} (a a' b b' : list A) :
  a ++ b = a' ++ b' -> length a = length a' -> a = a' /\ b = b'.
Proof.
  revert a'; induction a as [|x a IH]; intros [|y a'] H Hl; try discriminate.
  - now split.
  - simpl in H. injection H as -> H. simpl in Hl.
    destruct (IH a' H) as [-> ->]; [lia | now split].
Qed.

(** The first match of a text is unique. *)
Lemma first_unique (s o r o' r' : str) :
  Match.first s o r -> Match.first s o' r' -> o = o' /\ r = r'.
Proof.
  intros (pre & post & Hat & Hmin) (pre' & post' & Hat' & Hmin').
  destruct (Hmin _ _ _ _ Hat') as [Hle Hsame].
  destruct (Hmin' _ _ _ _ Hat) as [Hle' Hsame'].
  assert (Hl : length pre' = length pre) by lia.
  destruct (Hsame Hl) as [-> Hr]. destruct (Hsame' (eq_sym Hl)) as [_ Hr'].
  split; [reflexivity|].
  destruct Hat as (Hs & _ & _), Hat' as (Hs' & _ & _). rewrite Hs in Hs'.
  apply app_same_length in Hs' as [_ Hs']; [|lia].
  apply app_same_length in Hs' as [_ Hs']; [|reflexivity].
  injection Hs' as Hs'. apply app_same_length in Hs' as [Hs' _]; [assumption | lia].
Qed.

(** X1. [re.search] with the owner/repo pattern returns the groups
    [(o, r)] exactly when [o/r] is the first match of the text: the
    leftmost occurrence of token/token, each token taken as long as
    possible. In particular a text has a match as soon as token/token
    occurs in it anywhere. *)
Theorem search_iff_first (s o r : str) :
  Re.search s = Some (o, r) <-> Match.first s o r.
Proof.
  split; [apply search_first|].
  intros Hf. destruct (Re.search s) as [[o' r']|] eqn:E.
  - apply search_first in E. destruct (first_unique _ _ _ _ _ Hf E) as [-> ->].
    reflexivity.
  - destruct Hf as (pre & post & Hat & _).
    now apply search_complete in Hat.
Qed.

Lemma slice_middle (pre span post : str) :
  PyStr.slice (pre ++ span ++ post) (Z.of_nat (length pre))
    (Z.of_nat (length pre) + Z.of_nat (length span))
  = span.
Proof.
  unfold PyStr.slice.
  replace (Z.to_nat (Z.of_nat (length pre))) with (length pre) by lia.
  replace (Z.to_nat _) with (length span) by lia.
  rewrite skipn_app, skipn_all, Nat.sub_diag. simpl.
  rewrite firstn_app, firstn_all, Nat.sub_diag. simpl. apply app_nil_r.
Qed.

(** Inside a span: from nesting [S n] the scan stops where the span
    closes. *)
Lemma scan_inside (s : str) (n : nat) (i start a b : Z) :
  (0 <= start)%Z ->
  scan_braces s i (Z.of_nat (S n)) start = Some (a, b) ->
  a = start
  /\ exists r post,
       s = r ++ post /\ Span.closes (S n) r = true
       /\ b = (i + Z.of_nat (length r) - 1)%Z.
Proof.
  intros Hs. revert n i; induction s as [|c s IH]; intros n i H; [discriminate|].
  cbn [scan_braces] in H. destruct (c =? lbrace)%N eqn:El.
  - replace (Z.of_nat (S n) =? 0)%Z with false in H
      by (symmetry; apply Z.eqb_neq; lia).
    replace (Z.of_nat (S n) + 1)%Z with (Z.of_nat (S (S n))) in H by lia.
    destruct (IH _ _ H) as (-> & r & post & -> & Hc & ->).
    split; [reflexivity|]. exists (c :: r), post.
    repeat split; [cbn [Span.closes]; now rewrite El | simpl length; lia].
  - destruct (c =? rbrace)%N eqn:Er.
    + destruct n as [|n].
      * replace (0 <=? start)%Z with true in H by (symmetry; apply Z.leb_le; lia).
        simpl in H. injection H as <- <-.
        split; [reflexivity|]. exists [c], s.
        repeat split; [cbn [Span.closes]; now rewrite El, Er | simpl; lia].
      * replace (Z.of_nat (S (S n)) - 1 =? 0)%Z with false in H
          by (symmetry; apply Z.eqb_neq; lia).
        replace (Z.of_nat (S (S n)) - 1)%Z with (Z.of_nat (S n)) in H by lia.
        cbn [andb] in H.
        destruct (IH _ _ H) as (-> & r & post & -> & Hc & ->).
        split; [reflexivity|]. exists (c :: r), post.
        repeat split; [cbn [Span.closes]; now rewrite El, Er | simpl length; lia].
    + destruct (IH _ _ H) as (-> & r & post & -> & Hc & ->).
      split; [reflexivity|]. exists (c :: r), post.
      repeat split; [cbn [Span.closes]; now rewrite El, Er | simpl length; lia].
Qed.

(** Before any span: with no start recorded and a nesting that is not
    positive, a result of the scan is a balanced span of the text. *)
Lemma scan_outside (s : str) (i depth a b : Z) :
  (0 <= i)%Z -> (depth <= 0)%Z ->
  scan_braces s i depth (-1) = Some (a, b) ->
  exists pre span post,
    s = pre ++ span ++ post /\ Span.balanced span = true
    /\ a = (i + Z.of_nat (length pre))%Z
    /\ (b + 1 = a + Z.of_nat (length span))%Z.
Proof.
  revert i depth; induction s as [|c s IH]; intros i depth Hi Hd H;
    [discriminate|].
  assert (Hstep : forall d',
             (d' <= 0)%Z -> scan_braces s (i + 1) d' (-1) = Some (a, b) ->
             exists pre span post,
               c :: s = pre ++ span ++ post /\ Span.balanced span = true
               /\ a = (i + Z.of_nat (length pre))%Z
               /\ (b + 1 = a + Z.of_nat (length span))%Z).
  { intros d' Hd' H'. apply IH in H'; [|lia|lia].
    destruct H' as (pre & span & post & -> & Hb & -> & Hl).
    exists (c :: pre), span, post.
    repeat split; try assumption; simpl length; lia. }
  cbn [scan_braces] in H. destruct (c =? lbrace)%N eqn:El.
  - destruct (depth =? 0)%Z eqn:E0.
    + apply Z.eqb_eq in E0. subst depth. change (0 + 1)%Z with (Z.of_nat 1) in H.
      destruct (scan_inside _ _ _ _ _ _ Hi H) as (-> & r & post & -> & Hc & ->).
      exists [], (c :: r), post.
      repeat split; [simpl; now rewrite El | simpl; lia | simpl length; lia].
    + apply Z.eqb_neq in E0. apply (Hstep (depth + 1)%Z); [lia | assumption].
  - destruct (c =? rbrace)%N eqn:Er.
    + replace ((depth - 1 =? 0)%Z) with false in H
        by (symmetry; apply Z.eqb_neq; lia).
      cbn [andb] in H. apply (Hstep (depth - 1)%Z); [lia | assumption].
    + now apply (Hstep depth).
Qed.

(** X2. The brace scan never cuts a text badly: what [parse_intent] hands
    to [json.loads] is either the prepared text as a whole or a balanced
    span of it, from an opening brace to the brace that closes it. *)
Theorem extract_span_balanced (json_str : str) :
  extract_span json_str = json_str
  \/ (Span.balanced (extract_span json_str) = true
      /\ exists pre post, json_str = pre ++ extract_span json_str ++ post).
Proof.
  unfold extract_span.
  destruct (scan_braces json_str 0 0 (-1)) as [[a b]|] eqn:E; [right | now left].
  apply scan_outside in E; [|lia|lia].
  destruct E as (pre & span & post & -> & Hb & -> & Hl).
  replace (b + 1)%Z with (Z.of_nat (length pre) + Z.of_nat (length span))%Z by lia.
  change (0 + Z.of_nat (length pre))%Z with (Z.of_nat (length pre)).
  rewrite slice_middle. split; [assumption | now exists pre, post].
Qed.

(** X3. The extraction step of [parse_intent] succeeds on every response
    that is a string (the index into the fence split is always in range)
    and raises on every response that is not. *)
Theorem json_candidate_ok_iff (response : pyval) :
  (exists s, json_candidate response = Ok s) <-> (exists t, response = PStr t).
Proof.
  split.
  - intros [s H]. destruct response; try discriminate. now eexists.
  - intros [t ->]. apply json_candidate_string.
Qed.

(** ** More on the normalizer *)

Lemma tok_not_space (c : char) : Re.is_tok c = true -> PyStr.is_space c = false.
Proof.
  unfold Re.is_tok, PyStr.is_space. intros H.
  repeat rewrite ?orb_true_iff, ?andb_true_iff, ?N.leb_le, ?N.eqb_eq in H.
  repeat (apply orb_false_iff; split);
    rewrite ?andb_false_iff, ?N.leb_gt, ?N.eqb_neq; lia.
Qed.

Lemma lstrip_tok (g : str) : forallb Re.is_tok g = true -> PyStr.lstrip g = g.
Proof.
  destruct g as [|c g]; [reflexivity|]. simpl. intros H.
  apply andb_prop in H as [H _]. now rewrite (tok_not_space _ H).
Qed.

Lemma forallb_rev {A} (f : A -> bool) (l : list A) :
  forallb f l = true -> forallb f (rev l) = true.
Proof.
  rewrite !forallb_forall. intros H x Hx. apply H. now apply in_rev.
Qed.

(** Stripping leaves a token as it is. *)
Lemma strip_tok (g : str) : forallb Re.is_tok g = true -> PyStr.strip g = g.
Proof.
  intros H. unfold PyStr.strip, PyStr.rstrip. rewrite (lstrip_tok _ H).
  rewrite lstrip_tok by now apply forallb_rev. apply rev_involutive.
Qed.

(** A token holds no slash. *)
Lemma tok_no_slash (g : str) :
  forallb Re.is_tok g = true -> PyStr.contains [Re.slash] g = false.
Proof.
  induction g as [|c g IH]; [reflexivity|]. simpl forallb. intros H.
  apply andb_prop in H as [Hc Hg]. rewrite contains_eq. rewrite (IH Hg).
  rewrite orb_false_r. cbn [PyStr.starts_with].
  destruct (N.eqb_spec Re.slash c) as [<-|]; [discriminate | reflexivity].
Qed.

Lemma search_tokens (s o r : str) :
  Re.search s = Some (o, r) ->
  forallb Re.is_tok o = true /\ forallb Re.is_tok r = true.
Proof.
  intros H. apply search_first in H.
  destruct H as (pre & post & (_ & [_ Ho] & [_ Hr]) & _). now split.
Qed.

Lemma str_valued_set (d : dict) (k s : str) :
  str_valued d = true -> str_valued (Dict.set k (PStr s) d) = true.
Proof.
  induction d as [|[k' v] d IH]; simpl; [reflexivity|]. intros H.
  apply andb_prop in H as [Hv Hd]. destruct (PyStr.eqb k k'); simpl.
  - assumption.
  - now rewrite Hv, IH.
Qed.

(** The normalizer on a mapping of strings. *)
Lemma enrich_strings (user_input : str) (i pd : dict) :
  Dict.get k_params i = Some (PDict pd) ->
  str_valued pd = true ->
  _enrich_intent user_input (PDict i)
  = if owner_repo_ok pd then Ok i
    else match Re.search user_input with
         | Some (g1, g2) =>
             Ok (Dict.set k_params
                   (PDict (Dict.set k_repo (PStr g2)
                             (Dict.set k_owner (PStr g1) pd))) i)
         | None => Ok i
         end.
Proof.
  intros Hp Hd. unfold _enrich_intent.
  rewrite Hp, (has_owner_repo_strings _ Hd).
  cbn [rbind]. destruct (owner_repo_ok pd); [reflexivity|].
  destruct (Re.search user_input) as [[g1 g2]|]; [|reflexivity].
  cbn [Py.getitem rbind]. now rewrite Hp.
Qed.

(** What the normalizer writes is a pair it accepts. *)
Lemma written_pair_ok (user_input o r : str) (pd : dict) :
  Re.search user_input = Some (o, r) ->
  owner_repo_ok (Dict.set k_repo (PStr r) (Dict.set k_owner (PStr o) pd)) = true.
Proof.
  intros H. unfold owner_repo_ok.
  rewrite get_set_other by discriminate. rewrite !get_set_same.
  destruct (search_nonempty _ _ _ H) as [-> ->].
  destruct (search_tokens _ _ _ H) as [Ho _].
  now rewrite (tok_no_slash _ Ho).
Qed.

(** X4. On an intent whose parameters are a mapping of strings the
    normalizer succeeds, and running it again on its own result changes
    nothing. *)
Theorem enrich_idempotent (user_input : str) (i pd : dict) :
  Dict.get k_params i = Some (PDict pd) ->
  str_valued pd = true ->
  exists i',
    _enrich_intent user_input (PDict i) = Ok i'
    /\ _enrich_intent user_input (PDict i') = Ok i'.
Proof.
  intros Hp Hd. rewrite (enrich_strings _ _ _ Hp Hd).
  destruct (owner_repo_ok pd) eqn:Hok.
  - exists i. split; [reflexivity|].
    now rewrite (enrich_strings _ _ _ Hp Hd), Hok.
  - destruct (Re.search user_input) as [[o r]|] eqn:Es.
    + eexists. split; [reflexivity|].
      erewrite enrich_strings;
        [| apply get_set_same | now repeat apply str_valued_set].
      now rewrite (written_pair_ok _ _ _ _ Es).
    + exists i. split; [reflexivity|].
      now rewrite (enrich_strings _ _ _ Hp Hd), Hok, Es.
Qed.

Lemma enrich_idempotent_witness :
  exists i',
    _enrich_intent (py "prs de rust-lang/rust")
      (PDict [(k_action, PStr (py "list_prs"));
              (k_params, PDict [(py "state", PStr (py "closed"))])])
    = Ok i'
    /\ _enrich_intent (py "prs de rust-lang/rust") (PDict i') = Ok i'.
Proof.
  apply (enrich_idempotent (py "prs de rust-lang/rust")
           [(k_action, PStr (py "list_prs"));
            (k_params, PDict [(py "state", PStr (py "closed"))])]
           [(py "state", PStr (py "closed"))]); reflexivity.
Defined.

(** X5. After the normalizer has run on a mapping of strings, owner and
    repo are both non-empty and the owner holds no slash, unless the raw
    text has no owner/repo match, in which case the intent is returned as
    it came. *)
Theorem enrich_establishes_pair (user_input : str) (i pd : dict) :
  Dict.get k_params i = Some (PDict pd) ->
  str_valued pd = true ->
  exists i' pd',
    _enrich_intent user_input (PDict i) = Ok i'
    /\ Dict.get k_params i' = Some (PDict pd')
    /\ str_valued pd' = true
    /\ (owner_repo_ok pd' = true \/ (Re.search user_input = None /\ i' = i)).
Proof.
  intros Hp Hd. rewrite (enrich_strings _ _ _ Hp Hd).
  destruct (owner_repo_ok pd) eqn:Hok.
  - exists i, pd. repeat split; auto.
  - destruct (Re.search user_input) as [[o r]|] eqn:Es.
    + eexists; eexists. split; [reflexivity|]. split; [apply get_set_same|].
      split; [now repeat apply str_valued_set|].
      left. now apply written_pair_ok with user_input.
    + exists i, pd. repeat split; auto.
Qed.

Lemma enrich_establishes_pair_witness :
  exists i' pd',
    _enrich_intent (py "commits de torvalds/linux")
      (PDict [(k_action, PStr (py "list_commits"));
              (k_params, PDict [(k_owner, PStr (py "torvalds/linux"))])])
    = Ok i'
    /\ Dict.get k_params i' = Some (PDict pd')
    /\ str_valued pd' = true
    /\ (owner_repo_ok pd' = true
        \/ (Re.search (py "commits de torvalds/linux") = None
            /\ i' = [(k_action, PStr (py "list_commits"));
                     (k_params, PDict [(k_owner, PStr (py "torvalds/linux"))])])).
Proof.
  apply (enrich_establishes_pair (py "commits de torvalds/linux")
           [(k_action, PStr (py "list_commits"));
            (k_params, PDict [(k_owner, PStr (py "torvalds/linux"))])]
           [(k_owner, PStr (py "torvalds/linux"))]); reflexivity.
Defined.

(** Without a match in the raw text a slash stays in the owner. *)
Example enrich_keeps_slash :
  _enrich_intent (py "mostre o projeto")
    (PDict [(k_params, PDict [(k_owner, PStr (py "a/b"))])])
  = Ok [(k_params, PDict [(k_owner, PStr (py "a/b"))])].
Proof. reflexivity. Qed.

Lemma segments_none (d : dict) (key v : str) :
  Dict.get key d = Some (PStr v) ->
  PyStr.contains [Re.slash] v = false ->
  segments_under d key = None.
Proof. unfold segments_under. now intros -> ->. Qed.

Lemma resolved_tokens (d : dict) (o r : str) :
  Dict.get k_owner d = Some (PStr o) ->
  Dict.get k_repo d = Some (PStr r) ->
  forallb Re.is_tok o = true -> forallb Re.is_tok r = true ->
  segments_under d k_repository = None ->
  resolved d = (o, r).
Proof.
  intros Ho Hr Hto Htr Hy. unfold resolved.
  rewrite (segments_none _ _ _ Ho (tok_no_slash _ Hto)).
  rewrite (segments_none _ _ _ Hr (tok_no_slash _ Htr)).
  rewrite Hy. unfold stripped_under. rewrite Ho, Hr.
  now rewrite (strip_tok _ Hto), (strip_tok _ Htr).
Qed.

(** X6. The dispatcher resolves an intent of the fallback classifier to
    exactly the pair the classifier extracted from the raw text (two empty
    strings when it extracted none). *)
Theorem fallback_pair_reaches_dispatch (rt : Runtime) (user_input : str) :
  get_owner_repo (params_of (_fallback_parse rt user_input))
  = Ok (extracted user_input).
Proof.
  unfold _fallback_parse, extracted, params_of.
  destruct (Re.search user_input) as [[o r]|] eqn:Es; [|reflexivity].
  change (Dict.get k_params _)
    with (Some (PDict [(k_owner, PStr o); (k_repo, PStr r)])).
  cbv iota. rewrite get_owner_repo_resolved by reflexivity.
  destruct (search_tokens _ _ _ Es) as [Ho Hr].
  f_equal. now apply resolved_tokens.
Qed.

(** X7. When the normalizer writes the pair of the raw text into a mapping
    of strings that has no slash under [repository], the dispatcher
    resolves the enriched intent to exactly that pair. *)
Theorem enriched_pair_reaches_dispatch
  (user_input : str) (i pd : dict) (o r : str) :
  Dict.get k_params i = Some (PDict pd) ->
  str_valued pd = true ->
  owner_repo_ok pd = false ->
  Re.search user_input = Some (o, r) ->
  segments_under pd k_repository = None ->
  exists i',
    _enrich_intent user_input (PDict i) = Ok i'
    /\ get_owner_repo (params_of i') = Ok (o, r).
Proof.
  intros Hp Hd Hok Hs Hy. rewrite (enrich_strings _ _ _ Hp Hd), Hok, Hs.
  eexists. split; [reflexivity|]. unfold params_of. rewrite get_set_same.
  rewrite get_owner_repo_resolved by now repeat apply str_valued_set.
  destruct (search_tokens _ _ _ Hs) as [Ho Hr]. f_equal.
  apply resolved_tokens; try assumption.
  - rewrite get_set_other by discriminate. apply get_set_same.
  - apply get_set_same.
  - unfold segments_under in *. now rewrite !get_set_other by discriminate.
Qed.

Lemma enriched_pair_reaches_dispatch_witness :
  exists i',
    _enrich_intent (py "branches do torvalds/linux")
      (PDict [(k_action, PStr (py "list_branches")); (k_params, PDict [])])
    = Ok i'
    /\ get_owner_repo (params_of i') = Ok (py "torvalds", py "linux").
Proof.
  apply (enriched_pair_reaches_dispatch (py "branches do torvalds/linux")
           [(k_action, PStr (py "list_branches")); (k_params, PDict [])] []);
    reflexivity.
Defined.

(** A slash under [repository] wins over the pair the normalizer wrote. *)
Example repository_overrides_enriched_pair :
  rbind (_enrich_intent (py "issues do microsoft/vscode")
           (PDict [(k_action, PStr (py "list_issues"));
                   (k_params, PDict [(k_repository, PStr (py "x/y"))])]))
        (fun i' => get_owner_repo (params_of i'))
  = Ok (py "x", py "y").
Proof. reflexivity. Qed.

(** ** More on the dispatcher and the pipeline *)

Lemma bind_lift_ok {A B} (a : A) (k : A -> M B) : bind (lift (Ok a)) k = k a.
Proof. unfold bind, lift. now destruct (k a). Qed.

Lemma bind_lift_raise {A B} (e : exn) (k : A -> M B) :
  bind (lift (Raise e)) k = ([], Raise e).
Proof. reflexivity. Qed.

Lemma get_owner_repo_dict (p : pyval) (segs : str * str) :
  get_owner_repo p = Ok segs -> exists d, p = PDict d.
Proof. destruct p; try discriminate. now eexists. Qed.

(** The handlers of [execute] turn every exception into an Error Record
    and make no call. *)
Lemma try_with_handler (rt : Runtime) (m : M pyval) :
  exists v, try_with m (execute_handler rt) = (trace m, Ok v).
Proof.
  destruct m as [t [a|e]]; simpl.
  - now eexists.
  - destruct e; simpl; rewrite app_nil_r; now eexists.
Qed.

Ltac break_match :=
  match goal with
  | |- context [match ?x with _ => _ end] => destruct x eqn:?
  | H : context [match ?x with _ => _ end] |- _ => destruct x eqn:?
  | H : (_, _) = (_, _) |- _ => injection H as <- <-
  end.

(** Every lambda of the table makes at most one call and, when it makes
    one, returns its answer. *)
Lemma actions_single_call
  (rt : Runtime) (sv : Services) (d : dict) (o r name : str) (body : M pyval) :
  lookup name (actions rt sv (PDict d) o r) = Some body ->
  single_call sv body.
Proof.
  unfold actions. cbn [lookup]. unfold single_call.
  repeat match goal with
         | |- context [PyStr.eqb name ?k] => destruct (PyStr.eqb name k)
         end;
    intros [= <-];
    cbn [Py.get Py.getitem lift bind gh emit ret trace fst app];
    repeat (break_match; unfold ret in *;
            cbn [Py.get Py.getitem lift bind gh emit trace fst app] in *);
    try discriminate;
    first [ now left | right; eexists; reflexivity ].
Qed.

Lemma execute_cases (rt : Runtime) (sv : Services) (intent : dict) :
  single_call sv (execute rt sv intent).
Proof.
  unfold execute.
  destruct (get_owner_repo _) as [[o r]|e] eqn:Hres; [|now left].
  destruct (get_owner_repo_dict _ _ Hres) as [d Hd]. rewrite Hd.
  rewrite bind_lift_ok.
  destruct (Py.hashable _); [|now left].
  destruct (match Dict.get k_action intent with Some a => a | None => PStr unknown end);
    try (now left).
  destruct (lookup s (actions rt sv (PDict d) o r)) as [body|] eqn:Hl; [|now left].
  destruct (try_with_handler rt body) as [v Hv].
  destruct (actions_single_call _ _ _ _ _ _ _ Hl) as [Ht | [c ->]].
  - left. now rewrite Hv.
  - right. now exists c.
Qed.

(** X8. A dispatch makes at most one call to the hosting service; when it
    makes one it returns the answer of that call unchanged, and when it
    raises it has made none. *)
Theorem execute_single_call (rt : Runtime) (sv : Services) (intent : dict) :
  single_call sv (execute rt sv intent)
  /\ forall e, outcome (execute rt sv intent) = Raise e ->
               trace (execute rt sv intent) = [].
Proof.
  split; [apply execute_cases|].
  intros e He. destruct (execute_cases rt sv intent) as [Ht | [c Hc]];
    [assumption|]. rewrite Hc in He. discriminate.
Qed.

Lemma execute_ok
  (rt : Runtime) (sv : Services) (intent : dict) (segs : str * str) :
  get_owner_repo (params_of intent) = Ok segs ->
  Py.hashable (dispatched_action intent) = true ->
  exists t v, execute rt sv intent = (t, Ok v).
Proof.
  unfold execute, params_of, dispatched_action. intros Hres Hh.
  rewrite Hres. destruct segs as [o r]. rewrite bind_lift_ok, Hh.
  destruct (match Dict.get k_action intent with Some a => a | None => PStr unknown end);
    try (now eexists; eexists).
  destruct (lookup s _) as [body|]; [|now eexists; eexists].
  destruct (try_with_handler rt body) as [v ->]. now eexists; eexists.
Qed.

(** X9. A dispatch raises in two cases only: when the resolution of owner
    and repo raises (a parameter that is not a string), and when the
    action is a list or an object. In every other case it returns a
    value: each failure inside the table is turned into an Error Record. *)
Theorem execute_outcome (rt : Runtime) (sv : Services) (intent : dict) :
  (forall e, get_owner_repo (params_of intent) = Raise e ->
             execute rt sv intent = ([], Raise e))
  /\ (forall segs, get_owner_repo (params_of intent) = Ok segs ->
                   Py.hashable (dispatched_action intent) = false ->
                   execute rt sv intent = ([], Raise TypeError))
  /\ (forall segs, get_owner_repo (params_of intent) = Ok segs ->
                   Py.hashable (dispatched_action intent) = true ->
                   exists t v, execute rt sv intent = (t, Ok v)).
Proof.
  split; [|split].
  - unfold execute, params_of. now intros e ->.
  - unfold execute, params_of, dispatched_action. intros [o r] -> Hh.
    now rewrite bind_lift_ok, Hh.
  - apply execute_ok.
Qed.

Lemma execute_outcome_witness :
  exists t v,
    execute Ref.runtime (Ref.world PNone [] (PDict []))
      [(k_action, PStr (py "get_user")); (k_params, PDict [])]
    = (t, Ok v).
Proof.
  apply (proj2 (proj2 (execute_outcome Ref.runtime (Ref.world PNone [] (PDict []))
                         [(k_action, PStr (py "get_user")); (k_params, PDict [])]))
           ([], [])); reflexivity.
Defined.

Lemma lookup_outside (rt : Runtime) (sv : Services) (p : pyval) (o r name : str) :
  ~ In name action_names -> lookup name (actions rt sv p o r) = None.
Proof.
  intros Hn. unfold actions. cbn [lookup].
  repeat match goal with
         | |- context [PyStr.eqb name ?k] =>
             let E := fresh "E" in
             destruct (PyStr.eqb name k) eqn:E;
               [apply eqb_eq in E; exfalso; apply Hn; rewrite E;
                unfold action_names; cbn [In];
                repeat first [left; reflexivity | right] |]
         end.
  reflexivity.
Qed.

(** X10. An action outside the table (an unlisted name such as "unknown",
    a missing action, a number, a boolean or null) is answered with the
    Error Record "Ação não reconhecida", and no call is made. *)
Theorem execute_unrecognized
  (rt : Runtime) (sv : Services) (intent : dict) (segs : str * str) :
  get_owner_repo (params_of intent) = Ok segs ->
  Py.hashable (dispatched_action intent) = true ->
  (forall name, dispatched_action intent = PStr name -> ~ In name action_names) ->
  execute rt sv intent = ([], Ok (error_record msg_unrecognized)).
Proof.
  unfold execute, params_of, dispatched_action. intros Hres Hh Hout.
  rewrite Hres. destruct segs as [o r]. rewrite bind_lift_ok, Hh.
  destruct (match Dict.get k_action intent with Some a => a | None => PStr unknown end);
    try reflexivity.
  now rewrite (lookup_outside _ _ _ _ _ _ (Hout s eq_refl)).
Qed.

Lemma execute_unrecognized_witness :
  execute Ref.runtime (Ref.world PNone [] PNone)
    [(k_action, PStr (py "delete_repo"));
     (k_params, PDict [(k_owner, PStr (py "a")); (k_repo, PStr (py "b"))])]
  = ([], Ok (error_record msg_unrecognized)).
Proof.
  apply (execute_unrecognized Ref.runtime (Ref.world PNone [] PNone)
           [(k_action, PStr (py "delete_repo"));
            (k_params, PDict [(k_owner, PStr (py "a")); (k_repo, PStr (py "b"))])]
           (py "a", py "b")); try reflexivity.
  intros name [= <-]. unfold action_names. simpl.
  intros H. repeat (destruct H as [H|H]; [discriminate|]). exact H.
Defined.

(** X11. A [create_issue] whose owner and repo resolve but whose
    parameters hold no title makes no call: the key error of [p["title"]]
    is caught and returned as an Error Record that names the key. *)
Theorem create_issue_without_title
  (rt : Runtime) (sv : Services) (intent d : dict) :
  params_of intent = PDict d ->
  str_valued d = true ->
  action_of intent = Some (PStr (py "create_issue")) ->
  nonempty (fst (resolved d)) = true ->
  nonempty (snd (resolved d)) = true ->
  Dict.get (py "title") d = None ->
  execute rt sv intent
  = ([], Ok (error_record
               (py "Parâmetro faltando: "
                ++ exn_text rt (KeyError (PStr (py "title")))
                ++ py ". Tente ser mais específico, ex: 'issues do microsoft/vscode'"))).
Proof.
  intros Hp Hd Ha Ho Hr Ht. rewrite (execute_unfold rt sv _ _ _ Hp Hd Ha).
  unfold actions. rewrite Ho, Hr. cbn [lookup andb].
  repeat match goal with
         | |- context [PyStr.eqb ?a ?b] =>
             let v := eval vm_compute in (PyStr.eqb a b) in
             change (PyStr.eqb a b) with v
         end.
  cbv iota. unfold Py.getitem. rewrite Ht. reflexivity.
Qed.

Lemma create_issue_without_title_witness :
  execute Ref.runtime (Ref.world PNone [] PNone)
    [(k_action, PStr (py "create_issue"));
     (k_params, PDict [(k_owner, PStr (py "a")); (k_repo, PStr (py "b"));
                       (py "body", PStr (py "texto"))])]
  = ([], Ok (error_record
               (py "Parâmetro faltando: "
                ++ exn_text Ref.runtime (KeyError (PStr (py "title")))
                ++ py ". Tente ser mais específico, ex: 'issues do microsoft/vscode'"))).
Proof.
  apply (create_issue_without_title Ref.runtime (Ref.world PNone [] PNone)
           [(k_action, PStr (py "create_issue"));
            (k_params, PDict [(k_owner, PStr (py "a")); (k_repo, PStr (py "b"));
                              (py "body", PStr (py "texto"))])]
           [(k_owner, PStr (py "a")); (k_repo, PStr (py "b"));
            (py "body", PStr (py "texto"))]); vm_compute; reflexivity.
Defined.

Lemma execute_single_call_witness :
  trace (execute Ref.runtime (Ref.world PNone [] PNone)
           [(k_action, PStr (py "search_repos"));
            (k_params, PDict [(k_owner, PInt 5); (py "query", PStr [])])])
  = [].
Proof.
  apply (proj2 (execute_single_call Ref.runtime (Ref.world PNone [] PNone)
                  [(k_action, PStr (py "search_repos"));
                   (k_params, PDict [(k_owner, PInt 5); (py "query", PStr [])])])
           TypeError).
  vm_compute. reflexivity.
Defined.

Lemma parse_intent_chat
  (rt : Runtime) (sv : Services) (user_input : str)
  (t : list event) (response : pyval) :
  chat rt sv (messages_for user_input) = (t, Ok response) ->
  parse_intent rt sv user_input = (t, Ok (parse_response rt response user_input)).
Proof.
  intros H. unfold parse_intent. fold (messages_for user_input). rewrite H.
  cbn [bind ret]. now rewrite app_nil_r.
Qed.

(** The steps of [process] after the classification, one by one. *)
Lemma process_steps
  (rt : Runtime) (sv : Services) (user_input : str)
  (t0 : list event) (intent : dict) :
  parse_intent rt sv user_input = (t0, Ok intent) ->
  process rt sv user_input
  = match gate_rejects intent with
    | Raise e => (t0, Raise e)
    | Ok true => (t0, Ok rejection)
    | Ok false =>
        match execute rt sv intent with
        | (t2, Raise e) => (t0 ++ t2, Raise e)
        | (t2, Ok result) =>
            match Py.getitem (PDict intent) k_action with
            | Raise e => (t0 ++ t2, Raise e)
            | Ok action =>
                match format_response rt sv action result with
                | (t3, Raise e) => (t0 ++ t2 ++ t3, Raise e)
                | (t3, Ok formatted) =>
                    (t0 ++ t2 ++ t3,
                     Ok (PDict [(k_success, PBool true);
                                (k_intent, PDict intent);
                                (k_result, result);
                                (k_formatted, formatted)]))
                end
            end
        end
    end.
Proof.
  intros Hp. unfold process. rewrite Hp. cbn [bind].
  destruct (gate_rejects intent) as [[|]|e]; cbn [lift bind ret app];
    rewrite ?app_nil_r; try reflexivity.
  destruct (execute rt sv intent) as [t2 [result|e]]; cbn [bind];
    [|reflexivity].
  destruct (Py.getitem (PDict intent) k_action) as [a|e]; cbn [lift bind app];
    [|now rewrite app_nil_r].
  destruct (format_response rt sv a result) as [t3 [f|e]]; cbn [bind ret app];
    now rewrite ?app_nil_r.
Qed.

Lemma format_trace (rt : Runtime) (sv : Services) (action data : pyval) :
  trace (format_response rt sv action data) = []
  \/ exists p, trace (format_response rt sv action data) = [EvGenerate p].
Proof.
  unfold format_response. destruct (error_of data); [now left | right].
  now eexists.
Qed.

(** X12. Every run of the pipeline, whether it returns or raises, makes
    exactly one chat call, first; then at most one call to the hosting
    service; then at most one completion call; and nothing else. *)
Theorem process_trace_shape (rt : Runtime) (sv : Services) (user_input : str) :
  exists rest,
    trace (process rt sv user_input) = EvChat (messages_for user_input) :: rest
    /\ (rest = []
        \/ (exists c, rest = [EvGitHub c])
        \/ (exists p, rest = [EvGenerate p])
        \/ (exists c p, rest = [EvGitHub c; EvGenerate p])).
Proof.
  destruct (parse_intent_run rt sv user_input) as (response & Hp & _).
  rewrite (process_steps _ _ _ _ _ Hp).
  set (intent := parse_response rt response user_input).
  destruct (gate_rejects intent) as [[|]|e];
    try (exists []; split; [reflexivity | now left]).
  pose proof (execute_cases rt sv intent) as Hx.
  destruct (execute rt sv intent) as [t2 [result|e]] eqn:He.
  - destruct (Py.getitem (PDict intent) k_action) as [a|e].
    + pose proof (format_trace rt sv a result) as Hf.
      destruct (format_response rt sv a result) as [t3 [f|e]];
        cbn [trace fst] in Hf; exists (t2 ++ t3); (split; [reflexivity|]);
        destruct Hx as [Hx | [c Hx]];
        try (cbn [trace fst] in Hx; subst t2);
        try (injection Hx as -> _);
        destruct Hf as [-> | [p ->]]; cbn [app]; eauto 6.
    + exists t2. split; [reflexivity|].
      destruct Hx as [Hx | [c Hx]].
      * cbn [trace fst] in Hx. subst. now left.
      * injection Hx as -> _. eauto.
  - exists t2. split; [reflexivity|].
    destruct Hx as [Hx | [c Hx]]; [|discriminate].
    cbn [trace fst] in Hx. subst. now left.
Qed.

(** X13. Whenever the pipeline returns, its envelope is the rejection
    exactly when the gate rejected the intent classified from the chat
    reply, and then only the chat call was made. Otherwise the intent has
    an action, the dispatch returned, and the envelope carries [success]
    true, the intent, the result of the dispatch and, under [formatted],
    what the formatter returned for that action and that result; the
    calls made are the chat call, those of the dispatch and those of the
    formatter, in this order. When the result is an Error Record the
    formatted text is the error line with its message and the formatter
    made no call. *)
Theorem process_envelope
  (rt : Runtime) (sv : Services) (user_input : str)
  (t : list event) (envelope : pyval) :
  process rt sv user_input = (t, Ok envelope) ->
  exists response,
    chat rt sv (messages_for user_input)
    = ([EvChat (messages_for user_input)], Ok response)
    /\ ((gate_rejects (parse_response rt response user_input) = Ok true
         /\ envelope = rejection
         /\ t = [EvChat (messages_for user_input)])
        \/ (gate_rejects (parse_response rt response user_input) = Ok false
            /\ exists action result formatted t2 t3,
                 action_of (parse_response rt response user_input)
                 = Some action
                 /\ execute rt sv (parse_response rt response user_input)
                    = (t2, Ok result)
                 /\ format_response rt sv action result = (t3, Ok formatted)
                 /\ t = EvChat (messages_for user_input) :: t2 ++ t3
                 /\ envelope
                    = PDict [(k_success, PBool true);
                             (k_intent,
                              PDict (parse_response rt response user_input));
                             (k_result, result); (k_formatted, formatted)]
                 /\ (forall err,
                       error_of result = Some err ->
                       formatted = PStr (py "❌ **Erro:** " ++ fmt rt err)
                       /\ t3 = []))).
Proof.
  destruct (chat_run rt sv (messages_for user_input)) as (response & Hc & _).
  intros H. exists response. split; [assumption|].
  rewrite (process_steps _ _ _ _ _ (parse_intent_chat _ _ _ _ _ Hc)) in H.
  destruct (gate_rejects _) as [[|]|e]; [| |discriminate].
  - left. injection H as <- <-. now repeat split.
  - right. split; [reflexivity|].
    destruct (execute rt sv _) as [t2 [result|e]]; [|discriminate].
    unfold action_of. cbn [Py.getitem] in H.
    destruct (Dict.get k_action _) as [a|]; [|discriminate].
    destruct (format_response rt sv a result) as [t3 [f|e]] eqn:Hf;
      [|discriminate].
    injection H as <- <-. exists a, result, f, t2, t3.
    do 5 (split; [first [reflexivity | exact Hf]|]).
    intros err Herr. unfold format_response in Hf. rewrite Herr in Hf.
    injection Hf as <- <-. now split.
Qed.

Lemma process_envelope_witness :
  exists response,
    chat Ref.runtime not_found_world (messages_for (py "repositório foo/bar"))
    = ([EvChat (messages_for (py "repositório foo/bar"))], Ok response)
    /\ ((gate_rejects
           (parse_response Ref.runtime response (py "repositório foo/bar"))
         = Ok true
         /\ not_found_envelope = rejection
         /\ not_found_trace = [EvChat (messages_for (py "repositório foo/bar"))])
        \/ (gate_rejects
              (parse_response Ref.runtime response (py "repositório foo/bar"))
            = Ok false
            /\ exists action result formatted t2 t3,
                 action_of
                   (parse_response Ref.runtime response
                      (py "repositório foo/bar"))
                 = Some action
                 /\ execute Ref.runtime not_found_world
                      (parse_response Ref.runtime response
                         (py "repositório foo/bar"))
                    = (t2, Ok result)
                 /\ format_response Ref.runtime not_found_world action result
                    = (t3, Ok formatted)
                 /\ not_found_trace
                    = EvChat (messages_for (py "repositório foo/bar"))
                      :: t2 ++ t3
                 /\ not_found_envelope
                    = PDict [(k_success, PBool true);
                             (k_intent,
                              PDict (parse_response Ref.runtime response
                                       (py "repositório foo/bar")));
                             (k_result, result); (k_formatted, formatted)]
                 /\ (forall err,
                       error_of result = Some err ->
                       formatted
                       = PStr (py "❌ **Erro:** " ++ fmt Ref.runtime err)
                       /\ t3 = []))).
Proof.
  apply (process_envelope Ref.runtime not_found_world
           (py "repositório foo/bar") not_found_trace not_found_envelope).
  vm_compute. reflexivity.
Defined.

(** After the classification, a gate that answers and a dispatch that
    returns on an intent with an action are all the pipeline needs. *)
Lemma process_ok
  (rt : Runtime) (sv : Services) (user_input : str)
  (t0 : list event) (intent : dict) (action : pyval) (segs : str * str) :
  parse_intent rt sv user_input = (t0, Ok intent) ->
  action_of intent = Some action ->
  Py.hashable action = true ->
  (exists b, gate_rejects intent = Ok b) ->
  get_owner_repo (params_of intent) = Ok segs ->
  exists t envelope, process rt sv user_input = (t, Ok envelope).
Proof.
  intros Hp Ha Hh [b Hg] Hres. rewrite (process_steps _ _ _ _ _ Hp), Hg.
  destruct b; [now eexists; eexists|].
  destruct (execute_ok rt sv intent segs Hres) as (t2 & result & ->).
  { unfold dispatched_action. unfold action_of in Ha. now rewrite Ha. }
  unfold action_of in Ha. cbn [Py.getitem]. rewrite Ha.
  destruct (format_response_returns rt sv action result) as (t3 & f & ->).
  now eexists; eexists.
Qed.

(** X14. The pipeline returns an envelope on every intent that has the
    shape of the data model: an action that is a string, a confidence
    that is a number or is absent, and parameters that are a mapping of
    strings. *)
Theorem process_returns_on_model_intent
  (rt : Runtime) (sv : Services) (user_input : str)
  (t0 : list event) (intent d : dict) (name : str) :
  parse_intent rt sv user_input = (t0, Ok intent) ->
  action_of intent = Some (PStr name) ->
  (confidence_of intent = None
   \/ (exists f, confidence_of intent = Some (PFloat f))
   \/ (exists n, confidence_of intent = Some (PInt n))) ->
  params_of intent = PDict d ->
  str_valued d = true ->
  exists t envelope, process rt sv user_input = (t, Ok envelope).
Proof.
  intros Hp Ha Hc Hd Hs.
  apply (process_ok rt sv user_input t0 intent (PStr name) (resolved d));
    try assumption; try reflexivity.
  - unfold gate_rejects. unfold action_of in Ha. rewrite Ha.
    destruct (Py.eq_str _ _); [now eexists|].
    unfold confidence_of in Hc.
    destruct Hc as [-> | [[f ->] | [n ->]]]; now eexists.
  - rewrite Hd. now apply get_owner_repo_resolved.
Qed.

Lemma process_returns_on_model_intent_witness :
  exists t envelope,
    process Ref.runtime
      (Ref.world (PStr (pyq "{'action': 'get_repo', 'params': {'owner': 'a'}}"))
         (py "ok") PNone)
      (py "mostre")
    = (t, Ok envelope).
Proof.
  apply (process_returns_on_model_intent Ref.runtime
           (Ref.world (PStr (pyq "{'action': 'get_repo', 'params': {'owner': 'a'}}"))
              (py "ok") PNone)
           (py "mostre") [EvChat (messages_for (py "mostre"))]
           [(k_action, PStr (py "get_repo"));
            (k_params, PDict [(k_owner, PStr (py "a"))])]
           [(k_owner, PStr (py "a"))] (py "get_repo"));
    try (vm_compute; reflexivity).
  left. vm_compute. reflexivity.
Defined.

(** X15. When the try block of [parse_intent] raises on the chat reply,
    whatever that reply is, the pipeline still returns an envelope: the
    fallback's intent always passes through the gate, the dispatcher and
    the formatter without an exception. *)
Theorem degraded_run_returns
  (rt : Runtime) (sv : Services) (user_input : str)
  (t0 : list event) (response : pyval) :
  chat rt sv (messages_for user_input) = (t0, Ok response) ->
  parse_fails rt response user_input ->
  exists t envelope, process rt sv user_input = (t, Ok envelope).
Proof.
  intros Hc Hf. apply parse_fails_raises in Hf as [e He].
  pose proof (parse_intent_chat _ _ _ _ _ Hc) as Hp.
  rewrite (parse_raise_falls_back _ _ _ _ He) in Hp.
  assert (Hres : exists segs,
             get_owner_repo (params_of (_fallback_parse rt user_input)) = Ok segs).
  { unfold _fallback_parse, params_of.
    destruct (Re.search user_input) as [[o r]|]; eexists;
      apply get_owner_repo_resolved; reflexivity. }
  destruct Hres as [segs Hres].
  apply (process_ok rt sv user_input t0 _
           (PStr (fallback_action (str_lower rt user_input)
                    (fst (extracted user_input))))
           segs Hp).
  - unfold _fallback_parse, extracted. now destruct (Re.search user_input) as [[o r]|].
  - reflexivity.
  - unfold gate_rejects, _fallback_parse. cbn [Dict.get].
    repeat match goal with
           | |- context [PyStr.eqb ?a ?b] =>
               let v := eval vm_compute in (PyStr.eqb a b) in
               change (PyStr.eqb a b) with v
           end.
    cbv iota. destruct (Py.eq_str _ _); now eexists.
  - exact Hres.
Qed.

Lemma degraded_run_returns_witness :
  exists t envelope,
    process Ref.runtime (Ref.offline (py "Connection refused") (PList []))
      (py "issues do microsoft/vscode")
    = (t, Ok envelope).
Proof.
  apply (degraded_run_returns Ref.runtime
           (Ref.offline (py "Connection refused") (PList []))
           (py "issues do microsoft/vscode")
           [EvChat (messages_for (py "issues do microsoft/vscode"))]
           (PStr (py "Erro Ollama: Connection refused"))).
  - vm_compute. reflexivity.
  - right; left. exists (py "Erro Ollama: Connection refused"), JSONDecodeError.
    split; vm_compute; reflexivity.
Defined.

(** X16. The chat page can always show what the pipeline returned: on
    every envelope of [process] its key lookups succeed, and a rejection
    is shown as the mark followed by the guidance message. *)
Theorem render_reply_total
  (rt : Runtime) (sv : Services) (user_input : str)
  (t : list event) (envelope : pyval) :
  process rt sv user_input = (t, Ok envelope) ->
  exists shown,
    render_reply rt envelope = Ok shown
    /\ (envelope = rejection -> shown = PStr (py "❌ " ++ guidance)).
Proof.
  intros H. destruct (process_returns _ _ _ _ _ H)
    as [response [(_ & -> & _) | (_ & result & formatted & ->)]].
  - eexists. split; [vm_compute; reflexivity | reflexivity].
  - exists formatted. split; [reflexivity | discriminate].
Qed.

Lemma render_reply_total_witness :
  exists shown,
    render_reply Ref.runtime rejection = Ok shown
    /\ (rejection = rejection -> shown = PStr (py "❌ " ++ guidance)).
Proof.
  apply (render_reply_total Ref.runtime
           (Ref.offline (py "Read timed out.") PNone) []
           [EvChat (messages_for [])] rejection).
  vm_compute. reflexivity.
Defined.

(** ** The client of the hosting service *)

Lemma contains_char (c : char) (l : str) :
  PyStr.contains [c] l = existsb (N.eqb c) l.
Proof.
  induction l as [|x l IH]; [reflexivity|].
  rewrite contains_eq, IH. cbn [PyStr.starts_with existsb].
  now rewrite andb_true_r.
Qed.

Lemma existsb_rev_false {A} (f : A -> bool) (l : list A) :
  existsb f l = false -> existsb f (rev l) = false.
Proof.
  intros H. destruct (existsb f (rev l)) eqn:E; [|reflexivity].
  apply existsb_exists in E as (x & Hx & Hf).
  assert (existsb f l = true)
    by (apply existsb_exists; exists x; split; [now apply in_rev | assumption]).
  congruence.
Qed.

(** The first part of a split by one character does not hold it. *)
Lemma split_head_clean (c : char) (s cur a : str) (rest : list str) :
  existsb (N.eqb c) cur = false ->
  PyStr.split_go [c] 0 cur s = a :: rest ->
  existsb (N.eqb c) a = false.
Proof.
  revert cur; induction s as [|x s IH]; intros cur Hc H.
  - injection H as <- _. now apply existsb_rev_false.
  - cbn [PyStr.split_go PyStr.starts_with] in H. rewrite andb_true_r in H.
    destruct (c =? x)%N eqn:E.
    + injection H as <- _. now apply existsb_rev_false.
    + apply (IH (x :: cur)); [|assumption]. cbn [existsb]. now rewrite E.
Qed.

Lemma issue_pair_clean (owner repo : str) :
  PyStr.contains [Re.slash] (snd (issue_path_pair owner repo)) = false.
Proof.
  unfold issue_path_pair.
  destruct (if PyStr.contains [Re.slash] (clean owner) && negb (nonempty (clean repo))
            then _ else _) as [o r].
  destruct (PyStr.contains [Re.slash] r) eqn:E; [|exact E].
  destruct (PyStr.split [Re.slash] r) as [|a rest] eqn:Hs.
  - destruct (split_go_head [Re.slash] r [] 0) as (a & rest & Ha).
    unfold PyStr.split in Hs. congruence.
  - cbn [snd]. rewrite contains_char.
    now apply (split_head_clean Re.slash r [] a rest).
Qed.

Lemma existsb_eqb_in (c : char) (l : str) :
  existsb (N.eqb c) l = false <-> ~ In c l.
Proof.
  split.
  - intros H Hin. assert (existsb (N.eqb c) l = true); [|congruence].
    apply existsb_exists. exists c. split; [assumption | apply N.eqb_refl].
  - intros H. destruct (existsb (N.eqb c) l) eqn:E; [|reflexivity].
    apply existsb_exists in E as (x & Hx & Hc). apply N.eqb_eq in Hc.
    now subst x.
Qed.

(** A text that holds [c] has a first occurrence of it. *)
Lemma first_occurrence (c : char) (s : str) :
  existsb (N.eqb c) s = true ->
  exists s1 s2, s = s1 ++ c :: s2 /\ existsb (N.eqb c) s1 = false.
Proof.
  induction s as [|x s IH]; [discriminate|]. cbn [existsb].
  destruct (N.eqb_spec c x) as [<-|Hx].
  - intros _. now exists [], s.
  - intros H. destruct (IH H) as (s1 & s2 & -> & H1).
    exists (x :: s1), s2. split; [reflexivity|]. cbn [existsb].
    apply N.eqb_neq in Hx. now rewrite Hx.
Qed.

(** Splitting by one character cuts at its first occurrence. *)
Lemma split_char_first (c : char) (s1 s2 cur : str) :
  existsb (N.eqb c) s1 = false ->
  PyStr.split_go [c] 0 cur (s1 ++ c :: s2)
  = (rev cur ++ s1) :: PyStr.split_go [c] 0 [] s2.
Proof.
  revert cur; induction s1 as [|x s1 IH]; intros cur H.
  - cbn [app PyStr.split_go PyStr.starts_with]. rewrite N.eqb_refl.
    cbn [andb length Nat.sub]. now rewrite app_nil_r.
  - cbn [existsb] in H. apply orb_false_iff in H as [Hx H1].
    cbn [app PyStr.split_go PyStr.starts_with]. rewrite Hx. cbn [andb].
    rewrite (IH _ H1). cbn [rev]. now rewrite <- app_assoc.
Qed.

Lemma split_char_none (c : char) (s : str) :
  existsb (N.eqb c) s = false -> PyStr.split [c] s = [s].
Proof.
  intros H. unfold PyStr.split. rewrite split_without_sep; [reflexivity|].
  now rewrite contains_char.
Qed.

(** The first part of a split by slashes is the first segment. *)
Lemma split_head_segment (s a : str) (rest : list str) :
  PyStr.split [Re.slash] s = a :: rest -> first_segment s a.
Proof.
  intros H. destruct (existsb (N.eqb Re.slash) s) eqn:E.
  - destruct (first_occurrence _ _ E) as (s1 & s2 & -> & H1).
    unfold PyStr.split in H. rewrite (split_char_first _ _ _ _ H1) in H.
    injection H as <- _. split; [now apply existsb_eqb_in|].
    right. now exists s2.
  - rewrite (split_char_none _ _ E) in H. injection H as <- _.
    split; [now apply existsb_eqb_in | now left].
Qed.

Lemma first_segment_whole (s : str) :
  existsb (N.eqb Re.slash) s = false -> first_segment s s.
Proof. intros H. split; [now apply existsb_eqb_in | now left]. Qed.

(** A text without a slash is its own first segment, and has no other. *)
Lemma first_segment_plain (s seg : str) :
  ~ In Re.slash s -> first_segment s seg -> seg = s.
Proof.
  intros Hs [_ [-> | [rest ->]]]; [reflexivity|].
  exfalso. apply Hs, in_or_app. right. now left.
Qed.

Lemma app_cons_longer {A} (l rest : list A) (x : A) : l <> l ++ x :: rest.
Proof.
  intros H. apply (f_equal (@length A)) in H.
  rewrite length_app in H. simpl in H. lia.
Qed.

(** The owner and the repo of the path, from the cleaned arguments. *)
Lemma issue_pair_spec (owner repo : str) :
  (clean repo <> [] ->
   fst (issue_path_pair owner repo) = clean owner
   /\ first_segment (clean repo) (snd (issue_path_pair owner repo)))
  /\ (clean repo = [] ->
      first_segment (clean owner) (fst (issue_path_pair owner repo))
      /\ (clean owner = fst (issue_path_pair owner repo) ->
          snd (issue_path_pair owner repo) = [])
      /\ (forall rest,
            clean owner
            = fst (issue_path_pair owner repo) ++ Re.slash :: rest ->
            first_segment rest (snd (issue_path_pair owner repo)))).
Proof.
  unfold issue_path_pair. rewrite !contains_char.
  set (co := clean owner). set (cr := clean repo). clearbody co cr.
  split.
  - intros Hr. destruct cr as [|c cr]; [contradiction|].
    cbn [nonempty negb]. rewrite andb_false_r. rewrite contains_char.
    destruct (existsb (N.eqb Re.slash) (c :: cr)) eqn:E.
    + destruct (PyStr.split [Re.slash] (c :: cr)) as [|a rest] eqn:Hs.
      * destruct (split_go_head [Re.slash] (c :: cr) [] 0) as (a & rest & Ha).
        unfold PyStr.split in Hs. congruence.
      * split; [reflexivity|]. now apply split_head_segment with rest.
    + split; [reflexivity|]. now apply first_segment_whole.
  - intros ->. cbn [nonempty negb]. rewrite andb_true_r.
    destruct (existsb (N.eqb Re.slash) co) eqn:E.
    + destruct (first_occurrence _ _ E) as (s1 & s2 & -> & H1).
      unfold PyStr.split. rewrite (split_char_first _ _ _ _ H1).
      cbn [rev app].
      destruct (split_go_head [Re.slash] s2 [] 0) as (b & rest & Hb).
      rewrite Hb. rewrite contains_char.
      assert (Hseg : first_segment s2 b)
        by (now apply split_head_segment with rest).
      destruct Hseg as [Hnb Hshape].
      rewrite (proj2 (existsb_eqb_in _ _) Hnb). cbn [fst snd].
      split; [|split].
      * split; [now apply existsb_eqb_in|]. right. now exists s2.
      * intros H. symmetry in H. now apply app_cons_longer in H.
      * intros rest' H. apply app_inv_head in H. injection H as <-.
        now split.
    + cbn [PyStr.contains PyStr.starts_with orb fst snd existsb].
      split; [now apply first_segment_whole|]. split; [reflexivity|].
      intros rest H. now apply app_cons_longer in H.
Qed.

Lemma drop_while_split (p : char -> bool) (s : str) :
  exists a, s = a ++ drop_while p s /\ forallb p a = true.
Proof.
  induction s as [|c s (a & IH & Ha)]; [now exists []|].
  cbn [drop_while]. destruct (p c) eqn:E.
  - exists (c :: a). cbn [app forallb]. rewrite E, Ha. split; [now f_equal | reflexivity].
  - now exists [].
Qed.

(** Dropping at both ends leaves a part of the text between characters
    that satisfy [p]. *)
Lemma trim_within (p : char -> bool) (s : str) :
  exists a b,
    s = a ++ rev (drop_while p (rev (drop_while p s))) ++ b
    /\ forallb p a = true /\ forallb p b = true.
Proof.
  destruct (drop_while_split p s) as (a & Ha & Hpa).
  destruct (drop_while_split p (rev (drop_while p s))) as (b & Hb & Hpb).
  exists a, (rev b). split; [|split; [assumption | now apply forallb_rev]].
  rewrite <- rev_app_distr, <- Hb, rev_involutive. exact Ha.
Qed.

Lemma lstrip_drop (s : str) : PyStr.lstrip s = drop_while PyStr.is_space s.
Proof. induction s as [|c s IH]; [reflexivity|]. simpl. now rewrite IH. Qed.

Lemma lstrip_chars_drop (c : char) (s : str) :
  lstrip_chars [c] s = drop_while (fun x => (x =? c)%N) s.
Proof.
  induction s as [|x s IH]; [reflexivity|]. cbn [lstrip_chars drop_while existsb].
  rewrite orb_false_r, IH. reflexivity.
Qed.

Lemma forallb_weaken {A} (p q : A -> bool) (l : list A) :
  (forall x, p x = true -> q x = true) ->
  forallb p l = true -> forallb q l = true.
Proof.
  intros H. rewrite !forallb_forall. intros Hp x Hx. now apply H, Hp.
Qed.

(** Cleaning cuts nothing but white space and slashes, at the two ends. *)
Lemma clean_within (s : str) :
  exists pre post,
    s = pre ++ clean s ++ post
    /\ forallb junk pre = true /\ forallb junk post = true.
Proof.
  unfold clean, PyStr.strip, PyStr.rstrip, strip_chars.
  rewrite !lstrip_drop, !lstrip_chars_drop.
  destruct (trim_within PyStr.is_space s) as (a1 & b1 & H1 & Ha1 & Hb1).
  set (s1 := rev (drop_while PyStr.is_space (rev (drop_while PyStr.is_space s)))) in *.
  destruct (trim_within (fun x => (x =? Re.slash)%N) s1)
    as (a2 & b2 & H2 & Ha2 & Hb2).
  set (s2 := rev (drop_while _ (rev (drop_while _ s1)))) in *.
  destruct (trim_within PyStr.is_space s2) as (a3 & b3 & H3 & Ha3 & Hb3).
  set (s3 := rev (drop_while _ (rev (drop_while _ s2)))) in *.
  exists (a1 ++ a2 ++ a3), (b3 ++ b2 ++ b1). split.
  - rewrite H1 at 1. rewrite H2 at 1. rewrite H3 at 1.
    now rewrite <- !app_assoc.
  - assert (Hs : forall l, forallb PyStr.is_space l = true -> forallb junk l = true).
    { intros l. apply forallb_weaken. intros x Hx. unfold junk. now rewrite Hx. }
    assert (Hc : forall l, forallb (fun x => (x =? Re.slash)%N) l = true
                           -> forallb junk l = true).
    { intros l. apply forallb_weaken. intros x Hx. unfold junk. rewrite Hx.
      apply orb_true_r. }
    rewrite !forallb_app. rewrite (Hs _ Ha1), (Hc _ Ha2), (Hs _ Ha3),
      (Hs _ Hb1), (Hc _ Hb2), (Hs _ Hb3). now split.
Qed.

Lemma tok_not_slash (g : str) :
  forallb Re.is_tok g = true -> ~ In Re.slash g.
Proof.
  rewrite forallb_forall. intros H Hin. apply H in Hin. discriminate.
Qed.

(** Cleaning leaves a token as it is. *)
Lemma clean_tok (g : str) : forallb Re.is_tok g = true -> clean g = g.
Proof.
  intros H. unfold clean. rewrite (strip_tok _ H).
  assert (Hd : forall l, ~ In Re.slash l -> lstrip_chars [Re.slash] l = l).
  { intros [|x l] Hl; [reflexivity|]. cbn [lstrip_chars existsb].
    destruct (N.eqb_spec x Re.slash) as [->|]; [|reflexivity].
    exfalso. apply Hl. now left. }
  unfold strip_chars. rewrite (Hd g) by now apply tok_not_slash.
  rewrite Hd.
  - rewrite rev_involutive. now apply strip_tok.
  - intros Hin. apply in_rev in Hin. now apply (tok_not_slash g).
Qed.

(** X17. [list_issues] sends nothing when the owner or the repo is empty
    and answers with an Error Record. Otherwise it sends one GET, to the
    issues of [/repos/<o>/<r>] with the state, where [o] and [r] come
    from the cleaned arguments (each without the white space and the
    slashes at its two ends): with a cleaned repo that is not empty, [o]
    is the cleaned owner and [r] the first segment of the cleaned repo;
    with an empty one, [o] is the first segment of the cleaned owner and
    [r] its second (empty when it has none). In every case [r] holds no
    slash, and an owner and a repo that are tokens go into the path as
    they are. *)
Theorem list_issues_guard
  (rt : Runtime) (http : Http.request -> Http.reply) (token : str)
  (owner repo : str) (state : pyval) :
  (owner = [] \/ repo = [] ->
   client_list_issues rt http token owner repo state
   = ([], error_record msg_issue_params))
  /\ (owner <> [] -> repo <> [] ->
      exists o r,
        client_list_issues rt http token owner repo state
        = client_get rt http token
            (py "/repos/" ++ o ++ py "/" ++ r ++ py "/issues?state="
             ++ fmt rt state)
        /\ fst (client_list_issues rt http token owner repo state)
           = [api_request token (py "GET")
                (py "/repos/" ++ o ++ py "/" ++ r ++ py "/issues?state="
                 ++ fmt rt state) None]
        /\ ~ In Re.slash r
        /\ (clean repo <> [] ->
            o = clean owner /\ first_segment (clean repo) r)
        /\ (clean repo = [] ->
            first_segment (clean owner) o
            /\ (clean owner = o -> r = [])
            /\ (forall rest, clean owner = o ++ Re.slash :: rest ->
                             first_segment rest r))
        /\ (Match.token owner -> Match.token repo ->
            o = owner /\ r = repo))
  /\ (forall s, exists pre post,
        s = pre ++ clean s ++ post
        /\ forallb junk pre = true /\ forallb junk post = true).
Proof.
  unfold client_list_issues. split; [|split; [|apply clean_within]].
  - intros [-> | ->]; [reflexivity|]. now rewrite orb_true_r.
  - intros Ho Hr. destruct owner as [|x owner]; [contradiction|].
    destruct repo as [|y repo]; [contradiction|].
    cbn [nonempty negb orb].
    pose proof (issue_pair_clean (x :: owner) (y :: repo)) as Hc.
    pose proof (issue_pair_spec (x :: owner) (y :: repo)) as [Hfull Hnone].
    destruct (issue_path_pair (x :: owner) (y :: repo)) as [o r].
    cbn [fst snd] in Hc, Hfull, Hnone. exists o, r.
    split; [reflexivity|]. split; [reflexivity|].
    rewrite contains_char in Hc. apply existsb_eqb_in in Hc.
    split; [assumption|]. split; [assumption|]. split; [assumption|].
    intros [_ Hto] [_ Htr].
    pose proof (clean_tok _ Hto) as Eo. pose proof (clean_tok _ Htr) as Er.
    destruct Hfull as [-> Hseg]; [now rewrite Er|].
    split; [assumption|]. rewrite Er in Hseg.
    apply first_segment_plain; [now apply tok_not_slash | assumption].
Qed.


Lemma list_issues_guard_witness :
  exists o r,
    client_list_issues Ref.runtime
      (fun _ => Http.Failure (RequestError (py "offline"))) []
      (py "microsoft") (py "vscode") (PStr (py "open"))
    = client_get Ref.runtime
        (fun _ => Http.Failure (RequestError (py "offline"))) []
        (py "/repos/" ++ o ++ py "/" ++ r ++ py "/issues?state="
         ++ fmt Ref.runtime (PStr (py "open")))
    /\ o = py "microsoft" /\ r = py "vscode".
Proof.
  destruct (proj1 (proj2 (list_issues_guard Ref.runtime
                     (fun _ => Http.Failure (RequestError (py "offline")))
                     [] (py "microsoft") (py "vscode") (PStr (py "open")))))
    as (o & r & Hrun & _ & _ & _ & _ & Htok); try discriminate.
  exists o, r. split; [exact Hrun|].
  apply Htok; split; try discriminate; reflexivity.
Defined.

(** A repo that carries a path keeps its first segment only. *)
Example list_issues_cuts_repo :
  fst (client_list_issues Ref.runtime
         (fun _ => Http.Failure (RequestError (py "offline"))) []
         (py " microsoft/ ") (py "vscode/issues/1") (PStr (py "closed")))
  = [{| Http.method := py "GET";
        Http.url := py "https://api.github.com/repos/microsoft/vscode/issues?state=closed";
        Http.headers :=
          [(py "Accept", py "application/vnd.github+json");
           (py "X-GitHub-Api-Version", py "2022-11-28")];
        Http.json_body := None |}].
Proof. vm_compute. reflexivity. Qed.

Example list_issues_splits_owner :
  fst (client_list_issues Ref.runtime (fun _ => Http.Failure (RequestError (py "offline")))
         (py "t0k3n") (py "microsoft/vscode/x") (py " ") (PStr (py "open")))
  = [{| Http.method := py "GET";
        Http.url := py "https://api.github.com/repos/microsoft/vscode/issues?state=open";
        Http.headers :=
          [(py "Accept", py "application/vnd.github+json");
           (py "X-GitHub-Api-Version", py "2022-11-28");
           (py "Authorization", py "Bearer t0k3n")];
        Http.json_body := None |}].
Proof. vm_compute. reflexivity. Qed.

(** X18. On a status from 400 to 599 [_request] returns an Error Record
    whose message is "HTTP", the status and the first 200 characters, at
    most, of the body; it sends exactly the one request. *)
Theorem request_http_error
  (rt : Runtime) (http : Http.request -> Http.reply) (token : str)
  (method endpoint : str) (data : option pyval)
  (status : Z) (text : str) (json : result pyval) :
  http (api_request token method endpoint data)
  = Http.Response status text json ->
  (400 <= status < 600)%Z ->
  exists excerpt rest,
    _request rt http token method endpoint data
    = ([api_request token method endpoint data],
       error_record (py "HTTP " ++ fmt rt (PInt status) ++ py ": " ++ excerpt))
    /\ text = excerpt ++ rest
    /\ length excerpt <= 200.
Proof.
  intros Hh Hs. unfold _request. rewrite Hh.
  replace (is_http_error status) with true
    by (symmetry; unfold is_http_error; apply andb_true_iff; split;
        [apply Z.leb_le | apply Z.ltb_lt]; lia).
  rewrite slice_prefix. set (n := Z.to_nat 200).
  exists (firstn n text), (skipn n text).
  repeat split; [symmetry; apply firstn_skipn|].
  etransitivity; [apply firstn_le_length|]. subst n. now apply Nat.eq_le_incl.
Qed.

Lemma request_http_error_witness :
  exists excerpt rest,
    _request Ref.runtime
      (fun _ => Http.Response 404 (pyq "{'message': 'Not Found'}")
                  (Ok (PDict [(k_message, PStr (py "Not Found"))])))
      [] (py "GET") (py "/repos/foo/bar") None
    = ([api_request [] (py "GET") (py "/repos/foo/bar") None],
       error_record (py "HTTP " ++ fmt Ref.runtime (PInt 404) ++ py ": " ++ excerpt))
    /\ pyq "{'message': 'Not Found'}" = excerpt ++ rest
    /\ length excerpt <= 200.
Proof.
  apply (request_http_error Ref.runtime
           (fun _ => Http.Response 404 (pyq "{'message': 'Not Found'}")
                       (Ok (PDict [(k_message, PStr (py "Not Found"))])))
           [] (py "GET") (py "/repos/foo/bar") None 404
           (pyq "{'message': 'Not Found'}")
           (Ok (PDict [(k_message, PStr (py "Not Found"))])));
    [reflexivity | lia].
Defined.

(** X19. Whatever way a request fails (an exception of the transport, an
    error status, a body that does not decode), [_request] returns an
    Error Record, and the formatter shows its message on the error line
    without calling the model. *)
Theorem failed_request_shown_without_model
  (rt : Runtime) (http : Http.request -> Http.reply) (token : str)
  (method endpoint : str) (data : option pyval) :
  request_failed (http (api_request token method endpoint data)) ->
  exists msg,
    snd (_request rt http token method endpoint data) = error_record msg
    /\ forall sv action,
         format_response rt sv action
           (snd (_request rt http token method endpoint data))
         = ([], Ok (PStr (py "❌ **Erro:** " ++ msg))).
Proof.
  unfold _request, request_failed. cbn [snd].
  destruct (http _) as [status text json | e]; intros H.
  - destruct (is_http_error status) eqn:Es.
    + eexists. split; [reflexivity|]. reflexivity.
    + destruct H as [H | (Ht & e & ->)]; [discriminate|]. rewrite Ht.
      eexists. split; [reflexivity|]. reflexivity.
  - eexists. split; [reflexivity|]. reflexivity.
Qed.

Lemma failed_request_shown_without_model_witness :
  exists msg,
    snd (_request Ref.runtime
           (fun _ => Http.Failure (RequestError (py "Connection refused")))
           [] (py "GET") (py "/user") None)
    = error_record msg
    /\ forall sv action,
         format_response Ref.runtime sv action
           (snd (_request Ref.runtime
                   (fun _ => Http.Failure (RequestError (py "Connection refused")))
                   [] (py "GET") (py "/user") None))
         = ([], Ok (PStr (py "❌ **Erro:** " ++ msg))).
Proof.
  apply (failed_request_shown_without_model Ref.runtime
           (fun _ => Http.Failure (RequestError (py "Connection refused")))
           [] (py "GET") (py "/user") None).
  exact I.
Defined.

Lemma perform_one
  (rt : Runtime) (http : Http.request -> Http.reply) (token : str)
  (c : GitHub.call) :
  length (fst (perform rt http token c)) <= 1.
Proof.
  destruct c; cbn [perform]; unfold client_list_repos, client_list_issues,
    client_get, _request;
    repeat match goal with
           | |- context [if ?b then _ else _] => destruct b
           | |- context [let (_, _) := ?x in _] => destruct x
           end; cbn [fst length]; lia.
Qed.

(** X20. With the agent wired to this client, one run of the pipeline
    sends at most one HTTP request to the hosting service, whether the
    run returns or raises. *)
Theorem turn_sends_at_most_one_request
  (rt : Runtime) (http : Http.request -> Http.reply) (token : str)
  (chat_post : list message -> result pyval)
  (generate_post : str -> result pyval) (user_input : str) :
  length (requests_of rt http token
            (trace (process rt (wired rt http token chat_post generate_post)
                      user_input)))
  <= 1.
Proof.
  set (sv := wired rt http token chat_post generate_post).
  destruct (parse_intent_run rt sv user_input) as (response & Hp & _).
  rewrite (process_steps _ _ _ _ _ Hp).
  set (intent := parse_response rt response user_input).
  assert (Hgen : forall a result,
             requests_of rt http token (trace (format_response rt sv a result))
             = []).
  { intros a result. now destruct (format_trace rt sv a result) as [-> | [p ->]]. }
  assert (Hex : length (requests_of rt http token (trace (execute rt sv intent)))
                <= 1).
  { destruct (execute_cases rt sv intent) as [-> | [c ->]]; [simpl; lia|].
    cbn [trace fst requests_of flat_map]. rewrite app_nil_r. apply perform_one. }
  destruct (gate_rejects intent) as [[|]|e]; try (simpl; lia).
  destruct (execute rt sv intent) as [t2 [result|e]]; cbn [trace fst] in Hex.
  - destruct (Py.getitem (PDict intent) k_action) as [a|e].
    + specialize (Hgen a result).
      destruct (format_response rt sv a result) as [t3 [f|e]];
        cbn [trace fst] in Hgen |- *;
        unfold requests_of in *; rewrite !flat_map_app, Hgen, app_nil_r;
        simpl; exact Hex.
    + cbn [trace fst]. unfold requests_of in *. rewrite flat_map_app.
      simpl; exact Hex.
  - cbn [trace fst]. unfold requests_of in *. rewrite flat_map_app.
    simpl; exact Hex.
Qed.

(** ** The models of the language-model server *)

Lemma names_of_ok (ms names : list pyval) :
  names_of ms = Ok names ->
  Forall2 (fun m n => Py.getitem m (py "name") = Ok n) ms names.
Proof.
  revert names; induction ms as [|m ms IH]; intros names H.
  - injection H as <-. constructor.
  - cbn [names_of] in H.
    destruct (Py.getitem m (py "name")) as [n|e] eqn:En; [|discriminate].
    cbn [rbind] in H. destruct (names_of ms) as [ns|e]; [|discriminate].
    injection H as <-. constructor; [assumption | now apply IH].
Qed.

Lemma names_of_raise (ms : list pyval) (e : exn) :
  names_of ms = Raise e ->
  exists m e', In m ms /\ Py.getitem m (py "name") = Raise e'.
Proof.
  revert e; induction ms as [|m ms IH]; intros e; [discriminate|].
  cbn [names_of].
  destruct (Py.getitem m (py "name")) as [n|e1] eqn:En.
  - cbn [rbind]. destruct (names_of ms) as [ns|e2]; [discriminate|].
    intros _. destruct (IH e2 eq_refl) as (m' & e' & Hin & Hm).
    exists m', e'. split; [now right | assumption].
  - intros _. exists m, e1. split; [now left | assumption].
Qed.

(** X21. [list_models] is all or nothing: from a reply whose "models" is a
    list it returns the "name" of every entry, in order, when every entry
    has one; a single entry without a name makes it return the empty
    list. *)
Theorem list_models_all_or_nothing
  (status : Z) (text : str) (d : dict) (ms : list pyval) :
  Dict.get (py "models") d = Some (PList ms) ->
  Forall2 (fun m n => Py.getitem m (py "name") = Ok n) ms
    (list_models (Http.Response status text (Ok (PDict d))))
  \/ (list_models (Http.Response status text (Ok (PDict d))) = []
      /\ exists m e, In m ms /\ Py.getitem m (py "name") = Raise e).
Proof.
  intros Hm. unfold list_models. cbn [rbind Py.get]. rewrite Hm.
  cbn [py_iter rbind]. destruct (names_of ms) as [names|e] eqn:En.
  - left. now apply names_of_ok.
  - right. split; [reflexivity | now apply names_of_raise with e].
Qed.

Lemma list_models_all_or_nothing_witness :
  Forall2 (fun m n => Py.getitem m (py "name") = Ok n)
    [PDict [(py "name", PStr (py "qwen2.5-coder:7b"))];
     PDict [(py "name", PStr (py "llama3"))]]
    (list_models
       (Http.Response 200 []
          (Ok (PDict [(py "models",
                       PList [PDict [(py "name", PStr (py "qwen2.5-coder:7b"))];
                              PDict [(py "name", PStr (py "llama3"))]])]))))
  \/ (list_models
        (Http.Response 200 []
           (Ok (PDict [(py "models",
                        PList [PDict [(py "name", PStr (py "qwen2.5-coder:7b"))];
                               PDict [(py "name", PStr (py "llama3"))]])])))
      = []
      /\ exists m e,
           In m [PDict [(py "name", PStr (py "qwen2.5-coder:7b"))];
                 PDict [(py "name", PStr (py "llama3"))]]
           /\ Py.getitem m (py "name") = Raise e).
Proof.
  apply (list_models_all_or_nothing 200 []
           [(py "models",
             PList [PDict [(py "name", PStr (py "qwen2.5-coder:7b"))];
                    PDict [(py "name", PStr (py "llama3"))]])]).
  reflexivity.
Defined.

Example list_models_one_nameless :
  list_models
    (Http.Response 200 []
       (Ok (PDict [(py "models",
                    PList [PDict [(py "name", PStr (py "llama3"))];
                           PDict [(py "model", PStr (py "phi3"))]])])))
  = [].
Proof. reflexivity. Qed.

(** ** The stored token *)

Example dump_indented :
  RefIndent.dump
    (PDict [(k_github_token, PStr (py "abc"));
            (py "seen", PList [PInt 1; PBool true; PNone]);
            (k_github_user, PDict [(py "login", PStr (py "zé")); (py "tags", PList [])])])
  = pyq "{
  'github_token': 'abc',
  'seen': [
    1,
    true,
    null
  ],
  'github_user': {
    'login': 'z\u00e9',
    'tags': []
  }
}".
Proof. vm_compute. reflexivity. Qed.

Lemma get_remove_same (k : str) (d : dict) : Dict.get k (dict_remove k d) = None.
Proof.
  induction d as [|[k' v] d IH]; [reflexivity|]. simpl.
  destruct (PyStr.eqb k k') eqn:E; [assumption|]. simpl. now rewrite E.
Qed.

Lemma get_remove_other (k k' : str) (d : dict) :
  k <> k' -> Dict.get k (dict_remove k' d) = Dict.get k d.
Proof.
  intros Hk. induction d as [|[k2 v] d IH]; [reflexivity|]. simpl.
  destruct (PyStr.eqb k' k2) eqn:E.
  - apply eqb_eq in E. subst k2. apply eqb_neq in Hk. now rewrite Hk.
  - simpl. now rewrite IH.
Qed.

(** X22. Right after [set_github_token], whether or not writing the file
    went through, [get_github_token] returns the token just set: the
    session is written first and read first. *)
Theorem token_set_then_read
  (rt : Runtime) (dump_config : pyval -> str) (now : str)
  (st st' : store) (token : str) (user_info : pyval) (r : result unit) :
  set_github_token rt dump_config now st token user_info = (st', r) ->
  get_github_token rt st' = Ok (PStr token).
Proof.
  unfold set_github_token, get_github_token. intros H.
  assert (Hs : Dict.get k_github_token (session st') = Some (PStr token)).
  { destruct (load_config rt _) as [[| | | | | |config]|e];
      try (injection H as <- _; apply get_set_same).
    destruct (Py.truthy user_info); injection H as <- _; cbn [session save_config].
    - rewrite get_set_other by discriminate. apply get_set_same.
    - apply get_set_same. }
  now rewrite Hs.
Qed.

Lemma token_set_then_read_witness :
  get_github_token Ref.runtime
    (fst (set_github_token Ref.runtime RefIndent.dump (py "2026-01-01T00:00:00")
            {| session := []; config_file := Some (py "not json") |}
            (py "ghp_abc") PNone))
  = Ok (PStr (py "ghp_abc")).
Proof.
  apply (token_set_then_read Ref.runtime RefIndent.dump (py "2026-01-01T00:00:00")
           {| session := []; config_file := Some (py "not json") |} _
           (py "ghp_abc") PNone (Raise JSONDecodeError)).
  vm_compute. reflexivity.
Defined.

(** X23. A [set_github_token] that returns has written a configuration
    that holds the token; in a new session over the same file, provided
    the decoder reads back what was written, [get_github_token] returns
    that token. *)
Theorem token_survives_restart
  (rt : Runtime) (dump_config : pyval -> str) (now : str)
  (st st' : store) (token : str) (user_info : pyval) :
  set_github_token rt dump_config now st token user_info = (st', Ok tt) ->
  exists config,
    config_file st' = Some (dump_config (PDict config))
    /\ Dict.get k_github_token config = Some (PStr token)
    /\ Dict.get k_token_set_at config = Some (PStr now)
    /\ (json_loads rt (dump_config (PDict config)) = Ok (PDict config) ->
        get_github_token rt (restarted st') = Ok (PStr token)).
Proof.
  unfold set_github_token. intros H.
  destruct (load_config rt _) as [[| | | | | |config]|e]; try discriminate.
  assert (Hread : forall cfg,
             Dict.get k_github_token cfg = Some (PStr token) ->
             json_loads rt (dump_config (PDict cfg)) = Ok (PDict cfg) ->
             get_github_token rt
               (restarted {| session := session st';
                             config_file := Some (dump_config (PDict cfg)) |})
             = Ok (PStr token)).
  { intros cfg Hg Hl. unfold get_github_token, restarted, load_config.
    cbn [session config_file Dict.get]. rewrite Hl. cbn [rbind Py.get].
    now rewrite Hg. }
  destruct (Py.truthy user_info); injection H as <-; eexists;
    (split; [reflexivity|]); cbn [session config_file save_config restarted] in *.
  - assert (Hg : Dict.get k_github_token
                   (Dict.set k_github_user user_info
                      (Dict.set k_token_set_at (PStr now)
                         (Dict.set k_github_token (PStr token) config)))
                 = Some (PStr token)).
    { rewrite !get_set_other by discriminate. apply get_set_same. }
    split; [exact Hg|]. split.
    + rewrite get_set_other by discriminate. apply get_set_same.
    + intros Hl. now apply (Hread _ Hg Hl).
  - assert (Hg : Dict.get k_github_token
                   (Dict.set k_token_set_at (PStr now)
                      (Dict.set k_github_token (PStr token) config))
                 = Some (PStr token)).
    { rewrite !get_set_other by discriminate. apply get_set_same. }
    split; [exact Hg|]. split; [apply get_set_same|].
    intros Hl. now apply (Hread _ Hg Hl).
Qed.

Lemma token_survives_restart_witness :
  exists config,
    config_file
      (fst (set_github_token Ref.runtime RefIndent.dump (py "2026-01-01T00:00:00")
              {| session := []; config_file := None |} (py "ghp_abc")
              (PDict [(py "login", PStr (py "octocat"))])))
    = Some (RefIndent.dump (PDict config))
    /\ Dict.get k_github_token config = Some (PStr (py "ghp_abc"))
    /\ Dict.get k_token_set_at config = Some (PStr (py "2026-01-01T00:00:00"))
    /\ (json_loads Ref.runtime (RefIndent.dump (PDict config)) = Ok (PDict config) ->
        get_github_token Ref.runtime
          (restarted
             (fst (set_github_token Ref.runtime RefIndent.dump
                     (py "2026-01-01T00:00:00")
                     {| session := []; config_file := None |} (py "ghp_abc")
                     (PDict [(py "login", PStr (py "octocat"))]))))
        = Ok (PStr (py "ghp_abc"))).
Proof.
  apply (token_survives_restart Ref.runtime RefIndent.dump
           (py "2026-01-01T00:00:00")
           {| session := []; config_file := None |} _ (py "ghp_abc")
           (PDict [(py "login", PStr (py "octocat"))])).
  vm_compute. reflexivity.
Defined.

Example token_written_and_read_back :
  get_github_token Ref.runtime
    (restarted
       (fst (set_github_token Ref.runtime RefIndent.dump (py "2026-01-01T00:00:00")
               {| session := []; config_file := None |} (py "ghp_abc")
               (PDict [(py "login", PStr (py "zé"))]))))
  = Ok (PStr (py "ghp_abc")).
Proof. vm_compute. reflexivity. Qed.

(** X24. A [clear_github_token] that returns leaves no token in the
    session and has written a configuration without token and user, its
    other keys untouched; provided the decoder reads back what was
    written, [get_github_token] then returns the empty string. *)
Theorem logout_clears_token
  (rt : Runtime) (dump_config : pyval -> str) (st st' : store) :
  clear_github_token rt dump_config st = (st', Ok tt) ->
  Dict.get k_github_token (session st') = None
  /\ exists old config,
       load_config rt st = Ok (PDict old)
       /\ config_file st' = Some (dump_config (PDict config))
       /\ Dict.get k_github_token config = None
       /\ Dict.get k_github_user config = None
       /\ (forall k, k <> k_github_token -> k <> k_github_user ->
                     Dict.get k config = Dict.get k old)
       /\ (json_loads rt (dump_config (PDict config)) = Ok (PDict config) ->
           get_github_token rt st' = Ok (PStr [])).
Proof.
  unfold clear_github_token. intros H.
  change (load_config rt {| session := _; config_file := config_file st |})
    with (load_config rt st) in H.
  destruct (load_config rt st) as [[| | | | | |old]|e] eqn:Hload;
    try discriminate.
  injection H as <-. cbn [session config_file save_config].
  assert (Hs : Dict.get k_github_token
                 (dict_remove k_github_user
                    (dict_remove k_github_token (session st))) = None).
  { rewrite get_remove_other by discriminate. apply get_remove_same. }
  split; [exact Hs|].
  exists old, (dict_remove k_github_user (dict_remove k_github_token old)).
  assert (Hc : Dict.get k_github_token
                 (dict_remove k_github_user (dict_remove k_github_token old))
               = None).
  { rewrite get_remove_other by discriminate. apply get_remove_same. }
  repeat split; try assumption.
  - apply get_remove_same.
  - intros k Hk1 Hk2. now rewrite !get_remove_other.
  - intros Hl. unfold get_github_token, load_config, save_config.
    cbn [session config_file]. rewrite Hs, Hl. cbn [rbind Py.get].
    now rewrite Hc.
Qed.

Lemma logout_clears_token_witness :
  Dict.get k_github_token
    (session
       (fst (clear_github_token Ref.runtime RefIndent.dump
               {| session := [(k_github_token, PStr (py "ghp_abc"))];
                  config_file :=
                    Some (pyq "{'github_token': 'ghp_abc', 'token_set_at': 'x'}") |})))
  = None.
Proof.
  apply (proj1 (logout_clears_token Ref.runtime RefIndent.dump
                  {| session := [(k_github_token, PStr (py "ghp_abc"))];
                     config_file :=
                       Some (pyq "{'github_token': 'ghp_abc', 'token_set_at': 'x'}") |}
                  _ eq_refl)).
Defined.

Example logout_then_read :
  get_github_token Ref.runtime
    (fst (clear_github_token Ref.runtime RefIndent.dump
            {| session := [(k_github_token, PStr (py "ghp_abc"))];
               config_file :=
                 Some (pyq "{'github_token': 'ghp_abc', 'token_set_at': 'x'}") |}))
  = Ok (PStr []).
Proof. vm_compute. reflexivity. Qed.

(** A configuration file that does not decode makes both the reading and
    the logout raise. *)
Example broken_file_raises :
  get_github_token Ref.runtime {| session := []; config_file := Some (py "{") |}
  = Raise JSONDecodeError
  /\ snd (clear_github_token Ref.runtime RefIndent.dump
            {| session := []; config_file := Some (py "{") |})
     = Raise JSONDecodeError.
Proof. split; vm_compute; reflexivity. Qed.

(** ** The generation test *)


